(** * Vector Tiles Reader: tile sources and the decode/aggregate pipeline

    A shallow embedding of [tile_source.py] (the two tile sources
    [MBTilesSource] and [ServerSource]) and of [vt_reader.py] (the
    [VtReader] decode, reprojection and aggregation steps), with the
    properties of the specification stated over it.

    Python objects become records that are threaded through a state and
    exception monad; a raised exception keeps the mutations made so far,
    as in Python. *)

From Stdlib Require Import ZArith List String Ascii Bool Lia DecimalString.
From Stdlib Require Import Floats Uint63.
From stdpp Require Import gmap strings list.

Local Open Scope string_scope.
Local Open Scope list_scope.
Local Open Scope Z_scope.

(** ** Python values, exceptions and the state monad *)

(** The dynamically typed values that flow through the tile sources:
    [None], integers, (byte) strings and binary blobs. *)
Inductive PyValue :=
| PNone
| PInt (z : Z)
| PStr (s : string)
| PBlob (b : string).

#[global] Instance PyValue_eq_dec : EqDecision PyValue.
Proof. solve_decision. Defined.

(** Python truthiness ([if v:]). *)
Definition truthy (v : PyValue) : bool :=
  match v with
  | PNone => false
  | PInt z => negb (z =? 0)
  | PStr s => negb (String.eqb s "")
  | PBlob b => negb (String.eqb b "")
  end.

Inductive Exn :=
| AttributeError
| IndexError
| KeyError
| TypeError
| ValueError
| OverflowError
| AssertionError
| OperationalError.

Inductive Outcome (A : Type) :=
| Ok (a : A)
| Raised (e : Exn).
Arguments Ok {A} a.
Arguments Raised {A} e.

(** A computation over a mutable object of type [S]: it returns a value
    or raises, and in both cases leaves the object in its new state. *)
Definition M (S A : Type) : Type := S -> Outcome A * S.

Definition ret {S A} (a : A) : M S A := fun s => (Ok a, s).
Definition raise {S A} (e : Exn) : M S A := fun s => (Raised e, s).
Definition bind {S A B} (m : M S A) (k : A -> M S B) : M S B :=
  fun s =>
    match m s with
    | (Ok a, s') => k a s'
    | (Raised e, s') => (Raised e, s')
    end.
Definition gets {S A} (f : S -> A) : M S A := fun s => (Ok (f s), s).
Definition modify {S} (f : S -> S) : M S unit := fun s => (Ok tt, f s).

(** [try: m except: h] with a bare [except]. *)
Definition try_except {S A} (m : M S A) (h : M S A) : M S A :=
  fun s =>
    match m s with
    | (Ok a, s') => (Ok a, s')
    | (Raised _, s') => h s'
    end.

(** What a run returned, and the object it left behind. *)
Definition returned {S A} (m : M S A) (s : S) : Outcome A := (m s).1.
Definition final {S A} (m : M S A) (s : S) : S := (m s).2.

Notation "x <- m ;; k" := (bind m (fun x => k))
  (at level 100, m at next level, right associativity).
Notation "m ;;; k" := (bind m (fun _ => k))
  (at level 100, right associativity).

(** [str(n)] / ["{}".format(n)] for an integer. *)
Definition str (z : Z) : string := NilZero.string_of_int (Z.to_int z).

(** The blanks [int(s)] strips from both ends of a string: space, tab,
    newline, vertical tab, form feed and carriage return. *)
Definition is_space (a : ascii) : bool :=
  let n := nat_of_ascii a in
  (n =? 32)%nat || ((9 <=? n)%nat && (n <=? 13)%nat).

(** The value of a decimal digit. *)
Definition digit_of (a : ascii) : option Z :=
  let n := Z.of_nat (nat_of_ascii a) in
  if (48 <=? n) && (n <=? 57) then Some (n - 48) else None.

Fixpoint lstrip (l : list ascii) : list ascii :=
  match l with
  | a :: rest => if is_space a then lstrip rest else l
  | [] => []
  end.

(** [s.strip()] on the characters of [s]. *)
Definition strip (l : list ascii) : list ascii :=
  rev (lstrip (rev (lstrip l))).

(** The number written by a run of digits, after the digits [acc] stands
    for; [None] when a character is no digit. *)
Fixpoint digits_value (acc : Z) (l : list ascii) : option Z :=
  match l with
  | [] => Some acc
  | a :: rest =>
      match digit_of a with
      | Some d => digits_value (10 * acc + d) rest
      | None => None
      end
  end.

(** One digit at least. *)
Definition number_value (l : list ascii) : option Z :=
  match l with
  | [] => None
  | _ => digits_value 0 l
  end.

(** [int(s)] for a string: blanks around the number are dropped, a sign
    [+] or [-] may precede the digits, and there is one digit at least;
    such a string converts to the number it writes.  Every other string is
    taken to raise [ValueError] ([None] here).  A few of them convert in
    one Python version or another (digit separators, a blank after the
    sign, digits outside ASCII); a string without any digit converts in
    none. *)
Definition int_of_str (s : string) : option Z :=
  match strip (list_ascii_of_string s) with
  | "+"%char :: digits => number_value digits
  | "-"%char :: digits => Z.opp <$> number_value digits
  | digits => number_value digits
  end.

(** One argument set of a progress-handler call:
    [handler(msg=..., max_progress=..., progress=...)]. *)
Record ProgressCall := {
  pc_msg : option string;
  pc_max_progress : option nat;
  pc_progress : option nat
}.

Definition announce_max (n : nat) : ProgressCall :=
  {| pc_msg := None; pc_max_progress := Some n; pc_progress := None |}.
Definition announce_msg (m : string) (n : nat) : ProgressCall :=
  {| pc_msg := Some m; pc_max_progress := Some n; pc_progress := None |}.
Definition progress_at (n : nat) : ProgressCall :=
  {| pc_msg := None; pc_max_progress := None; pc_progress := Some n |}.

(** The [for_each] argument of [load_tiles]: a callable.  The only way it
    can act on the source is through [cancel()]; [fe k] tells whether its
    [k]-th invocation (counted from 0 within one [load_tiles] call) does. *)
Definition ForEach := nat -> bool.

(** A callback that never cancels. *)
Definition never_cancels : ForEach := fun _ => false.

(** The same [for_each] argument with its calls to [cancel()] taken out. *)
Definition uncancelled (for_each : option ForEach) : option ForEach :=
  match for_each with
  | Some _ => Some never_cancels
  | None => None
  end.

(** A prefix that is not the whole list. *)
Definition strict_prefix {A} (l1 l2 : list A) : Prop :=
  l1 `prefix_of` l2 /\ l1 <> l2.

(** The callback calls [cancel()] on its turn [k], and on no turn before
    it. *)
Definition first_cancel (for_each : option ForEach) (k : nat) : Prop :=
  exists f, for_each = Some f /\ f k = true
            /\ forall j, (j < k)%nat -> f j = false.

(** ** Tiles and rows *)

(** Modelled from the spec: [tile_helper.VectorTile], whose source is not
    part of the two files.  The spec (section 3, TileCoordinate) makes it the
    immutable identity of a tile: it stores the scheme, zoom level, column
    and row it was built from; the scheme does not change stored values. *)
Record VectorTile := {
  scheme_of : PyValue;
  zoom_level : PyValue;
  column : PyValue;
  row : PyValue
}.

#[global] Instance VectorTile_eq_dec : EqDecision VectorTile.
Proof. solve_decision. Defined.

(** A key of the loaded-tile list: the tuple [(zoom, col, row)]. *)
Definition TileKey : Type := PyValue * PyValue * PyValue.

(** [(zoom, col, row) in self._loaded_tiles]. *)
Definition key_in (k : TileKey) (l : list TileKey) : bool :=
  bool_decide (k ∈ l).

(** A [sqlite3.Row]: values addressable by column name. *)
Definition Row : Type := list (string * PyValue).

Fixpoint row_lookup (r : Row) (k : string) : option PyValue :=
  match r with
  | [] => None
  | (c, v) :: r' => if String.eqb c k then Some v else row_lookup r' k
  end.

(** [row[k]]: raises [IndexError] when the row has no such column. *)
Definition row_get {S} (r : Row) (k : string) : M S PyValue :=
  match row_lookup r k with
  | Some v => ret v
  | None => raise IndexError
  end.

(** An open database connection, seen through the one use the archive
    source makes of it: [cur.execute(sql); cur.fetchall()].  [None] stands
    for the exception sqlite raises on a failing statement. *)
Definition Connection : Type := string -> option (list Row).

(** The row of the [tiles] table as the tile query selects it. *)
Definition tile_row (z c r : Z) (data : string) : Row :=
  [("zoom_level", PInt z); ("tile_column", PInt c);
   ("tile_row", PInt r); ("tile_data", PBlob data)].

(** ** The archive source: [MBTilesSource] *)

Module MBTiles.

Record MBTilesSource := {
  path : string;
  conn : option Connection;
  _metadata_cache : gmap string PyValue;
  _loaded_tiles : list TileKey;
  (** [true] once a callable was installed; calling [None] raises. *)
  _progress_handler : bool;
  _cancelling : bool;
  (** Ghost: the calls the progress handler received, oldest first. *)
  reported : list ProgressCall
}.

Definition with_conn (c : option Connection) (s : MBTilesSource) :=
  {| path := path s; conn := c; _metadata_cache := _metadata_cache s;
     _loaded_tiles := _loaded_tiles s; _progress_handler := _progress_handler s;
     _cancelling := _cancelling s; reported := reported s |}.
Definition with_cache (m : gmap string PyValue) (s : MBTilesSource) :=
  {| path := path s; conn := conn s; _metadata_cache := m;
     _loaded_tiles := _loaded_tiles s; _progress_handler := _progress_handler s;
     _cancelling := _cancelling s; reported := reported s |}.
Definition with_loaded (l : list TileKey) (s : MBTilesSource) :=
  {| path := path s; conn := conn s; _metadata_cache := _metadata_cache s;
     _loaded_tiles := l; _progress_handler := _progress_handler s;
     _cancelling := _cancelling s; reported := reported s |}.
Definition with_handler (h : bool) (s : MBTilesSource) :=
  {| path := path s; conn := conn s; _metadata_cache := _metadata_cache s;
     _loaded_tiles := _loaded_tiles s; _progress_handler := h;
     _cancelling := _cancelling s; reported := reported s |}.
Definition with_cancelling (b : bool) (s : MBTilesSource) :=
  {| path := path s; conn := conn s; _metadata_cache := _metadata_cache s;
     _loaded_tiles := _loaded_tiles s; _progress_handler := _progress_handler s;
     _cancelling := b; reported := reported s |}.
Definition with_reported (l : list ProgressCall) (s : MBTilesSource) :=
  {| path := path s; conn := conn s; _metadata_cache := _metadata_cache s;
     _loaded_tiles := _loaded_tiles s; _progress_handler := _progress_handler s;
     _cancelling := _cancelling s; reported := l |}.

(** [MBTilesSource(path)] once the sqlite check of the constructor passed. *)
Definition new (p : string) : MBTilesSource :=
  {| path := p; conn := None; _metadata_cache := ∅; _loaded_tiles := [];
     _progress_handler := false; _cancelling := false; reported := [] |}.

(** [bounds]: a pair of [(column, row)] corners, in any order. *)
Definition Bounds : Type := (Z * Z) * (Z * Z).

Definition py_opt (z : option Z) : PyValue :=
  match z with Some n => PInt n | None => PNone end.

Section Source.

(** [sqlite3.connect(path)]: [None] when it raises. *)
Variable sqlite3_connect : string -> option Connection.

Definition cancel : M MBTilesSource unit := modify (with_cancelling true).

Definition set_progress_handler : M MBTilesSource unit :=
  modify (with_handler true).

(** [self._progress_handler(...)]. *)
Definition call_progress_handler (c : ProgressCall) : M MBTilesSource unit :=
  fun s =>
    if _progress_handler s
    then (Ok tt, with_reported (reported s ++ [c]) s)
    else (Raised TypeError, s).

(** [if for_each: for_each()], at its [k]-th turn. *)
Definition call_for_each (for_each : option ForEach) (k : nat)
  : M MBTilesSource unit :=
  match for_each with
  | Some fe => if fe k then cancel else ret tt
  | None => ret tt
  end.

Definition _connect_to_db : M MBTilesSource unit :=
  p <- gets path ;;
  match sqlite3_connect p with
  | Some c => modify (with_conn (Some c))
  | None => ret tt
  end.

(** Returns the fetched rows, or [None] after a swallowed failure. *)
Definition _get_from_db (sql : string) : M MBTilesSource (option (list Row)) :=
  c <- gets conn ;;
  (match c with None => _connect_to_db | Some _ => ret tt end) ;;;
  try_except
    (c <- gets conn ;;
     match c with
     | None => raise AttributeError
     | Some execute =>
         match execute sql with
         | Some rows => ret (Some rows)
         | None => raise OperationalError
         end
     end)
    (ret None).

Definition _get_single_value (sql_query field_name : string)
  : M MBTilesSource PyValue :=
  try_except
    (rows <- _get_from_db sql_query ;;
     match rows with
     | Some (r0 :: _) => row_get r0 field_name
     | _ => ret PNone
     end)
    (ret PNone).

Definition metadata_sql (field_name : string) : string :=
  "select value as '" +:+ field_name +:+ "' from metadata where name = '"
    +:+ field_name +:+ "'".

Definition _get_metadata_value (field_name : string) (default : PyValue)
  : M MBTilesSource PyValue :=
  cache <- gets _metadata_cache ;;
  (match cache !! field_name with
   | None =>
       value <- _get_single_value (metadata_sql field_name) field_name ;;
       let value :=
         if truthy default && negb (truthy value) then default else value in
       modify (fun s => with_cache (<[field_name := value]> (_metadata_cache s)) s)
   | Some _ => ret tt
   end) ;;;
  cache <- gets _metadata_cache ;;
  match cache !! field_name with
  | Some v => ret v
  | None => raise KeyError
  end.

(** The query text of [_get_zoom_from_tiles_table]: four adjacent string
    literals, concatenated as Python concatenates them, then formatted. *)
Definition zoom_sql (order : string) : string :=
  "select zoom_level as 'zoom_level'" +:+ "from tiles" +:+
  "order by zoom_level " +:+ order +:+ "limit 1".

Definition _get_zoom_from_tiles_table (max_zoom : bool)
  : M MBTilesSource PyValue :=
  let order := if max_zoom then "desc" else "asc" in
  _get_single_value (zoom_sql order) "zoom_level".

(** [int(v)]. *)
Definition py_int (v : PyValue) : M MBTilesSource PyValue :=
  match v with
  | PInt z => ret (PInt z)
  | PStr s =>
      match int_of_str s with
      | Some z => ret (PInt z)
      | None => raise ValueError
      end
  | PBlob b =>
      match int_of_str b with
      | Some z => ret (PInt z)
      | None => raise ValueError
      end
  | PNone => raise TypeError
  end.

Definition _get_zoom (max_zoom : bool) : M MBTilesSource PyValue :=
  let field_name := if max_zoom then "maxzoom" else "minzoom" in
  cache <- gets _metadata_cache ;;
  (match cache !! field_name with
   | None =>
       zoom <- _get_metadata_value field_name PNone ;;
       zoom <- (match zoom with
                | PNone => _get_zoom_from_tiles_table max_zoom
                | _ => ret zoom
                end) ;;
       zoom <- (match zoom with
                | PNone => ret zoom
                | _ => py_int zoom
                end) ;;
       modify (fun s => with_cache (<[field_name := zoom]> (_metadata_cache s)) s)
   | Some _ => ret tt
   end) ;;;
  cache <- gets _metadata_cache ;;
  match cache !! field_name with
  | Some v => ret v
  | None => raise KeyError
  end.

Definition min_zoom : M MBTilesSource PyValue := _get_zoom false.
Definition max_zoom : M MBTilesSource PyValue := _get_zoom true.
Definition mask_level : M MBTilesSource PyValue :=
  _get_metadata_value "maskLevel" PNone.
Definition scheme : M MBTilesSource PyValue :=
  _get_metadata_value "scheme" (PStr "tms").

Definition _add_loaded_tile (zoom col row : PyValue) : M MBTilesSource unit :=
  modify (fun s => with_loaded (_loaded_tiles s ++ [(zoom, col, row)]) s).

Definition is_tile_loaded (zoom col row : PyValue) : M MBTilesSource bool :=
  gets (fun s => key_in (zoom, col, row) (_loaded_tiles s)).

Definition _create_tile (r : Row) : M MBTilesSource (VectorTile * PyValue) :=
  zoom_level <- row_get r "zoom_level" ;;
  tile_col <- row_get r "tile_column" ;;
  tile_row <- row_get r "tile_row" ;;
  binary_data <- row_get r "tile_data" ;;
  sch <- scheme ;;
  ret ({| scheme_of := sch; zoom_level := zoom_level;
          column := tile_col; row := tile_row |}, binary_data).

Definition where_clause (zoom_level : option Z) (bounds : option Bounds)
  : string :=
  match zoom_level, bounds with
  | None, None => ""
  | _, _ =>
      "WHERE" +:+
      (match zoom_level with
       | Some z =>
           " zoom_level = " +:+ str z +:+
           (match bounds with Some _ => " AND" | None => "" end)
       | None => ""
       end) +:+
      (match bounds with
       | Some (c0, r0, (c1, r1)) =>
           " tile_column BETWEEN " +:+ str (Z.min c0 c1) +:+ " AND "
             +:+ str (Z.max c0 c1) +:+
           " and tile_row BETWEEN " +:+ str (Z.min r0 r1) +:+ " AND "
             +:+ str (Z.max r0 r1)
       | None => ""
       end)
  end.

Definition limit_clause (max_tiles : option Z) : string :=
  match max_tiles with
  | Some n => "LIMIT " +:+ str n
  | None => ""
  end.

Definition sql_command (zoom_level : option Z) (bounds : option Bounds)
  (max_tiles : option Z) : string :=
  "SELECT zoom_level, tile_column, tile_row, tile_data FROM tiles "
    +:+ where_clause zoom_level bounds +:+ " " +:+ limit_clause max_tiles
    +:+ ";".

(** The body of [for index, row in enumerate(rows)], from [index] on, with
    the tuples accumulated so far. *)
Fixpoint load_rows (zoom_level : option Z) (for_each : option ForEach)
  (index : nat) (rows : list Row) (tile_data_tuples : list (VectorTile * PyValue))
  : M MBTilesSource (list (VectorTile * PyValue)) :=
  match rows with
  | [] => ret tile_data_tuples
  | r :: rest =>
      call_for_each for_each index ;;;
      cancelling <- gets _cancelling ;;
      if cancelling : bool then ret tile_data_tuples
      else
        td <- _create_tile r ;;
        loaded <- is_tile_loaded (py_opt zoom_level) (column td.1) (row td.1) ;;
        tuples <- (if loaded : bool then ret tile_data_tuples
                   else
                     _add_loaded_tile (py_opt zoom_level) (column td.1) (row td.1) ;;;
                     ret (tile_data_tuples ++ [td])) ;;
        call_progress_handler (progress_at (index + 1)) ;;;
        load_rows zoom_level for_each (S index) rest tuples
  end.

Definition load_tiles (zoom_level : option Z) (bounds : option Bounds)
  (max_tiles : option Z) (for_each : option ForEach)
  : M MBTilesSource (list (VectorTile * PyValue)) :=
  modify (with_cancelling false) ;;;
  rows <- _get_from_db (sql_command zoom_level bounds max_tiles) ;;
  match rows with
  | Some (r :: rest) =>
      call_progress_handler (announce_max (length (r :: rest))) ;;;
      load_rows zoom_level for_each 0 (r :: rest) []
  | _ => ret []
  end.

(** The body of the loop for one row, once the cancel flag was polled:
    [load_rows] is [row_step] after the poll, then the rest of the rows. *)
Definition row_step (zoom_level : option Z) (index : nat) (r : Row)
  (acc : list (VectorTile * PyValue))
  : M MBTilesSource (list (VectorTile * PyValue)) :=
  td <- _create_tile r ;;
  loaded <- is_tile_loaded (py_opt zoom_level) (column td.1) (row td.1) ;;
  tuples <- (if loaded : bool then ret acc
             else
               _add_loaded_tile (py_opt zoom_level) (column td.1) (row td.1) ;;;
               ret (acc ++ [td])) ;;
  call_progress_handler (progress_at (index + 1)) ;;;
  ret tuples.

(** *** Vocabulary of the statements about the archive source *)

(** The source can report progress, is not cancelling, and its scheme
    is [v]. *)
Definition ready (v : PyValue) (s : MBTilesSource) : Prop :=
  _progress_handler s = true /\ _cancelling s = false
  /\ (scheme s).1 = Ok v.

(** What a call leaves alone when it only touches the connection and the
    metadata cache. *)
Definition same_run (s s' : MBTilesSource) : Prop :=
  path s' = path s /\ _loaded_tiles s' = _loaded_tiles s
  /\ _progress_handler s' = _progress_handler s
  /\ _cancelling s' = _cancelling s /\ reported s' = reported s.

(** The statement [sql] fails on this source: the connection cannot be
    opened, or the statement raises. *)
Definition db_fails (s : MBTilesSource) (sql : string) : Prop :=
  match conn s with
  | Some execute => execute sql = None
  | None =>
      match sqlite3_connect (path s) with
      | Some execute => execute sql = None
      | None => True
      end
  end.

(** The statement [sql] succeeds on this source and fetches [rows]. *)
Definition db_returns (s : MBTilesSource) (sql : string) (rows : list Row)
  : Prop :=
  match conn s with
  | Some execute => execute sql = Some rows
  | None =>
      match sqlite3_connect (path s) with
      | Some execute => execute sql = Some rows
      | None => False
      end
  end.

End Source.

(** A record of the [tiles] table: zoom level, column, row, data. *)
Definition TileRec : Type := Z * Z * Z * string.

Definition row_of (t : TileRec) : Row :=
  let '(z, c, r, d) := t in tile_row z c r d.

Definition tile_of (sch : PyValue) (t : TileRec) : VectorTile * PyValue :=
  let '(z, c, r, d) := t in
  ({| scheme_of := sch; zoom_level := PInt z; column := PInt c; row := PInt r |},
   PBlob d).

Definition key_of (zoom : PyValue) (t : TileRec) : TileKey :=
  let '(_, c, r, _) := t in (zoom, PInt c, PInt r).

(** The records of [rows] an uncancelled loop appends, given the keys
    already loaded: those whose key, built with [zoom], is new. *)
Fixpoint kept (zoom : PyValue) (loaded : list TileKey) (rows : list TileRec)
  : list TileRec :=
  match rows with
  | [] => []
  | t :: rest =>
      if key_in (key_of zoom t) loaded then kept zoom loaded rest
      else t :: kept zoom (loaded ++ [key_of zoom t]) rest
  end.

(** The records an uncancelled loop still appends after its first [k]
    rows. *)
Definition kept_after (zoom : PyValue) (loaded : list TileKey) (k : nat)
  (rows : list TileRec) : list TileRec :=
  kept zoom (loaded ++ map (key_of zoom) (kept zoom loaded (take k rows)))
       (drop k rows).

(** The tile sits at column [c], row [r]. *)
Definition at_cell (c r : Z) (td : VectorTile * PyValue) : bool :=
  bool_decide (column td.1 = PInt c) && bool_decide (row td.1 = PInt r).

(** The record sits at column [c], row [r]. *)
Definition cell (c r : Z) (t : TileRec) : bool :=
  let '(_, c', r', _) := t in (c' =? c) && (r' =? r).

(** The callback, if any, never cancels. *)
Definition quiet (fe : option ForEach) : Prop :=
  match fe with
  | Some f => forall k, f k = false
  | None => True
  end.

End MBTiles.

(** ** A model of the tabular store

    The store is an external collaborator (sqlite).  This is a small
    executable model of it, used to run the archive source on concrete
    archives: a database of the two tables, a tokenizer, and the three
    statement shapes the archive source issues.  Any other text is a
    syntax error, for which [run] gives [None]. *)

Module Sqlite.

Record Database := {
  metadata : list (string * string);
  tiles : list (Z * Z * Z * string)
}.

Inductive Token :=
| TWord (w : string)
| TText (s : string)
| TSym (c : ascii).

#[global] Instance Token_eq_dec : EqDecision Token.
Proof. solve_decision. Defined.

Definition is_space (c : ascii) : bool :=
  let n := nat_of_ascii c in
  (n =? 32)%nat || (n =? 9)%nat || (n =? 10)%nat || (n =? 13)%nat.

Definition is_word_char (c : ascii) : bool :=
  let n := nat_of_ascii c in
  ((48 <=? n) && (n <=? 57))%nat || ((65 <=? n) && (n <=? 90))%nat
  || ((97 <=? n) && (n <=? 122))%nat || (n =? 95)%nat.

(** Keywords and identifiers compare without regard to case. *)
Definition lower (c : ascii) : ascii :=
  let n := nat_of_ascii c in
  if ((65 <=? n) && (n <=? 90))%nat then ascii_of_nat (n + 32) else c.

Definition is_quote (c : ascii) : bool := (nat_of_ascii c =? 39)%nat.

Inductive LexState :=
| Idle
| InWord (acc : string)
| InText (acc : string).

Definition snoc_char (s : string) (c : ascii) : string :=
  s +:+ String c "".

(** What a character does when no token is open. *)
Definition step_idle (c : ascii) : LexState * list Token :=
  if is_space c then (Idle, [])
  else if is_quote c then (InText "", [])
  else if is_word_char c then (InWord (String (lower c) ""), [])
  else (Idle, [TSym c]).

Fixpoint lex (st : LexState) (s : string) : option (list Token) :=
  match s with
  | EmptyString =>
      match st with
      | Idle => Some []
      | InWord w => Some [TWord w]
      | InText _ => None
      end
  | String c s' =>
      match st with
      | InText acc =>
          if is_quote c then cons (TText acc) <$> lex Idle s'
          else lex (InText (snoc_char acc c)) s'
      | InWord acc =>
          if is_word_char c then lex (InWord (snoc_char acc (lower c))) s'
          else
            let '(st', ts) := step_idle c in
            (fun r => TWord acc :: ts ++ r) <$> lex st' s'
      | Idle =>
          let '(st', ts) := step_idle c in
          (fun r => ts ++ r) <$> lex st' s'
      end
  end.

(** A comparison of the [WHERE] clause over the integer columns. *)
Inductive Cond :=
| CEq (col : string) (v : Z)
| CBetween (col : string) (lo hi : Z).

Definition is_column (w : string) : bool :=
  String.eqb w "zoom_level" || String.eqb w "tile_column"
  || String.eqb w "tile_row".

(** An integer literal, with its optional sign. *)
Definition parse_int (ts : list Token) : option (Z * list Token) :=
  match ts with
  | TSym c :: TWord w :: rest =>
      if (nat_of_ascii c =? 45)%nat then
        match NilZero.uint_of_string w with
        | Some d => Some (- Z.of_uint d, rest)
        | None => None
        end
      else None
  | TWord w :: rest =>
      match NilZero.uint_of_string w with
      | Some d => Some (Z.of_uint d, rest)
      | None => None
      end
  | _ => None
  end.

Definition parse_cond (ts : list Token) : option (Cond * list Token) :=
  match ts with
  | TWord col :: TSym c :: rest =>
      if is_column col && (nat_of_ascii c =? 61)%nat then
        '(v, rest') ← parse_int rest; Some (CEq col v, rest')
      else None
  | TWord col :: TWord "between" :: rest =>
      if is_column col then
        '(lo, rest1) ← parse_int rest;
        match rest1 with
        | TWord "and" :: rest2 =>
            '(hi, rest3) ← parse_int rest2; Some (CBetween col lo hi, rest3)
        | _ => None
        end
      else None
  | _ => None
  end.

(** [cond (AND cond)*]; the fuel bounds the number of conditions. *)
Fixpoint parse_conds (fuel : nat) (ts : list Token)
  : option (list Cond * list Token) :=
  match fuel with
  | O => None
  | S fuel' =>
      '(c, rest) ← parse_cond ts;
      match rest with
      | TWord "and" :: rest' =>
          '(cs, rest'') ← parse_conds fuel' rest'; Some (c :: cs, rest'')
      | _ => Some ([c], rest)
      end
  end.

Definition parse_where (ts : list Token) : option (list Cond * list Token) :=
  match ts with
  | TWord "where" :: rest => parse_conds (length rest) rest
  | _ => Some ([], ts)
  end.

Definition parse_limit (ts : list Token) : option (option Z * list Token) :=
  match ts with
  | TWord "limit" :: rest => '(n, rest') ← parse_int rest; Some (Some n, rest')
  | _ => Some (None, ts)
  end.

Definition column_value (col : string) (t : Z * Z * Z * string) : Z :=
  let '(z, c, r, _) := t in
  if String.eqb col "zoom_level" then z
  else if String.eqb col "tile_column" then c else r.

Definition holds (t : Z * Z * Z * string) (c : Cond) : bool :=
  match c with
  | CEq col v => column_value col t =? v
  | CBetween col lo hi => (lo <=? column_value col t) && (column_value col t <=? hi)
  end.

(** [LIMIT n]; a negative [n] is no limit. *)
Definition apply_limit {A} (n : option Z) (l : list A) : list A :=
  match n with
  | Some k => if k <? 0 then l else take (Z.to_nat k) l
  | None => l
  end.

Definition insert_by (le : Z -> Z -> bool) (x : Z) : list Z -> list Z :=
  fix go l :=
    match l with
    | [] => [x]
    | y :: l' => if le x y then x :: l else y :: go l'
    end.

Definition sort_by (le : Z -> Z -> bool) (l : list Z) : list Z :=
  foldr (insert_by le) [] l.

Definition exec (db : Database) (ts : list Token) : option (list Row) :=
  match ts with
  | [TWord "select"; TWord "value"; TWord "as"; TText a; TWord "from";
     TWord "metadata"; TWord "where"; TWord "name"; TSym c; TText k] =>
      if (nat_of_ascii c =? 61)%nat then
        Some (map (fun kv => [(a, PStr kv.2)])
                  (filter (fun kv => kv.1 = k) (metadata db)))
      else None
  | [TWord "select"; TWord "zoom_level"; TWord "as"; TText a; TWord "from";
     TWord "tiles"; TWord "order"; TWord "by"; TWord "zoom_level"; TWord dir;
     TWord "limit"; TWord n] =>
      match NilZero.uint_of_string n with
      | Some d =>
          let zooms := map (fun t => column_value "zoom_level" t) (tiles db) in
          let sorted :=
            if String.eqb dir "asc" then Some (sort_by Z.leb zooms)
            else if String.eqb dir "desc" then Some (sort_by Z.geb zooms)
            else None in
          (fun l => map (fun z => [(a, PInt z)]) (take (Z.to_nat (Z.of_uint d)) l))
            <$> sorted
      | None => None
      end
  | TWord "select" :: TWord "zoom_level" :: TSym c1 :: TWord "tile_column"
      :: TSym c2 :: TWord "tile_row" :: TSym c3 :: TWord "tile_data"
      :: TWord "from" :: TWord "tiles" :: rest =>
      if ((nat_of_ascii c1 =? 44) && (nat_of_ascii c2 =? 44)
          && (nat_of_ascii c3 =? 44))%nat then
        '(conds, rest1) ← parse_where rest;
        '(lim, rest2) ← parse_limit rest1;
        match rest2 with
        | [] | [TSym ";"%char] =>
            Some (map (fun t => let '(z, c, r, d) := t in tile_row z c r d)
                      (apply_limit lim
                         (filter (fun t => forallb (holds t) conds) (tiles db))))
        | _ => None
        end
      else None
  | _ => None
  end.

(** [cur.execute(sql); cur.fetchall()] on a database. *)
Definition run (db : Database) : Connection :=
  fun sql => ts ← lex Idle sql; exec db ts.

End Sqlite.

(** ** The remote source: [ServerSource] *)

(** [s.replace(old, new)] for a non-empty [old]: every occurrence, left to
    right, without overlap.  [skip] counts the characters of a match that
    are still to be dropped. *)
Fixpoint replace_from (old new : string) (skip : nat) (s : string) : string :=
  match s with
  | EmptyString => EmptyString
  | String c s' =>
      match skip with
      | S k => replace_from old new k s'
      | O =>
          if String.prefix old s
          then new +:+ replace_from old new (String.length old - 1) s'
          else String c (replace_from old new O s')
      end
  end.

Definition replace (old new s : string) : string := replace_from old new 0 s.

Module Server.

(** Modelled from the spec: the tile-descriptor collaborator [TileJSON]
    (section 6), whose source is not part of the two files, reduced to
    what the remote source reads from it: the URL templates of [tiles()]
    and the value of [scheme()]. *)
Record TileJSON := {
  tiles : list string;
  scheme_name : PyValue
}.

Record ServerSource := {
  url : string;
  json : TileJSON;
  _loaded_tiles : list TileKey;
  (** [true] once a callable was installed; calling [None] raises. *)
  _progress_handler : bool;
  _cancelling : bool;
  (** Ghost: the calls the progress handler received, oldest first. *)
  reported : list ProgressCall;
  (** Ghost: how often [for_each] ran since [load_tiles] began. *)
  for_each_calls : nat
}.

Definition with_loaded (l : list TileKey) (s : ServerSource) :=
  {| url := url s; json := json s; _loaded_tiles := l;
     _progress_handler := _progress_handler s; _cancelling := _cancelling s;
     reported := reported s; for_each_calls := for_each_calls s |}.
Definition with_handler (h : bool) (s : ServerSource) :=
  {| url := url s; json := json s; _loaded_tiles := _loaded_tiles s;
     _progress_handler := h; _cancelling := _cancelling s;
     reported := reported s; for_each_calls := for_each_calls s |}.
Definition with_cancelling (b : bool) (s : ServerSource) :=
  {| url := url s; json := json s; _loaded_tiles := _loaded_tiles s;
     _progress_handler := _progress_handler s; _cancelling := b;
     reported := reported s; for_each_calls := for_each_calls s |}.
Definition with_reported (l : list ProgressCall) (s : ServerSource) :=
  {| url := url s; json := json s; _loaded_tiles := _loaded_tiles s;
     _progress_handler := _progress_handler s; _cancelling := _cancelling s;
     reported := l; for_each_calls := for_each_calls s |}.
Definition with_calls (n : nat) (s : ServerSource) :=
  {| url := url s; json := json s; _loaded_tiles := _loaded_tiles s;
     _progress_handler := _progress_handler s; _cancelling := _cancelling s;
     reported := reported s; for_each_calls := n |}.

(** [ServerSource(url)] once the descriptor [j] was loaded. *)
Definition new (u : string) (j : TileJSON) : ServerSource :=
  {| url := u; json := j; _loaded_tiles := []; _progress_handler := false;
     _cancelling := false; reported := []; for_each_calls := 0 |}.

(** One entry of [urls]: the tuple [(load_url, col, row)]. *)
Definition Job : Type := string * Z * Z.

(** One entry of the results queue: [(content, [col, row])]. *)
Definition Fetched : Type := string * (Z * Z).

Section Source.

(** Modelled from the spec: [tile_helper.get_all_tiles(bounds)], which
    enumerates the candidate [(col, row)] pairs of the requested bounds
    (section 4.4); its source is not part of the two files. *)
Variable get_all_tiles : option MBTiles.Bounds -> list (Z * Z).

(** Modelled from the spec: the fetch collaborator behind
    [FileHelper.load_url] (section 6): bytes, or [None] for a network
    error.  A thread that fetched bytes puts [(content, [col, row])] on
    the queue; after a network error the tile is absent (section 7). *)
Variable fetch : string -> option string.

(** The scheduler.  [finish_order off jobs] lists the jobs of the page
    launched at offset [off] in the order their threads finish, which is
    the order their results reach the queue. *)
Variable finish_order : nat -> list Job -> list Job.

(** [late_arrivals off jobs joined]: on a page abandoned after [joined]
    joins, how many more threads had finished when the queue was read. *)
Variable late_arrivals : nat -> list Job -> nat -> nat.

Definition cancel : M ServerSource unit := modify (with_cancelling true).

Definition set_progress_handler : M ServerSource unit :=
  modify (with_handler true).

Definition scheme : M ServerSource PyValue :=
  gets (fun s => scheme_name (json s)).

(** [self._progress_handler(...)]. *)
Definition call_progress_handler (c : ProgressCall) : M ServerSource unit :=
  fun s =>
    if _progress_handler s
    then (Ok tt, with_reported (reported s ++ [c]) s)
    else (Raised TypeError, s).

(** [if for_each: for_each()]. *)
Definition call_for_each (for_each : option ForEach) : M ServerSource unit :=
  match for_each with
  | Some fe =>
      k <- gets for_each_calls ;;
      modify (with_calls (S k)) ;;;
      if fe k then cancel else ret tt
  | None => ret tt
  end.

Definition _add_loaded_tile (zoom col row : Z) : M ServerSource unit :=
  modify (fun s =>
            with_loaded (_loaded_tiles s ++ [(PInt zoom, PInt col, PInt row)]) s).

Definition is_loaded (loaded : list TileKey) (zoom col row : Z) : bool :=
  key_in (PInt zoom, PInt col, PInt row) loaded.

Definition is_tile_loaded (zoom col row : Z) : M ServerSource bool :=
  gets (fun s => is_loaded (_loaded_tiles s) zoom col row).

Definition tile_url (base_url : string) (zoom_level col row : Z) : string :=
  replace "{y}" (str row)
    (replace "{x}" (str col) (replace "{z}" (str zoom_level) base_url)).

(** [max_tiles and index+1 == max_tiles]. *)
Definition cap_reached (max_tiles : option Z) (index : nat) : bool :=
  match max_tiles with
  | Some n => negb (n =? 0) && (Z.of_nat index + 1 =? n)
  | None => false
  end.

(** The first loop of [load_tiles], from [index] on: the entries it
    appends to [urls].  The loaded list does not change while it runs. *)
Fixpoint collect_urls (base_url : string) (zoom_level : Z)
  (loaded : list TileKey) (max_tiles : option Z) (index : nat)
  (tiles_to_load : list (Z * Z)) : list Job :=
  match tiles_to_load with
  | [] => []
  | (col, row) :: rest =>
      if is_loaded loaded zoom_level col row
      then collect_urls base_url zoom_level loaded max_tiles (S index) rest
      else
        (tile_url base_url zoom_level col row, col, row)
          :: (if cap_reached max_tiles index then []
              else collect_urls base_url zoom_level loaded max_tiles (S index) rest)
  end.

(** The second loop of [_load_urls_async], from [index] on, over the
    threads still to join; it returns how many threads it joined. *)
Fixpoint join_threads (page_offset : nat) (for_each : option ForEach)
  (index : nat) (threads : list Job) : M ServerSource nat :=
  match threads with
  | [] => ret index
  | _ :: rest =>
      call_for_each for_each ;;;
      cancelling <- gets _cancelling ;;
      if cancelling : bool then ret index
      else
        call_progress_handler (progress_at (page_offset + index + 1)) ;;;
        join_threads page_offset for_each (S index) rest
  end.

(** How long a prefix of [order] has to be to hold every job of [joined]:
    the position, counted from 1, of the last job of [order] that is in
    [joined]. *)
Fixpoint settled (order joined : list Job) : nat :=
  match order with
  | [] => 0%nat
  | j :: rest =>
      match settled rest joined with
      | O => if bool_decide (j ∈ joined) then 1%nat else 0%nat
      | S n => S (S n)
      end
  end.

(** The jobs of a page whose results are on the queue when it is read:
    all of them once every thread was joined; on an abandoned page the
    joined ones, whatever finished before them, and the late arrivals. *)
Definition landed (page_offset : nat) (jobs : list Job) (joined : nat)
  : list Job :=
  let order := finish_order page_offset jobs in
  if (joined =? length jobs)%nat then order
  else take (settled order (take joined jobs)
             + late_arrivals page_offset jobs joined) order.

(** The [p]-th page of [items]. *)
Definition page (page_size p : nat) (items : list Job) : list Job :=
  take page_size (drop (page_size * p) items).

(** The jobs of the pages from the [p]-th on, in the order their results
    reach the queue when every thread is joined; [fuel] bounds the number
    of pages, as in [do_paged_loop]. *)
Fixpoint pages_queue (fuel page_size p : nat) (items : list Job) : list Job :=
  match fuel with
  | O => []
  | S fuel' =>
      let items_p := page page_size p items in
      if (length items_p =? 0)%nat then []
      else finish_order (page_size * p * page_size) items_p
             ++ pages_queue fuel' page_size (S p) items
  end.

(** The jobs whose results are not on the queue when page [q] is
    abandoned after [i] joins: the threads of that page that had not
    finished, and every later page. *)
Definition unlanded (page_size q i : nat) (items : list Job) : list Job :=
  let off := (page_size * q * page_size)%nat in
  drop (length (landed off (page page_size q items) i))
       (finish_order off (page page_size q items))
    ++ pages_queue (S (length items)) page_size (S q) items.

(** What the thread of a job puts on the queue. *)
Definition deliver (j : Job) : option Fetched :=
  let '(u, col, row) := j in
  content ← fetch u; Some (content, (col, row)).

Definition _load_urls_async (page_offset : nat) (urls : list Job)
  (queue : list Fetched) (for_each : option ForEach)
  : M ServerSource (list Fetched) :=
  joined <- join_threads page_offset for_each 0 urls ;;
  ret (queue ++ omap deliver (landed page_offset urls joined)).

(** The [while] loop of [_do_paged].  Every turn but the last moves
    [page_nr] on by [page_size], so [fuel] turns are enough as soon as
    [fuel] exceeds the number of items left. *)
Fixpoint do_paged_loop (fuel : nat) (page_size page_nr : nat)
  (all_items : list Job) (queue : list Fetched) (for_each : option ForEach)
  : M ServerSource (list Fetched) :=
  match fuel with
  | O => ret queue
  | S fuel' =>
      let items := take page_size (drop page_nr all_items) in
      cancelling <- gets _cancelling ;;
      if (cancelling : bool) || (length items =? 0)%nat then ret queue
      else
        let page_offset := (page_nr * page_size)%nat in
        queue' <- _load_urls_async page_offset items queue for_each ;;
        do_paged_loop fuel' page_size (page_nr + page_size) all_items queue'
          for_each
  end.

Definition _do_paged (page_size : nat) (all_items : list Job)
  (queue : list Fetched) (for_each : option ForEach)
  : M ServerSource (list Fetched) :=
  do_paged_loop (S (length all_items)) page_size 0 all_items queue for_each.

(** The last loop of [load_tiles]: empty the queue. *)
Fixpoint drain (zoom_level : Z) (queue : list Fetched)
  (tile_data_tuples : list (VectorTile * PyValue))
  : M ServerSource (list (VectorTile * PyValue)) :=
  match queue with
  | [] => ret tile_data_tuples
  | (content, (col, row)) :: rest =>
      sch <- scheme ;;
      let tile := {| scheme_of := sch; zoom_level := PInt zoom_level;
                     column := PInt col; row := PInt row |} in
      _add_loaded_tile zoom_level col row ;;;
      drain zoom_level rest (tile_data_tuples ++ [(tile, PStr content)])
  end.

(** The tuple [drain] builds from one queue entry. *)
Definition tuple_of (sch : PyValue) (zoom : Z) (r : Fetched)
  : VectorTile * PyValue :=
  let '(content, (col, row)) := r in
  ({| scheme_of := sch; zoom_level := PInt zoom; column := PInt col;
      row := PInt row |}, PStr content).

Definition announcement (n : nat) : string :=
  "Getting " +:+ str (Z.of_nat n) +:+ " tiles from source...".

Definition load_tiles (zoom_level : Z) (bounds : option MBTiles.Bounds)
  (max_tiles : option Z) (for_each : option ForEach)
  : M ServerSource (list (VectorTile * PyValue)) :=
  modify (fun s => with_calls 0 (with_cancelling false s)) ;;;
  templates <- gets (fun s => tiles (json s)) ;;
  match templates with
  | [] => raise IndexError
  | base_url :: _ =>
      let tiles_to_load := get_all_tiles bounds in
      loaded <- gets _loaded_tiles ;;
      let urls := collect_urls base_url zoom_level loaded max_tiles 0 tiles_to_load in
      call_progress_handler (announce_msg (announcement (length urls)) (length urls)) ;;;
      let page_size := 5%nat in
      queue <- _do_paged page_size urls [] for_each ;;
      drain zoom_level queue []
  end.

End Source.

End Server.

(** ** The reader: [VtReader] *)

Module VtReader.

(** *** Python floats *)

(** The float nearest to an integer (ties to even); an infinity when
    the integer is beyond the range of the floats. *)
Definition float_of_Z (z : Z) : float :=
  SF2Prim (binary_normalize prec emax z 0 false).

(** The conversion of an integer operand in float arithmetic
    ([f * z], [float(z)]): it raises when the integer is too large. *)
Definition py_float {S} (z : Z) : M S float :=
  let f := float_of_Z z in
  if PrimFloat.is_infinity f then raise OverflowError else ret f.

(** [int(f)]: truncation towards zero; it raises on infinities and NaN. *)
Definition int_of_float {S} (f : float) : M S Z :=
  match Prim2SF f with
  | S754_zero _ => ret 0
  | S754_finite sign m e =>
      let magnitude :=
        if 0 <=? e then Z.shiftl (Z.pos m) e else Z.shiftr (Z.pos m) (- e) in
      ret (if sign then - magnitude else magnitude)
  | S754_infinity _ => raise OverflowError
  | S754_nan => raise ValueError
  end.

(** [math.pi]. *)
Definition pi : float := 0x1.921fb54442d18p+1%float.

(** *** Decoded tiles *)

(** A geometry as the decoder delivers it: nested lists of integers. *)
#[warnings="-register-all"]
Inductive Coord :=
| CInt (z : Z)
| CList (l : list Coord).

(** A property value. *)
Inductive Scalar :=
| SStr (s : string)
| SInt (z : Z)
| SBool (b : bool).

Definition truthy (v : Scalar) : bool :=
  match v with
  | SStr s => negb (String.eqb s "")
  | SInt z => negb (z =? 0)
  | SBool b => b
  end.

(** One decoded feature: [feature["type"]], [feature["geometry"]],
    [feature["properties"]]. *)
Record RawFeature := {
  type : Z;
  raw_geometry : list Coord;
  raw_properties : gmap string Scalar
}.

(** [tile.decoded_data]: layer names in the order the dict yields them,
    each with [decoded_data[layer_name]["features"]]. *)
Definition DecodedData : Type := list (string * list RawFeature).

(** [VectorTileHelper.VectorTile(zoom_level, tile_col, tile_row)] with the
    [decoded_data] attribute [decode_all_tiles] sets. *)
Record Tile := {
  zoom_level : Z;
  column : Z;
  row : Z;
  decoded_data : option DecodedData
}.

Definition with_decoded (d : option DecodedData) (t : Tile) : Tile :=
  {| zoom_level := zoom_level t; column := column t; row := row t;
     decoded_data := d |}.

Inductive GeoType := POINT | LINE_STRING | POLYGON.

(** [VtReader.geo_types[k]]. *)
Definition geo_types {S} (k : Z) : M S GeoType :=
  if k =? 1 then ret POINT
  else if k =? 2 then ret LINE_STRING
  else if k =? 3 then ret POLYGON
  else raise KeyError.

(** A geojson geometry. *)
Inductive Geometry :=
| Point (coordinates : Coord)
| LineString (coordinates : list Coord)
| Polygon (coordinates : list Coord).

(** [geojson.Feature(geometry=..., properties=...)]. *)
Record Feature := {
  geometry : Geometry;
  properties : gmap string Scalar
}.

Record FeatureCollection := {
  features : list Feature;
  crs : string
}.

Record VtReader := {
  all_features : gmap string FeatureCollection;
  (** Ghost: the layers handed to [add_vector_layer], oldest first. *)
  layers : list (string * FeatureCollection)
}.

Definition new : VtReader := {| all_features := ∅; layers := [] |}.

Definition _extent : Z := 4096.

Definition get_empty_feature_collection : FeatureCollection :=
  {| features := []; crs := "urn:ogc:def:crs:EPSG::3857" |}.

Section Reader.

(** [GlobalMercator().TileBounds(tx, ty, zoom)], from the [GlobalMapTiles]
    module, which is not part of the two files:
    [(minx, miny, maxx, maxy)] in mercator meters. *)
Variable TileBounds : Z -> Z -> Z -> float * float * float * float.

(** [zlib.decompress(data, 32 + zlib.MAX_WBITS)]; [None] when it raises. *)
Variable zlib_decompress : string -> option string.

(** [mapbox_vector_tile.decode(file_content)]; [None] when it raises. *)
Variable mvt_decode : string -> option DecodedData.

(** [_calculate_geometry(self, coordinates, tile)]. *)
Definition _calculate_geometry {S} (coordinates : Z * Z) (tile : Tile)
  : M S (Z * Z) :=
  let '(tmp0, tmp1, tmp2, tmp3) :=
    TileBounds (column tile) (row tile) (zoom_level tile) in
  let delta_x := (tmp2 - tmp0)%float in
  let delta_y := (tmp3 - tmp1)%float in
  x <- py_float coordinates.1 ;;
  merc_easting <- int_of_float (tmp0 + delta_x / float_of_Z _extent * x)%float ;;
  y <- py_float coordinates.2 ;;
  merc_northing <- int_of_float (tmp1 + delta_y / float_of_Z _extent * y)%float ;;
  ret (merc_easting, merc_northing).

(** [len(coord) == 2 and all(isinstance(c, int) for c in coord)], with
    the two integers. *)
Definition as_coordinate_tuple (coord : Coord) : option (Z * Z) :=
  match coord with
  | CList [CInt x; CInt y] => Some (x, y)
  | _ => None
  end.

(** The body of the loop of [map_coordinates_recursive] for one element
    [coord], for the [func] that [create_geojson_feature] passes (the
    reprojection into [tile]): a coordinate tuple is reprojected, any
    other element is traversed in turn. *)
Fixpoint map_coordinate {S} (tile : Tile) (coord : Coord) : M S Coord :=
  match as_coordinate_tuple coord with
  | Some xy =>
      newval <- _calculate_geometry xy tile ;;
      ret (CList [CInt newval.1; CInt newval.2])
  | None =>
      match coord with
      | CInt _ => raise TypeError
      | CList l =>
          tmp <-
            (fix each (l : list Coord) : M S (list Coord) :=
               match l with
               | [] => ret []
               | c :: rest =>
                   v <- map_coordinate tile c ;;
                   vs <- each rest ;;
                   ret (v :: vs)
               end) l ;;
          ret (CList tmp)
      end
  end.

Fixpoint map_coordinates_recursive {S} (tile : Tile) (coordinates : list Coord)
  : M S (list Coord) :=
  match coordinates with
  | [] => ret []
  | coord :: rest =>
      v <- map_coordinate tile coord ;;
      tmp <- map_coordinates_recursive tile rest ;;
      ret (v :: tmp)
  end.

Definition create_geojson_feature {S} (feature : RawFeature) (tile : Tile)
  : M S (Feature * GeoType) :=
  geo_type <- geo_types (type feature) ;;
  coordinates <- map_coordinates_recursive tile (raw_geometry feature) ;;
  geometry <-
    (match geo_type with
     | POINT =>
         match coordinates with
         | first :: _ => ret (Point first)
         | [] => raise IndexError
         end
     | POLYGON => ret (Polygon coordinates)
     | LINE_STRING => ret (LineString coordinates)
     end) ;;
  ret ({| geometry := geometry; properties := raw_properties feature |}, geo_type).

(** ["." + v]: only a string can be appended to a string. *)
Definition dotted {S} (v : Scalar) : M S string :=
  match v with
  | SStr s => ret ("." +:+ s)
  | _ => raise TypeError
  end.

(** The body of the inner loop of [write_features] for one feature. *)
Definition write_feature (layer_name : string) (feature : RawFeature)
  (tile : Tile) : M VtReader unit :=
  dg <- create_geojson_feature feature tile ;;
  let data := dg.1 in
  let feature_class := properties data !! "class" in
  let feature_subclass :=
    match properties data !! "class" with
    | Some _ => properties data !! "subclass"
    | None => None
    end in
  let class_set := from_option truthy false feature_class in
  let subclass_set := from_option truthy false feature_subclass in
  (if subclass_set && negb class_set then raise AssertionError else ret tt) ;;;
  feature_path <-
    (if class_set then
       c <- dotted (default (SStr "") feature_class) ;;
       if subclass_set then
         sc <- dotted (default (SStr "") feature_subclass) ;;
         ret (layer_name +:+ c +:+ sc)
       else ret (layer_name +:+ c)
     else ret layer_name) ;;
  modify (fun s =>
    let collection :=
      default get_empty_feature_collection (all_features s !! feature_path) in
    {| all_features :=
         <[feature_path :=
             {| features := features collection ++ [data];
                crs := crs collection |}]> (all_features s);
       layers := layers s |}).

Fixpoint write_layer (layer_name : string) (tile_features : list RawFeature)
  (tile : Tile) : M VtReader unit :=
  match tile_features with
  | [] => ret tt
  | feature :: rest =>
      write_feature layer_name feature tile ;;;
      write_layer layer_name rest tile
  end.

Fixpoint write_layers (decoded : DecodedData) (tile : Tile) : M VtReader unit :=
  match decoded with
  | [] => ret tt
  | (layer_name, tile_features) :: rest =>
      write_layer layer_name tile_features tile ;;;
      write_layers rest tile
  end.

(** [for layer_name in tile.decoded_data] raises on [None]. *)
Definition write_features (tile : Tile) : M VtReader unit :=
  match decoded_data tile with
  | None => raise TypeError
  | Some decoded => write_layers decoded tile
  end.

Definition decode_binary_tile_data (data : string) : option DecodedData :=
  match zlib_decompress data with
  | Some file_content => mvt_decode file_content
  | None => None
  end.

Definition decode_all_tiles (tiles_with_encoded_data : list (Tile * string))
  : list Tile :=
  map (fun tile_data_tuple =>
         with_decoded (decode_binary_tile_data tile_data_tuple.2) tile_data_tuple.1)
      tiles_with_encoded_data.

(** Each collection of [all_features] becomes one layer. *)
Definition create_layers_for_geotypes : M VtReader unit :=
  modify (fun s =>
    {| all_features := all_features s;
       layers := layers s ++ map_to_list (all_features s) |}).

Fixpoint write_all (tiles : list Tile) : M VtReader unit :=
  match tiles with
  | [] => ret tt
  | tile :: rest => write_features tile ;;; write_all rest
  end.

Definition process_tiles (tiles : list Tile) : M VtReader unit :=
  write_all tiles ;;;
  create_layers_for_geotypes.

(** [do_work] from the tuples [load_tiles_from_db] returned. *)
Definition do_work (tile_data_tuples : list (Tile * string)) : M VtReader unit :=
  let tiles := decode_all_tiles tile_data_tuples in
  process_tiles tiles.

End Reader.

(** Modelled from the spec: the standard spherical-mercator tile bounds
    of [GlobalMapTiles.GlobalMercator] (section 4.1): the tile size in
    mercator meters halves per zoom level, starting from the fixed world
    extent of the earth radius 6378137. *)
Module GlobalMercator.

Definition tileSize : Z := 256.

Definition initialResolution : float :=
  (float_of_Z 2 * pi * float_of_Z 6378137 / float_of_Z tileSize)%float.

Definition originShift : float :=
  (float_of_Z 2 * pi * float_of_Z 6378137 / 2)%float.

Definition Resolution (zoom : Z) : float :=
  (initialResolution / float_of_Z (2 ^ zoom))%float.

Definition PixelsToMeters (px py zoom : Z) : float * float :=
  let res := Resolution zoom in
  ((float_of_Z px * res - originShift)%float,
   (float_of_Z py * res - originShift)%float).

Definition TileBounds (tx ty zoom : Z) : float * float * float * float :=
  let '(minx, miny) := PixelsToMeters (tx * tileSize) (ty * tileSize) zoom in
  let '(maxx, maxy) :=
    PixelsToMeters ((tx + 1) * tileSize) ((ty + 1) * tileSize) zoom in
  (minx, miny, maxx, maxy).

End GlobalMercator.

(** The four corners of a bounding box [(minx, miny, maxx, maxy)], each
    truncated to integer meters: lower left, lower right, upper left,
    upper right. *)
Definition corners_of (box : float * float * float * float)
  : list (Outcome (Z * Z)) :=
  let '(minx, miny, maxx, maxy) := box in
  map (fun xy : float * float =>
         (bind (S := unit) (int_of_float xy.1)
            (fun x => bind (int_of_float xy.2) (fun y => ret (x, y))) tt).1)
      [(minx, miny); (maxx, miny); (minx, maxy); (maxx, maxy)].

(** The world mercator extent [(minx, miny, maxx, maxy)]: plus and minus
    20037508.342789244 meters on both axes. *)
Definition world_extent : float * float * float * float :=
  ((-0x1.31bf8457c1093p+24)%float, (-0x1.31bf8457c1093p+24)%float,
   0x1.31bf8457c1093p+24%float, 0x1.31bf8457c1093p+24%float).

End VtReader.

(** ** Further methods of the archive source *)

Module MBTilesProbe.
Import MBTiles.

Section Source.

Variable sqlite3_connect : string -> option Connection.

(** [FileHelper.is_gzipped(data)], from the [file_helper] module, which is
    not part of the two files: [None] when it raises. *)
Variable is_gzipped : PyValue -> option bool.

Definition is_mapbox_vector_tile : M MBTilesSource bool :=
  try_except
    (tile_data_tuples <- load_tiles sqlite3_connect None None (Some 1) None ;;
     match tile_data_tuples with
     | [td] =>
         let undecoded_data := td.2 in
         if truthy undecoded_data then
           match is_gzipped undecoded_data with
           | Some is_mapbox_pbf => ret is_mapbox_pbf
           | None => raise TypeError
           end
         else ret false
     | _ => ret false
     end)
    (ret false).

(** [close_connection]: a failing [close()] is swallowed. *)
Definition close_connection : M MBTilesSource unit :=
  modify (with_conn None).

End Source.

(** The metadata key [_get_zoom] reads and caches. *)
Definition zoom_field (max_zoom : bool) : string :=
  if max_zoom then "maxzoom" else "minzoom".

(** The text is plain ASCII and holds no digit: no Python version
    converts it with [int()]. *)
Definition has_no_digit (text : string) : bool :=
  forallb (fun a => (nat_of_ascii a <? 128)%nat
                    && match digit_of a with Some _ => false | None => true end)
          (list_ascii_of_string text).

End MBTilesProbe.

(** The key of a returned tile: its own zoom level, column and row. *)
Definition key_of_tile (td : VectorTile * PyValue) : TileKey :=
  (zoom_level td.1, column td.1, row td.1).

(** The progress value [_load_urls_async] reports for the fetch with
    overall index [g] (from 0) when the pages hold [page_size] items: the
    page offset [page_nr * page_size], with [page_nr] itself a multiple of
    [page_size], plus the place in the page, plus one. *)
Definition progress_value (page_size g : nat) : nat :=
  (page_size * page_size * (g / page_size) + g mod page_size + 1)%nat.

(** ** Shapes of decoded geometries and of the feature store *)

Module Geometries.
Import VtReader.

(** A geometry element [map_coordinates_recursive] can traverse: a
    coordinate tuple (a list of exactly two integers), or a list of such
    elements.  A bare integer outside a tuple is not one. *)
Fixpoint well_formed (c : Coord) : bool :=
  match c with
  | CInt _ => false
  | CList l =>
      match as_coordinate_tuple c with
      | Some _ => true
      | None => forallb well_formed l
      end
  end.

(** The element with every coordinate tuple replaced by its image under
    [f], the nesting kept as it is. *)
Fixpoint map_pairs (f : Z * Z -> Z * Z) (c : Coord) : Coord :=
  match c with
  | CInt z => CInt z
  | CList l =>
      match as_coordinate_tuple c with
      | Some xy => CList [CInt (f xy).1; CInt (f xy).2]
      | None => CList (map (map_pairs f) l)
      end
  end.

(** The mercator image of a local coordinate tuple of [tile], where
    [_calculate_geometry] returns one. *)
Definition reprojected (TileBounds : Z -> Z -> Z -> float * float * float * float)
  (tile : Tile) (xy : Z * Z) : Z * Z :=
  match (_calculate_geometry (S := unit) TileBounds xy tile tt).1 with
  | Ok v => v
  | Raised _ => xy
  end.

(** The key of [VtReader.geo_types] that stands for a geometry type. *)
Definition geo_code (g : GeoType) : Z :=
  match g with
  | POINT => 1
  | LINE_STRING => 2
  | POLYGON => 3
  end.

(** The exceptions of the number conversions: [OverflowError] for an
    integer too large for a float and for [int()] of an infinity,
    [ValueError] for [int()] of a NaN. *)
Definition int_error (e : Exn) : Prop := e = OverflowError \/ e = ValueError.

(** The number of features held by all the collections of a store. *)
Definition feature_count (m : gmap string FeatureCollection) : nat :=
  map_fold (fun _ fc n => (length (features fc) + n)%nat) 0%nat m.

(** The number of features of a decoded tile, over all its layers. *)
Definition decoded_count (d : DecodedData) : nat :=
  sum_list (map (fun layer : string * list RawFeature => length layer.2) d).

(** [m'] holds every collection of [m], each with the features it had in
    [m] at its front and the same reference system. *)
Definition grown_from (m m' : gmap string FeatureCollection) : Prop :=
  forall p fc, m !! p = Some fc ->
    exists fc', m' !! p = Some fc'
      /\ features fc `prefix_of` features fc' /\ crs fc' = crs fc.

(** The path [write_features] files a feature under, for a feature whose
    class and subclass, where set, are strings: the layer name, followed
    by the class when there is one, followed by the subclass when there
    are both. *)
Definition feature_path (layer_name : string) (props : gmap string Scalar)
  : string :=
  match props !! "class" with
  | Some (SStr c) =>
      if String.eqb c "" then layer_name
      else match props !! "subclass" with
           | Some (SStr sc) =>
               if String.eqb sc "" then layer_name +:+ "." +:+ c
               else layer_name +:+ ("." +:+ c) +:+ "." +:+ sc
           | _ => layer_name +:+ "." +:+ c
           end
  | _ => layer_name
  end.

(** The store with [data] appended to the collection of path [p], which
    is created empty when the store has none. *)
Definition file_under (p : string) (data : Feature)
  (m : gmap string FeatureCollection) : gmap string FeatureCollection :=
  let collection := default get_empty_feature_collection (m !! p) in
  <[p := {| features := features collection ++ [data];
            crs := crs collection |}]> m.

End Geometries.

(** ** Sample archives *)

Module Samples.

(** An archive with one cell stored at two zoom levels, and no zoom
    metadata. *)
Definition stacked_db : Sqlite.Database :=
  {| Sqlite.metadata := [("name", "stacked")];
     Sqlite.tiles := [(13, 0, 0, "a"); (14, 0, 0, "b"); (14, 3, 5, "c")] |}.

(** An archive whose metadata names both zoom bounds. *)
Definition described_db : Sqlite.Database :=
  {| Sqlite.metadata := [("minzoom", "3"); ("maxzoom", "14"); ("scheme", "xyz")];
     Sqlite.tiles := [(3, 0, 0, "a"); (14, 3, 5, "b")] |}.

(** [sqlite3.connect]: the two archives above are the files that open. *)
Definition connect (p : string) : option Connection :=
  if String.eqb p "stacked.mbtiles" then Some (Sqlite.run stacked_db)
  else if String.eqb p "described.mbtiles" then Some (Sqlite.run described_db)
  else None.

(** A source on an archive, with a progress handler installed. *)
Definition source (p : string) : MBTiles.MBTilesSource :=
  MBTiles.with_handler true (MBTiles.new p).

(** A tile descriptor with one URL template. *)
Definition descriptor : Server.TileJSON :=
  {| Server.tiles := ["http://tiles.example/{z}/{x}/{y}.pbf"];
     Server.scheme_name := PStr "xyz" |}.

(** A remote source with a progress handler installed. *)
Definition remote : Server.ServerSource :=
  Server.with_handler true (Server.new "http://tiles.example/tiles.json" descriptor).

(** The candidate tiles of a bounding box, column by column; none when
    the bounds are omitted. *)
Definition all_tiles (bounds : option MBTiles.Bounds) : list (Z * Z) :=
  match bounds with
  | Some (c0, r0, (c1, r1)) =>
      c ← seqZ (Z.min c0 c1) (Z.max c0 c1 - Z.min c0 c1 + 1);
      r ← seqZ (Z.min r0 r1) (Z.max r0 r1 - Z.min r0 r1 + 1);
      [(c, r)]
  | None => []
  end.

(** A network on which every fetch succeeds. *)
Definition fetch_ok (u : string) : option string := Some ("pbf of " +:+ u).

(** Threads that finish in the order they were launched, and none that
    finishes unjoined. *)
Definition in_launch_order (off : nat) (jobs : list Server.Job) := jobs.
Definition no_late_arrivals (off : nat) (jobs : list Server.Job) (joined : nat) := 0%nat.

(** Threads that finish last-launched first; on an abandoned page one
    more result is in when the queue is read. *)
Definition reversed_order (off : nat) (jobs : list Server.Job) := reverse jobs.
Definition one_late_arrival (off : nat) (jobs : list Server.Job) (joined : nat) := 1%nat.

(** [load_tiles] of the remote source on the sample network. *)
Definition remote_load :=
  Server.load_tiles all_tiles fetch_ok in_launch_order no_late_arrivals.

(** A callback that calls [cancel()] on its [n]-th turn, counted from 0. *)
Definition cancel_at (n : nat) : ForEach := fun k => (k =? n)%nat.

(** The [(column, row)] pairs of the tiles a call returned. *)
Definition cells_of (o : Outcome (list (VectorTile * PyValue)))
  : option (list (PyValue * PyValue)) :=
  match o with
  | Ok l => Some (map (fun td => (column td.1, row td.1)) l)
  | Raised _ => None
  end.

(** The archive source after a call that loaded the tile at zoom 14,
    column 3, row 5. *)
Definition source_after_first_call : MBTiles.MBTilesSource :=
  (MBTiles.load_tiles connect (Some 14) (Some ((3, 5), (3, 5))) None None
     (source "stacked.mbtiles")).2.

(** The tile of zoom 0, and two tiles of zoom 14. *)
Definition world_tile : VtReader.Tile :=
  {| VtReader.zoom_level := 0; VtReader.column := 0; VtReader.row := 0;
     VtReader.decoded_data := None |}.
Definition tile_a : VtReader.Tile :=
  {| VtReader.zoom_level := 14; VtReader.column := 8580; VtReader.row := 10645;
     VtReader.decoded_data := None |}.
Definition tile_b : VtReader.Tile :=
  {| VtReader.zoom_level := 14; VtReader.column := 8581; VtReader.row := 10645;
     VtReader.decoded_data := None |}.

Definition ring : list VtReader.Coord :=
  [VtReader.CList
     (map (fun xy : Z * Z => VtReader.CList [VtReader.CInt xy.1; VtReader.CInt xy.2])
          [(0, 0); (4096, 0); (4096, 4096); (0, 4096); (0, 0)])].

(** A polygon of class wood, subclass forest. *)
Definition forest : VtReader.RawFeature :=
  {| VtReader.type := 3; VtReader.raw_geometry := ring;
     VtReader.raw_properties :=
       {[ "class" := VtReader.SStr "wood"; "subclass" := VtReader.SStr "forest" ]} |}.

(** A polygon with a subclass and no class. *)
Definition orphan : VtReader.RawFeature :=
  {| VtReader.type := 3; VtReader.raw_geometry := ring;
     VtReader.raw_properties := {[ "subclass" := VtReader.SStr "forest" ]} |}.

(** A stand-in for zlib: a payload is its content behind the mark [gz:]. *)
Definition unzip (data : string) : option string :=
  if String.prefix "gz:" data then Some (String.substring 3 (String.length data - 3) data)
  else None.

(** A stand-in for the protobuf decoder: two contents decode, to one
    [landcover] layer each; anything else is malformed. *)
Definition decode (content : string) : option VtReader.DecodedData :=
  if String.eqb content "forest" then Some [("landcover", [forest])]
  else if String.eqb content "orphan" then Some [("landcover", [orphan])]
  else None.

Definition reader_work :=
  VtReader.do_work VtReader.GlobalMercator.TileBounds unzip decode.

End Samples.

(** ** More sample archives *)

Module MoreSamples.

(** An archive whose metadata names a minimum zoom that is no number. *)
Definition mislabelled_db : Sqlite.Database :=
  {| Sqlite.metadata := [("minzoom", "low")];
     Sqlite.tiles := [(3, 0, 0, "a")] |}.

Definition connect (p : string) : option Connection :=
  if String.eqb p "mislabelled.mbtiles" then Some (Sqlite.run mislabelled_db)
  else Samples.connect p.

(** A network on which the fetch of one tile fails. *)
Definition fetch_but_one (u : string) : option string :=
  if String.eqb u "http://tiles.example/14/0/1.pbf" then None
  else Samples.fetch_ok u.


(** A point feature that carries two coordinate tuples. *)
Definition marker : VtReader.RawFeature :=
  {| VtReader.type := 1;
     VtReader.raw_geometry :=
       [VtReader.CList [VtReader.CInt 0; VtReader.CInt 0];
        VtReader.CList [VtReader.CInt 4096; VtReader.CInt 4096]];
     VtReader.raw_properties := {[ "class" := VtReader.SStr "peak" ]} |}.


(** A polygon with an empty class and a subclass. *)
Definition unclassed : VtReader.RawFeature :=
  {| VtReader.type := 3; VtReader.raw_geometry := Samples.ring;
     VtReader.raw_properties :=
       {[ "class" := VtReader.SStr ""; "subclass" := VtReader.SStr "forest" ]} |}.

(** A polygon whose class is a number. *)
Definition numbered : VtReader.RawFeature :=
  {| VtReader.type := 3; VtReader.raw_geometry := Samples.ring;
     VtReader.raw_properties := {[ "class" := VtReader.SInt 5 ]} |}.

(** A decoded tile with two features in its [landcover] layer and one in
    its [poi] layer. *)
Definition mixed_tile : VtReader.Tile :=
  VtReader.with_decoded
    (Some [("landcover", [Samples.forest; Samples.orphan]); ("poi", [marker])])
    Samples.tile_a.

End MoreSamples.

(** * Properties of the archive source *)

(** A run is its returned value and its final object. *)
Lemma run_returned {S A} (m : M S A) (s : S) (a : A) :
  returned m s = Ok a -> m s = (Ok a, final m s).
Proof. unfold returned, final. destruct (m s) as [o s']. cbn. by intros ->. Qed.

Lemma strict_prefix_app {A} (l r : list A) :
  strict_prefix l (l ++ r) <-> r <> [].
Proof.
  unfold strict_prefix. split.
  - intros [_ Hne] ->. by rewrite app_nil_r in Hne.
  - intros Hr. split; [by apply prefix_app_r|].
    intros Heq. apply Hr. apply (app_inv_head l). by rewrite app_nil_r.
Qed.

Module MBTilesFacts.
Import MBTiles.



(** The store model honours [LIMIT n]. *)
Lemma apply_limit_caps {A} (n : Z) (l : list A) :
  0 <= n -> (length (Sqlite.apply_limit (Some n) l) <= Z.to_nat n)%nat.
Proof.
  intros Hn. unfold Sqlite.apply_limit.
  destruct (Z.ltb_spec n 0); [lia|]. rewrite length_take. lia.
Qed.

(** *** The selection [kept] *)

Lemma at_cell_tile_of c r v t : at_cell c r (tile_of v t) = cell c r t.
Proof.
  destruct t as [[[z c'] r'] d]. unfold at_cell, cell. cbn.
  destruct (Z.eqb_spec c' c) as [->|Hc], (Z.eqb_spec r' r) as [->|Hr];
    repeat case_bool_decide; try done; congruence.
Qed.

Lemma filter_at_cell_tiles c r v l :
  filter (at_cell c r) (map (tile_of v) l) = map (tile_of v) (filter (cell c r) l).
Proof.
  induction l as [|t l IH]; [done|].
  cbn [map]. rewrite !filter_cons, at_cell_tile_of, IH.
  by destruct (cell c r t).
Qed.

Lemma filter_cell_none c r l :
  (forall u, u ∈ l -> cell c r u = false) -> filter (cell c r) l = [].
Proof.
  induction l as [|t l IH]; intros Hl; [done|].
  rewrite filter_cons, (Hl t) by constructor.
  apply IH. intros u Hu. apply Hl. by right.
Qed.

Lemma key_of_cell zoom c r t :
  key_of zoom t = (zoom, PInt c, PInt r) <-> cell c r t = true.
Proof.
  destruct t as [[[z c'] r'] d]. unfold key_of, cell. split.
  - intros [= -> ->]. by rewrite !Z.eqb_refl.
  - intros [->%Z.eqb_eq ->%Z.eqb_eq]%andb_prop. done.
Qed.

Lemma kept_sublist zoom rows : forall loaded t,
  t ∈ kept zoom loaded rows -> t ∈ rows.
Proof.
  induction rows as [|u rest IH]; intros loaded t; cbn [kept]; [done|].
  destruct (key_in _ _).
  - intros ?%IH. by right.
  - intros [->|?%IH]%elem_of_cons; by constructor.
Qed.

(** A key already loaded keeps every record of its cell out. *)
Lemma kept_loaded_cell zoom c r rows : forall loaded,
  (zoom, PInt c, PInt r) ∈ loaded ->
  filter (cell c r) (kept zoom loaded rows) = [].
Proof.
  induction rows as [|u rest IH]; intros loaded Hin; cbn [kept]; [done|].
  destruct (key_in _ _) eqn:Hk.
  - by apply IH.
  - rewrite filter_cons. destruct (cell c r u) eqn:Hu.
    + apply (key_of_cell zoom) in Hu. unfold key_in in Hk.
      apply bool_decide_eq_false in Hk. rewrite Hu in Hk. done.
    + apply IH. apply elem_of_app. by left.
Qed.

(** What is kept was not loaded before, and no key is kept twice. *)
Lemma kept_keys_fresh zoom rows : forall loaded t,
  t ∈ kept zoom loaded rows -> key_of zoom t ∉ loaded.
Proof.
  induction rows as [|u rest IH]; intros loaded t; cbn [kept]; [by intros ?%elem_of_nil|].
  destruct (key_in _ _) eqn:Hk; [apply IH|].
  apply bool_decide_eq_false in Hk.
  intros [->|Hin%IH]%elem_of_cons; [done|].
  intros ?. apply Hin, elem_of_app. by left.
Qed.

Lemma kept_keys_NoDup zoom rows : forall loaded,
  NoDup (map (key_of zoom) (kept zoom loaded rows)).
Proof.
  induction rows as [|u rest IH]; intros loaded; cbn [kept map]; [constructor|].
  destruct (key_in _ _); [apply IH|].
  cbn [map]. constructor; [|apply IH].
  intros (t & Ht & Hin%kept_keys_fresh)%list_elem_of_fmap.
  apply Hin, elem_of_app. right. rewrite Ht. by apply list_elem_of_singleton.
Qed.

Lemma kept_app zoom l1 : forall loaded l2,
  kept zoom loaded (l1 ++ l2)
  = kept zoom loaded l1
    ++ kept zoom (loaded ++ map (key_of zoom) (kept zoom loaded l1)) l2.
Proof.
  induction l1 as [|u rest IH]; intros loaded l2; cbn [kept app map].
  - by rewrite app_nil_r.
  - destruct (key_in _ _); [apply IH|].
    cbn [map app]. rewrite IH. by rewrite <- app_assoc.
Qed.

(** Of the records of one cell only the first is kept, whatever their
    zoom levels. *)
Lemma kept_first_of_cell zoom c r loaded pre t rest :
  cell c r t = true ->
  (zoom, PInt c, PInt r) ∉ loaded ->
  (forall u, u ∈ pre -> cell c r u = false) ->
  filter (cell c r) (kept zoom loaded (pre ++ t :: rest)) = [t].
Proof.
  intros Ht Hnew Hpre. rewrite kept_app, filter_app.
  assert (filter (cell c r) (kept zoom loaded pre) = []) as ->.
  { apply filter_cell_none. intros u Hin. by apply kept_sublist, Hpre in Hin. }
  cbn [app kept].
  assert (key_in (key_of zoom t)
            (loaded ++ map (key_of zoom) (kept zoom loaded pre)) = false) as ->.
  { apply bool_decide_eq_false. apply (key_of_cell zoom) in Ht. rewrite Ht.
    intros [?|Hin]%elem_of_app; [done|].
    apply list_elem_of_fmap in Hin as (u & Hu & Hin).
    symmetry in Hu. apply key_of_cell in Hu.
    apply kept_sublist, Hpre in Hin. congruence. }
  rewrite filter_cons, Ht. f_equal. apply kept_loaded_cell.
  apply (key_of_cell zoom) in Ht. rewrite <- Ht.
  apply elem_of_app. right. by apply list_elem_of_singleton.
Qed.

Section Facts.

Variable connect : string -> option Connection.

Lemma same_run_refl s : same_run s s.
Proof. by repeat split. Qed.

Lemma same_run_trans s1 s2 s3 : same_run s1 s2 -> same_run s2 s3 -> same_run s1 s3.
Proof.
  intros (?&?&?&?&?) (?&?&?&?&?). repeat split; congruence.
Qed.

(** [_get_from_db] never raises; it only opens the connection. *)
Lemma get_from_db_total sql s :
  exists r s', _get_from_db connect sql s = (Ok r, s')
    /\ same_run s s' /\ _metadata_cache s' = _metadata_cache s.
Proof.
  unfold _get_from_db, _connect_to_db, bind, gets, try_except, modify, ret, raise.
  destruct (conn s) as [ex|] eqn:Hc; simpl.
  - rewrite Hc. destruct (ex sql); eexists _, _; split; eauto using same_run_refl.
  - destruct (connect (path s)) as [ex|]; simpl.
    + destruct (ex sql); eexists _, _; split; eauto; by repeat split.
    + rewrite Hc. eexists _, _; split; eauto using same_run_refl.
Qed.

Lemma get_from_db_fails sql s :
  db_fails connect s sql ->
  exists s', _get_from_db connect sql s = (Ok None, s')
    /\ same_run s s' /\ _metadata_cache s' = _metadata_cache s.
Proof.
  unfold db_fails, _get_from_db, _connect_to_db, bind, gets, try_except, modify, ret, raise.
  destruct (conn s) as [ex|] eqn:Hc; simpl.
  - rewrite Hc. intros ->. eexists; split; eauto using same_run_refl.
  - destruct (connect (path s)) as [ex|]; simpl.
    + intros ->. eexists; split; eauto; by repeat split.
    + rewrite Hc. intros _. eexists; split; eauto using same_run_refl.
Qed.

Lemma get_from_db_returns sql rows s :
  db_returns connect s sql rows ->
  exists s', _get_from_db connect sql s = (Ok (Some rows), s')
    /\ same_run s s' /\ _metadata_cache s' = _metadata_cache s.
Proof.
  unfold db_returns, _get_from_db, _connect_to_db, bind, gets, try_except, modify, ret, raise.
  destruct (conn s) as [ex|] eqn:Hc; simpl.
  - rewrite Hc. intros ->. eexists; split; eauto using same_run_refl.
  - destruct (connect (path s)) as [ex|]; simpl; [|done].
    intros ->. eexists; split; eauto; by repeat split.
Qed.

(** On an open connection a query is one call of [execute]. *)
Lemma get_from_db_connected sql s execute :
  conn s = Some execute ->
  _get_from_db connect sql s = (Ok (execute sql), s).
Proof.
  intros Hc. unfold _get_from_db, bind, gets, try_except, ret, raise.
  rewrite Hc. cbn. rewrite Hc. by destruct (execute sql).
Qed.

Lemma get_single_value_connected q f s execute :
  conn s = Some execute ->
  _get_single_value connect q f s
  = (Ok (match execute q with
         | Some (r0 :: _) => default PNone (row_lookup r0 f)
         | _ => PNone
         end), s).
Proof.
  intros Hc. unfold _get_single_value, try_except, bind.
  rewrite (get_from_db_connected _ _ _ Hc).
  destruct (execute q) as [[|r0 rows]|]; try done.
  unfold row_get. by destruct (row_lookup r0 f).
Qed.

Lemma get_single_value_total q f s :
  exists v s', _get_single_value connect q f s = (Ok v, s')
    /\ same_run s s' /\ _metadata_cache s' = _metadata_cache s.
Proof.
  unfold _get_single_value, try_except, bind.
  destruct (get_from_db_total q s) as (r & s' & -> & Hs & Hm).
  destruct r as [[|r0 rs]|]; try (eexists _, _; split; [reflexivity|done]).
  unfold row_get. destruct (row_lookup r0 f); eexists _, _; (split; [reflexivity|done]).
Qed.

(** After [_get_metadata_value] the cache holds the value it returned. *)
Lemma get_metadata_value_total f d s :
  exists v s', _get_metadata_value connect f d s = (Ok v, s')
    /\ same_run s s' /\ _metadata_cache s' !! f = Some v
    /\ (forall g, g <> f -> _metadata_cache s' !! g = _metadata_cache s !! g).
Proof.
  unfold _get_metadata_value, bind, gets.
  destruct (_metadata_cache s !! f) as [v|] eqn:Hf.
  - unfold ret at 1. rewrite Hf. eexists _, _; split; [reflexivity|].
    split; [apply same_run_refl|done].
  - destruct (get_single_value_total (metadata_sql f) f s) as (v & s' & -> & Hs & Hm).
    unfold modify, ret. cbn [_metadata_cache with_cache].
    rewrite lookup_insert_eq. eexists _, _; split; [reflexivity|].
    cbn [_metadata_cache with_cache]. rewrite lookup_insert_eq.
    split; [|split; [done|]].
    + destruct Hs as (?&?&?&?&?). by repeat split.
    + intros g Hg. rewrite lookup_insert_ne by done. by rewrite Hm.
Qed.

Lemma get_metadata_value_cached f d s v :
  _metadata_cache s !! f = Some v ->
  _get_metadata_value connect f d s = (Ok v, s).
Proof.
  intros Hf. unfold _get_metadata_value, bind, gets. rewrite Hf.
  unfold ret at 1. by rewrite Hf.
Qed.

Lemma load_rows_cons zoom fe index r rest acc s :
  load_rows connect zoom fe index (r :: rest) acc s =
  (call_for_each fe index ;;;
   cancelling <- gets _cancelling ;;
   if cancelling : bool then ret acc
   else tuples <- row_step connect zoom index r acc ;;
        load_rows connect zoom fe (S index) rest tuples) s.
Proof.
  cbn [load_rows]. unfold row_step, bind.
  destruct (call_for_each fe index s) as [[[]|e] s1]; [|done].
  destruct (gets _cancelling s1) as [[c|e] s2]; [|done].
  destruct c; [done|].
  destruct (_create_tile connect r s2) as [[td|e] s3]; [|done].
  destruct (is_tile_loaded _ _ _ s3) as [[l|e] s4]; [|done].
  destruct l.
  - destruct (ret acc s4) as [[x|e] s5]; [|done].
    by destruct (call_progress_handler _ s5) as [[[]|e] s6].
  - destruct (_add_loaded_tile _ _ _ s4) as [[[]|e] s5]; [|done].
    destruct (ret (acc ++ [td]) s5) as [[x|e] s6]; [|done].
    by destruct (call_progress_handler _ s6) as [[[]|e] s7].
Qed.

Lemma row_step_extends zoom index r acc s l s' :
  row_step connect zoom index r acc s = (Ok l, s') -> acc `prefix_of` l.
Proof.
  unfold row_step, bind, is_tile_loaded, gets, _add_loaded_tile, modify, ret,
    call_progress_handler.
  destruct (_create_tile connect r s) as [[td|e] s1]; [|done].
  destruct (key_in _ _); destruct (_progress_handler _); intros [= <- <-];
    first [done | by apply prefix_app_r].
Qed.

Lemma load_rows_extends zoom fe rows : forall index acc s l s',
  load_rows connect zoom fe index rows acc s = (Ok l, s') -> acc `prefix_of` l.
Proof.
  induction rows as [|r rest IH]; intros index acc s l s'.
  - by intros [= <- <-].
  - rewrite load_rows_cons. unfold bind at 1.
    destruct (call_for_each fe index s) as [[[]|e] s1]; [|done].
    unfold bind at 1, gets. destruct (_cancelling s1).
    + by intros [= <- <-].
    + unfold bind at 1.
      destruct (row_step connect zoom index r acc s1) as [[t|e] s2] eqn:Hstep; [|done].
      intros Hl. etrans; [by eapply row_step_extends|by eapply IH].
Qed.

Lemma row_step_length zoom index r acc s l s' :
  row_step connect zoom index r acc s = (Ok l, s') ->
  (length l <= S (length acc))%nat.
Proof.
  unfold row_step, bind, is_tile_loaded, gets, _add_loaded_tile, modify, ret,
    call_progress_handler.
  destruct (_create_tile connect r s) as [[td|e] s1]; [|done].
  destruct (key_in _ _); destruct (_progress_handler _); intros [= <- <-];
    rewrite ?length_app; cbn; lia.
Qed.

(** The loop appends at most one tuple per row. *)
Lemma load_rows_length zoom fe rows : forall index acc s l s',
  load_rows connect zoom fe index rows acc s = (Ok l, s') ->
  (length l <= length acc + length rows)%nat.
Proof.
  induction rows as [|r rest IH]; intros index acc s l s'.
  - intros [= <- <-]. cbn. lia.
  - rewrite load_rows_cons. unfold bind at 1.
    destruct (call_for_each fe index s) as [[[]|e] s1]; [|done].
    unfold bind at 1, gets. destruct (_cancelling s1).
    + intros [= <- <-]. cbn. lia.
    + unfold bind at 1.
      destruct (row_step connect zoom index r acc s1) as [[t|e] s2] eqn:Hstep; [|done].
      intros Hl%IH. apply row_step_length in Hstep. cbn [length]. lia.
Qed.

(** X12. A call returns at most as many tuples as the query fetched rows,
    so a store that honours [LIMIT n] caps the archive source at [n]
    tiles. *)
Lemma load_tiles_at_most_rows s zoom bounds max_tiles fe rows l s' :
  db_returns connect s (sql_command zoom bounds max_tiles) rows ->
  load_tiles connect zoom bounds max_tiles fe s = (Ok l, s') ->
  (length l <= length rows)%nat.
Proof.
  intros Hdb.
  destruct (get_from_db_returns _ _ (with_cancelling false s) Hdb)
    as (s1 & Hrun & _).
  unfold load_tiles, bind at 1, modify, bind at 1. rewrite Hrun.
  destruct rows as [|r rest]; [by intros [= <- <-]|].
  unfold bind. destruct (call_progress_handler _ s1) as [[[]|e] s2]; [|done].
  intros Hl%load_rows_length. cbn in *. lia.
Qed.

(** Cancelling cuts the loop short: what a cancelled loop returns is an
    initial segment of what the loop returns when nothing cancels. *)
Lemma load_rows_cancel_prefix zoom fe rows : forall index acc s lu su,
  load_rows connect zoom (uncancelled fe) index rows acc s = (Ok lu, su) ->
  exists lc sc, load_rows connect zoom fe index rows acc s = (Ok lc, sc)
    /\ lc `prefix_of` lu.
Proof.
  induction rows as [|r rest IH]; intros index acc s lu su.
  - intros [= <- <-]. by eexists _, _.
  - intros Hu. pose proof (load_rows_extends _ _ _ _ _ _ _ _ Hu) as Hext.
    revert Hu. rewrite !load_rows_cons.
    unfold bind, call_for_each, uncancelled, never_cancels, cancel, modify, gets, ret.
    destruct fe as [f|]; [destruct (f index)|]; cbn [_cancelling with_cancelling].
    + intros _. by eexists _, _.
    + destruct (_cancelling s).
      { intros [= <- <-]. by eexists _, _. }
      destruct (row_step connect zoom index r acc s) as [[t|e] s2]; [|done].
      apply IH.
    + destruct (_cancelling s).
      { intros [= <- <-]. by eexists _, _. }
      destruct (row_step connect zoom index r acc s) as [[t|e] s2]; [|done].
      apply (IH _ _ _ _ _).
Qed.

Lemma load_tiles_cancel_prefix zoom bounds max_tiles fe s lu su :
  load_tiles connect zoom bounds max_tiles (uncancelled fe) s = (Ok lu, su) ->
  exists lc sc, load_tiles connect zoom bounds max_tiles fe s = (Ok lc, sc)
    /\ lc `prefix_of` lu.
Proof.
  unfold load_tiles, bind, modify.
  destruct (_get_from_db connect _ _) as [[rows|e] s1]; [|done].
  destruct rows as [[|r rest]|]; try (intros [= <- <-]; by eexists _, _).
  destruct (call_progress_handler _ s1) as [[[]|e] s2]; [|done].
  apply load_rows_cancel_prefix.
Qed.

Lemma ready_cached v s :
  _progress_handler s = true -> _cancelling s = false ->
  _metadata_cache s !! "scheme" = Some v -> ready connect v s.
Proof.
  intros Hh Hc Hm. repeat split; [done..|].
  unfold scheme. by rewrite (get_metadata_value_cached _ _ _ _ Hm).
Qed.

Lemma create_tile_row v t s :
  (scheme connect s).1 = Ok v ->
  exists s', _create_tile connect (row_of t) s = (Ok (tile_of v t), s')
    /\ same_run s s' /\ _metadata_cache s' !! "scheme" = Some v.
Proof.
  intros Hv. destruct t as [[[z c] r] d].
  unfold _create_tile, row_of, tile_row, row_get. cbn [row_lookup String.eqb Ascii.eqb Bool.eqb].
  unfold bind at 1 2 3 4, ret at 1 2 3 4. unfold bind.
  unfold scheme in *.
  destruct (get_metadata_value_total "scheme" (PStr "tms") s)
    as (v' & s' & Hrun & Hs & Hm & _).
  rewrite Hrun in Hv |- *. cbn in Hv. injection Hv as ->.
  by eexists.
Qed.

Lemma row_step_tile zoom index v t acc s :
  ready connect v s ->
  exists s',
    row_step connect zoom index (row_of t) acc s
    = (Ok (if key_in (key_of (py_opt zoom) t) (_loaded_tiles s) then acc
           else acc ++ [tile_of v t]), s')
    /\ ready connect v s'
    /\ _loaded_tiles s'
       = (if key_in (key_of (py_opt zoom) t) (_loaded_tiles s) then _loaded_tiles s
          else _loaded_tiles s ++ [key_of (py_opt zoom) t]).
Proof.
  intros (Hh & Hc & Hv).
  destruct (create_tile_row v t s Hv) as (s1 & Hrun & (Hp & Hl & Hh1 & Hc1 & Hr1) & Hm).
  unfold row_step, bind. rewrite Hrun.
  unfold is_tile_loaded, gets, _add_loaded_tile, modify, ret, call_progress_handler.
  destruct t as [[[z c] r] d]. cbn [tile_of key_of fst column row].
  rewrite Hl. destruct (key_in _ (_loaded_tiles s)).
  - rewrite Hh1, Hh. eexists; split; [reflexivity|]. split; [|done].
    apply ready_cached; cbn; congruence.
  - cbn [_progress_handler with_loaded]. rewrite Hh1, Hh.
    eexists; split; [reflexivity|]. split; [|cbn; by rewrite Hl].
    apply ready_cached; cbn; congruence.
Qed.

(** The loop on well-formed rows when nothing cancels: it appends the
    records [kept] selects and records exactly their keys. *)
Lemma load_rows_run zoom fe v rows : forall index acc s,
  ready connect v s -> quiet fe ->
  exists s',
    load_rows connect zoom fe index (map row_of rows) acc s
    = (Ok (acc ++ map (tile_of v) (kept (py_opt zoom) (_loaded_tiles s) rows)), s')
    /\ _loaded_tiles s'
       = _loaded_tiles s
         ++ map (key_of (py_opt zoom)) (kept (py_opt zoom) (_loaded_tiles s) rows)
    /\ _progress_handler s' = true.
Proof.
  induction rows as [|t rest IH]; intros index acc s Hr Hq.
  - cbn. unfold ret. rewrite !app_nil_r. destruct Hr as (Hh & _). by eexists.
  - cbn [map]. rewrite load_rows_cons.
    assert (call_for_each fe index s = (Ok tt, s)) as Hfe.
    { destruct fe as [f|]; [|done]. cbn. by rewrite (Hq index). }
    unfold bind at 1. rewrite Hfe. unfold bind at 1, gets.
    destruct Hr as (Hh & Hc & Hv). rewrite Hc.
    destruct (row_step_tile zoom index v t acc s) as (s1 & Hstep & Hr1 & Hl1); [done|].
    unfold bind. rewrite Hstep.
    destruct (IH (S index)
                (if key_in (key_of (py_opt zoom) t) (_loaded_tiles s) then acc
                 else acc ++ [tile_of v t]) s1 Hr1 Hq) as (s2 & Hrun & Hl2 & Hh2).
    exists s2. rewrite Hrun, Hl2, Hl1. cbn [kept].
    destruct (key_in _ (_loaded_tiles s)); [done|].
    cbn [map]. by rewrite <- !app_assoc.
Qed.

Lemma scheme_total s : exists v, (scheme connect s).1 = Ok v.
Proof.
  unfold scheme.
  destruct (get_metadata_value_total "scheme" (PStr "tms") s) as (v & s' & -> & _).
  by exists v.
Qed.

(** A whole call on well-formed rows when nothing cancels. *)
Lemma load_tiles_run s zoom bounds max_tiles fe (rows : list TileRec) :
  _progress_handler s = true ->
  db_returns connect s (sql_command zoom bounds max_tiles) (map row_of rows) ->
  quiet fe ->
  exists v s',
    load_tiles connect zoom bounds max_tiles fe s
    = (Ok (map (tile_of v) (kept (py_opt zoom) (_loaded_tiles s) rows)), s')
    /\ _loaded_tiles s'
       = _loaded_tiles s
         ++ map (key_of (py_opt zoom)) (kept (py_opt zoom) (_loaded_tiles s) rows)
    /\ _progress_handler s' = true.
Proof.
  intros Hh Hdb Hq.
  destruct (get_from_db_returns _ _ (with_cancelling false s) Hdb)
    as (s1 & Hrun & (Hp & Hl & Hh1 & Hc1 & Hr1) & Hm).
  cbn [_loaded_tiles _progress_handler _cancelling with_cancelling] in *.
  unfold load_tiles, bind at 1, modify, bind at 1. rewrite Hrun.
  destruct rows as [|t rest].
  - exists PNone. cbn. unfold ret. eexists. split; [done|].
    rewrite app_nil_r. split; [done|]. congruence.
  - cbn [map]. unfold bind, call_progress_handler. rewrite Hh1, Hh.
    set (s3 := with_reported _ s1).
    destruct (scheme_total s3) as [v Hv]. exists v.
    assert (ready connect v s3) as Hready.
    { split; [|split]; [subst s3; cbn; congruence..|done]. }
    destruct (load_rows_run zoom fe v (t :: rest) 0 [] s3 Hready Hq)
      as (s' & Hr & Hl' & Hh').
    assert (_loaded_tiles s3 = _loaded_tiles s) as Hl3 by (subst s3; cbn; congruence).
    rewrite Hl3 in *. exists s'. by split.
Qed.

(** X11. Two calls with the same [zoom_level] argument never return tiles
    of the same column and row. *)
Lemma same_zoom_argument_no_redelivery s zoom bounds1 bounds2 max1 max2 rows1 rows2 :
  let first := load_tiles connect zoom bounds1 max1 None in
  _progress_handler s = true ->
  db_returns connect s (sql_command zoom bounds1 max1) (map row_of rows1) ->
  db_returns connect (final first s) (sql_command zoom bounds2 max2)
    (map row_of rows2) ->
  exists res1 res2 s2,
    first s = (Ok res1, final first s)
    /\ load_tiles connect zoom bounds2 max2 None (final first s) = (Ok res2, s2)
    /\ forall t1 t2, t1 ∈ res1 -> t2 ∈ res2 ->
         (column t1.1, row t1.1) <> (column t2.1, row t2.1).
Proof.
  intros first Hh Hdb1 Hdb2.
  destruct (load_tiles_run s zoom bounds1 max1 None rows1 Hh Hdb1 I)
    as (v1 & s1 & Hrun1 & Hl1 & Hh1).
  assert (final first s = s1) as Hs1 by (unfold final, first; by rewrite Hrun1).
  rewrite Hs1 in *.
  destruct (load_tiles_run s1 zoom bounds2 max2 None rows2 Hh1 Hdb2 I)
    as (v2 & s2 & Hrun2 & Hl2 & Hh2).
  eexists _, _, s2. split; [exact Hrun1|]. split; [exact Hrun2|].
  intros t1 t2 (u1 & -> & Hu1)%list_elem_of_fmap (u2 & -> & Hu2)%list_elem_of_fmap Heq.
  apply kept_keys_fresh in Hu2. apply Hu2. rewrite Hl1.
  apply elem_of_app. right. apply list_elem_of_fmap. exists u1. split; [|done].
  destruct u1 as [[[z1 c1] r1] d1], u2 as [[[z2 c2] r2] d2]. cbn in *. congruence.
Qed.

(** The loop over the rows, whatever the callback does: it appends the
    tiles an uncancelled loop appends for the first [j] rows, where [j] is
    the first turn on which the callback cancels, or the number of rows
    when it never does. *)
Lemma load_rows_stops zoom fe v rows : forall index acc s,
  ready connect v s ->
  exists j s',
    (j <= length rows)%nat
    /\ load_rows connect zoom fe index (map row_of rows) acc s
       = (Ok (acc ++ map (tile_of v)
                       (kept (py_opt zoom) (_loaded_tiles s) (take j rows))), s')
    /\ _loaded_tiles s'
       = _loaded_tiles s
         ++ map (key_of (py_opt zoom))
              (kept (py_opt zoom) (_loaded_tiles s) (take j rows))
    /\ ((j < length rows)%nat ->
        _cancelling s' = true
        /\ exists f, fe = Some f /\ f (index + j)%nat = true)
    /\ (forall f i, fe = Some f -> (i < j)%nat -> f (index + i)%nat = false).
Proof.
  induction rows as [|t rest IH]; intros index acc s Hr.
  - exists 0%nat, s. cbn. unfold ret. rewrite !app_nil_r.
    split; [lia|]. split; [done|]. split; [done|]. split; intros; lia.
  - cbn [map]. rewrite load_rows_cons.
    destruct Hr as (Hh & Hc & Hv).
    assert ((exists f, fe = Some f /\ f index = true
                       /\ call_for_each fe index s = (Ok tt, with_cancelling true s))
            \/ ((forall f, fe = Some f -> f index = false)
                /\ call_for_each fe index s = (Ok tt, s))) as [(f & -> & Hf & Hfe)|[Hf Hfe]].
    { destruct fe as [f|]; [|right; by split].
      cbn. destruct (f index) eqn:Hf.
      - left. by exists f.
      - right. split; [|done]. by intros ? [= <-]. }
    + exists 0%nat, (with_cancelling true s).
      unfold bind at 1. rewrite Hfe. unfold bind, gets, ret. cbn.
      rewrite !app_nil_r, Nat.add_0_r.
      split; [lia|]. split; [done|]. split; [done|].
      split; [intros _; split; [done|by exists f]|intros; lia].
    + unfold bind at 1. rewrite Hfe. unfold bind at 1, gets. rewrite Hc.
      destruct (row_step_tile zoom index v t acc s) as (s1 & Hstep & Hr1 & Hl1); [done|].
      unfold bind. rewrite Hstep.
      destruct (IH (S index)
                  (if key_in (key_of (py_opt zoom) t) (_loaded_tiles s) then acc
                   else acc ++ [tile_of v t]) s1 Hr1)
        as (j & s2 & Hj & Hrun & Hl2 & Hstop & Hquiet).
      exists (S j), s2. cbn [length take kept]. rewrite Hrun, Hl2, Hl1.
      split; [lia|]. split; [|split; [|split]].
      * destruct (key_in _ (_loaded_tiles s)); [done|].
        cbn [map]. by rewrite <- !app_assoc.
      * destruct (key_in _ (_loaded_tiles s)); [done|].
        cbn [map]. by rewrite <- !app_assoc.
      * intros Hlt. destruct Hstop as (Hcs & f & -> & Hfj); [lia|].
        split; [done|]. exists f. split; [done|].
        by replace (index + S j)%nat with (S index + j)%nat by lia.
      * intros f i -> Hi. destruct i as [|i].
        { rewrite Nat.add_0_r. by apply Hf. }
        replace (index + S i)%nat with (S index + i)%nat by lia.
        apply Hquiet; [done|lia].
Qed.

(** Of the rows of one cell, the loop keeps the first, if it gets that
    far and the key of the cell is new, and none after it. *)
Lemma kept_cell_take zoom c r loaded pre t rest j :
  cell c r t = true ->
  (forall u, u ∈ pre -> cell c r u = false) ->
  filter (cell c r) (kept zoom loaded (take j (pre ++ t :: rest)))
  = if bool_decide (j <= length pre)%nat then []
    else if key_in (zoom, PInt c, PInt r) loaded then [] else [t].
Proof.
  intros Ht Hpre. destruct (bool_decide_reflect (j <= length pre)%nat) as [Hj|Hj].
  - rewrite take_app_le by done. apply filter_cell_none.
    intros u Hu%kept_sublist. apply Hpre. by eapply subseteq_take.
  - rewrite take_app_ge by lia.
    destruct (j - length pre)%nat as [|n] eqn:Hn; [lia|]. cbn [take].
    destruct (key_in _ loaded) eqn:Hk.
    + apply kept_loaded_cell. by apply bool_decide_eq_true in Hk.
    + apply kept_first_of_cell; [done| |done]. by apply bool_decide_eq_false in Hk.
Qed.

(** A call that fetched rows and returned had a progress handler. *)
Lemma load_tiles_returned_handler s zoom bounds max_tiles fe rows res s' :
  db_returns connect s (sql_command zoom bounds max_tiles) rows ->
  load_tiles connect zoom bounds max_tiles fe s = (Ok res, s') ->
  rows <> [] -> _progress_handler s = true.
Proof.
  intros Hdb Hrun Hne.
  destruct (get_from_db_returns _ _ (with_cancelling false s) Hdb)
    as (s1 & Hdb1 & (_ & _ & Hh1 & _) & _).
  revert Hrun. unfold load_tiles, bind at 1, modify, bind at 1. rewrite Hdb1.
  destruct rows as [|r rest]; [done|].
  unfold bind, call_progress_handler. rewrite Hh1. cbn.
  by destruct (_progress_handler s).
Qed.

(** The same for a whole call; the scheme [v] of the returned tiles does
    not depend on the callback. *)
Lemma load_tiles_stops s zoom bounds max_tiles (rows : list TileRec) :
  (rows <> [] -> _progress_handler s = true) ->
  db_returns connect s (sql_command zoom bounds max_tiles) (map row_of rows) ->
  exists v, forall fe,
    exists j s',
      (j <= length rows)%nat
      /\ load_tiles connect zoom bounds max_tiles fe s
         = (Ok (map (tile_of v)
                  (kept (py_opt zoom) (_loaded_tiles s) (take j rows))), s')
      /\ _loaded_tiles s'
         = _loaded_tiles s
           ++ map (key_of (py_opt zoom))
                (kept (py_opt zoom) (_loaded_tiles s) (take j rows))
      /\ ((j < length rows)%nat ->
          _cancelling s' = true /\ exists f, fe = Some f /\ f j = true)
      /\ (forall f i, fe = Some f -> (i < j)%nat -> f i = false).
Proof.
  intros Hh Hdb.
  destruct (get_from_db_returns _ _ (with_cancelling false s) Hdb)
    as (s1 & Hrun & (Hp & Hl & Hh1 & Hc1 & Hr1) & Hm).
  cbn [_loaded_tiles _progress_handler _cancelling with_cancelling] in *.
  destruct rows as [|t rest].
  - exists PNone. intros fe. exists 0%nat, s1.
    unfold load_tiles, bind at 1, modify, bind at 1. rewrite Hrun.
    cbn. unfold ret. rewrite app_nil_r.
    split; [lia|]. split; [done|]. split; [done|]. split; intros; lia.
  - set (s3 := with_reported
                 (reported s1 ++ [announce_max (length (map row_of (t :: rest)))]) s1).
    destruct (scheme_total s3) as [v Hv]. exists v. intros fe.
    assert (ready connect v s3) as Hready.
    { split; [|split]; [subst s3; cbn; rewrite ?Hh1, ?Hc1; auto..|done]. }
    destruct (load_rows_stops zoom fe v (t :: rest) 0 [] s3 Hready)
      as (j & s' & Hj & Hr & Hl' & Hstop & Hquiet).
    assert (_loaded_tiles s3 = _loaded_tiles s) as Hl3 by (subst s3; cbn; congruence).
    rewrite Hl3 in *. exists j, s'.
    split; [done|]. split; [|split; [done|split; [done|]]].
    + unfold load_tiles, bind at 1, modify, bind at 1. rewrite Hrun.
      cbn [map]. unfold bind, call_progress_handler. rewrite Hh1, Hh by done.
      exact Hr.
    + intros f i. apply Hquiet.
Qed.

(** A call whose callback first cancels on turn [k], before the rows
    run out: it returns what the uncancelled call returns from the first
    [k] rows. *)
Lemma load_tiles_cancel_at s zoom bounds max_tiles fe k (rows : list TileRec) lu su :
  db_returns connect s (sql_command zoom bounds max_tiles) (map row_of rows) ->
  load_tiles connect zoom bounds max_tiles (uncancelled fe) s = (Ok lu, su) ->
  first_cancel fe k -> (k < length rows)%nat ->
  exists v lc sc,
    load_tiles connect zoom bounds max_tiles fe s = (Ok lc, sc)
    /\ _cancelling sc = true
    /\ lc = map (tile_of v) (kept (py_opt zoom) (_loaded_tiles s) (take k rows))
    /\ lu = lc ++ map (tile_of v)
                   (kept_after (py_opt zoom) (_loaded_tiles s) k rows).
Proof.
  intros Hdb Hu (f & -> & Hk & Hbefore) Hlen.
  assert (rows <> [] -> _progress_handler s = true) as Hh.
  { intros Hne. eapply load_tiles_returned_handler; [exact Hdb|exact Hu|].
    by destruct rows. }
  destruct (load_tiles_stops s zoom bounds max_tiles rows Hh Hdb) as [v Hall].
  destruct (Hall (Some never_cancels)) as (ju & su' & Hju & Hrunu & _ & Hstopu & _).
  cbn [uncancelled] in Hu. rewrite Hrunu in Hu. injection Hu as <- <-.
  assert (ju = length rows) as ->.
  { destruct (decide (ju < length rows)%nat) as [Hlt|]; [|lia].
    by destruct (Hstopu Hlt) as (_ & f' & [= <-] & Hf'). }
  destruct (Hall (Some f)) as (j & sc & Hj & Hrun & _ & Hstop & Hquiet).
  assert (j = k) as ->.
  { destruct (decide (j < length rows)%nat) as [Hlt|Hge].
    - destruct (Hstop Hlt) as (_ & f' & [= <-] & Hfj).
      destruct (decide (j < k)%nat) as [Hjk|Hjk].
      { rewrite Hbefore in Hfj by done. done. }
      destruct (decide (k < j)%nat) as [Hkj|Hkj]; [|lia].
      rewrite (Hquiet f k eq_refl Hkj) in Hk. done.
    - assert (k < j)%nat as Hkj by lia.
      rewrite (Hquiet f k eq_refl Hkj) in Hk. done. }
  destruct (Hstop Hlen) as [Hc _].
  exists v. eexists _, sc. split; [exact Hrun|]. split; [done|]. split; [done|].
  rewrite take_ge by lia. unfold kept_after.
  rewrite <- map_app, <- kept_app. by rewrite take_drop.
Qed.

End Facts.

End MBTilesFacts.

Module MBTilesClaims.
Import MBTiles MBTilesFacts.

Section Claims.

Variable connect : string -> option Connection.

(** C8. When the connection cannot be opened or the tile query raises,
    [load_tiles] of the archive source raises nothing: it returns the empty
    list, marks no tile as loaded and reports no progress. *)
Theorem load_tiles_swallows_db_failure s zoom bounds max_tiles for_each :
  db_fails connect s (sql_command zoom bounds max_tiles) ->
  exists s',
    load_tiles connect zoom bounds max_tiles for_each s = (Ok [], s')
    /\ _loaded_tiles s' = _loaded_tiles s /\ reported s' = reported s.
Proof.
  intros Hfail. unfold load_tiles, bind at 1, modify, bind.
  destruct (get_from_db_fails connect _ (with_cancelling false s) Hfail)
    as (s' & -> & (_ & Hl & _ & _ & Hr) & _).
  unfold ret. by eexists.
Qed.

(** C10, as amended. The archive source builds its duplicate-suppression
    key from the [zoom_level] argument of [load_tiles], never from the row:
    the keys a call records are [(zoom_level, column, row)] of the tiles it
    returns.  So in a call with [zoom_level=None], of two rows of one
    column and row with different zoom levels the later one is never
    returned; the first such row is the only tile of the cell that can be
    returned, it is returned when the key [(None, column, row)] was not
    loaded before and nothing cancels the call, and no tile of the cell is
    returned when that key was loaded before. *)
Theorem dedup_key_is_zoom_argument s zoom bounds max_tiles for_each
  (rows : list TileRec) res s' :
  db_returns connect s (sql_command zoom bounds max_tiles) (map row_of rows) ->
  load_tiles connect zoom bounds max_tiles for_each s = (Ok res, s') ->
  exists v,
    _loaded_tiles s'
    = _loaded_tiles s
      ++ map (fun td => (py_opt zoom, column td.1, row td.1)) res
    /\ (zoom = None ->
        forall (pre mid post : list TileRec) z1 z2 c r d1 d2,
          rows = pre ++ (z1, c, r, d1) :: mid ++ (z2, c, r, d2) :: post ->
          z1 <> z2 ->
          (forall u, u ∈ pre -> cell c r u = false) ->
          (tile_of v (z2, c, r, d2) ∉ res)
          /\ ((filter (at_cell c r) res = [tile_of v (z1, c, r, d1)])
              \/ (filter (at_cell c r) res = []))
          /\ ((PNone, PInt c, PInt r) ∈ _loaded_tiles s ->
              filter (at_cell c r) res = [])
          /\ ((PNone, PInt c, PInt r) ∉ _loaded_tiles s -> quiet for_each ->
              filter (at_cell c r) res = [tile_of v (z1, c, r, d1)])).
Proof.
  intros Hdb Hload.
  assert (rows <> [] -> _progress_handler s = true) as Hh.
  { intros Hne. eapply load_tiles_returned_handler; [exact Hdb|exact Hload|].
    by destruct rows. }
  destruct (load_tiles_stops connect s zoom bounds max_tiles rows Hh Hdb) as [v Hall].
  destruct (Hall for_each) as (j & s1 & Hj & Hrun & Hl & Hstop & Hquiet).
  rewrite Hrun in Hload. injection Hload as <- <-.
  assert (map (fun td : VectorTile * PyValue => (py_opt zoom, column td.1, row td.1))
              (map (tile_of v) (kept (py_opt zoom) (_loaded_tiles s) (take j rows)))
          = map (key_of (py_opt zoom)) (kept (py_opt zoom) (_loaded_tiles s) (take j rows)))
    as Hkeys.
  { rewrite map_map. apply map_ext. by intros [[[z c] r] d]. }
  exists v. split; [by rewrite Hkeys|].
  intros -> pre mid post z1 z2 c r d1 d2 -> Hz Hpre.
  assert (cell c r (z1, c, r, d1) = true) as Hcell by (cbn; by rewrite !Z.eqb_refl).
  pose proof (kept_cell_take PNone c r (_loaded_tiles s) pre (z1, c, r, d1)
                (mid ++ (z2, c, r, d2) :: post) j Hcell Hpre) as Hf.
  cbn [py_opt] in *. rewrite filter_at_cell_tiles.
  set (found := filter _ _).
  assert (found = if bool_decide (j <= length pre)%nat then []
                  else if key_in (PNone, PInt c, PInt r) (_loaded_tiles s) then []
                       else [(z1, c, r, d1)]) as Hfound by exact Hf.
  split; [|rewrite Hfound; clear Hfound; clearbody found; split; [|split]].
  - intros (u & Hu & Hin)%list_elem_of_fmap.
    assert (u ∈ found) as Hu'.
    { unfold found. apply list_elem_of_filter. split; [|done].
      destruct u as [[[zu cu] ru] du]. cbn in Hu. injection Hu as _ <- <- _.
      cbn. by rewrite !Z.eqb_refl. }
    rewrite Hfound in Hu'.
    destruct (bool_decide _); [by apply elem_of_nil in Hu'|].
    destruct (key_in _ _); [by apply elem_of_nil in Hu'|].
    apply list_elem_of_singleton in Hu' as ->. cbn in Hu. congruence.
  - destruct (bool_decide _); [by right|]. destruct (key_in _ _); [by right|by left].
  - intros Hin. destruct (bool_decide _); [done|].
    assert (key_in (PNone, PInt c, PInt r) (_loaded_tiles s) = true) as ->
      by by apply bool_decide_eq_true.
    done.
  - intros Hnew Hq.
    assert (j = length (pre ++ (z1, c, r, d1) :: mid ++ (z2, c, r, d2) :: post)) as Hjl.
    { destruct (decide (j < length (pre ++ (z1, c, r, d1) :: mid
                                      ++ (z2, c, r, d2) :: post))%nat) as [Hlt|]; [|lia].
      destruct (Hstop Hlt) as (_ & f & -> & Hfj). cbn in Hq. by rewrite Hq in Hfj. }
    rewrite length_app in Hjl. cbn [length] in Hjl.
    assert (bool_decide (j <= length pre)%nat = false) as ->
      by (apply bool_decide_eq_false; lia).
    assert (key_in (PNone, PInt c, PInt r) (_loaded_tiles s) = false) as ->
      by by apply bool_decide_eq_false.
    done.
Qed.

(** The fallback of [min_zoom()] and [max_zoom()] stands and falls with
    the glued query text: when the metadata has no such key and the store
    rejects that text, the result is [None], whatever the tiles table
    holds. *)
Lemma zoom_fallback_needs_glued_query s execute max_zoom :
  let field_name := if max_zoom : bool then "maxzoom" else "minzoom" in
  let order := if max_zoom : bool then "desc" else "asc" in
  conn s = Some execute ->
  _metadata_cache s !! field_name = None ->
  execute (metadata_sql field_name) = Some [] ->
  execute (zoom_sql order) = None ->
  returned (_get_zoom connect max_zoom) s = Ok PNone.
Proof.
  intros field_name order Hconn Hcache Hmeta Hzoom.
  unfold returned, _get_zoom, _get_metadata_value, _get_zoom_from_tiles_table.
  fold field_name order. unfold bind at 1, gets. rewrite Hcache.
  unfold bind at 1 2 3, gets. rewrite Hcache.
  unfold bind at 1 2. rewrite (get_single_value_connected _ _ _ _ _ Hconn), Hmeta.
  cbn [truthy andb]. unfold modify at 1, bind at 1, gets.
  cbn [_metadata_cache with_cache]. rewrite lookup_insert_eq. unfold ret at 1.
  unfold bind at 1.
  rewrite (get_single_value_connected _ _ _ (with_cache _ s) execute Hconn), Hzoom.
  unfold bind, ret, modify, gets. cbn [_metadata_cache with_cache].
  by rewrite lookup_insert_eq.
Qed.

End Claims.
End MBTilesClaims.

Module MBTilesRuns.
Import MBTiles.

Lemma load_tiles_swallows_db_failure_witness :
  exists s',
    load_tiles Samples.connect (Some 14) None (Some 2) None
      (Samples.source "missing.mbtiles") = (Ok [], s')
    /\ _loaded_tiles s' = [] /\ reported s' = [].
Proof.
  apply (MBTilesClaims.load_tiles_swallows_db_failure Samples.connect
           (Samples.source "missing.mbtiles") (Some 14) None (Some 2) None).
  vm_compute. exact I.
Defined.

Lemma dedup_key_is_zoom_argument_witness :
  let s := Samples.source "stacked.mbtiles" in
  let res := [tile_of (PStr "tms") (13, 0, 0, "a"); tile_of (PStr "tms") (14, 3, 5, "c")] in
  exists v,
    _loaded_tiles (final (load_tiles Samples.connect None None None None) s)
    = _loaded_tiles s ++ map (fun td => (PNone, column td.1, row td.1)) res
    /\ (tile_of v (14, 0, 0, "b") ∉ res)
    /\ filter (at_cell 0 0) res = [tile_of v (13, 0, 0, "a")].
Proof.
  intros s res.
  destruct (MBTilesClaims.dedup_key_is_zoom_argument Samples.connect
              s None None None None
              [(13, 0, 0, "a"); (14, 0, 0, "b"); (14, 3, 5, "c")] res
              (final (load_tiles Samples.connect None None None None) s))
    as (v & Hl & Hcell).
  - vm_compute. reflexivity.
  - apply run_returned. vm_compute. reflexivity.
  - destruct (Hcell eq_refl [] [] [(14, 3, 5, "c")] 13 14 0 0 "a" "b")
      as (Hlater & _ & _ & Hfirst).
    + reflexivity.
    + lia.
    + intros u Hu. by apply elem_of_nil in Hu.
    + exists v. split; [exact Hl|]. split; [exact Hlater|].
      apply Hfirst; [apply not_elem_of_nil|exact I].
Defined.

(** C10, as stated, fails. After the probe of [is_mapbox_vector_tile()],
    which is a call with [zoom_level=None] and [max_tiles=1], the cell at
    column 0, row 0 is marked under the key [(None, 0, 0)]; a call with
    [zoom_level=None] on the same source then fetches the two rows of that
    cell, of zoom levels 13 and 14, and returns neither, not even the
    first. *)
Lemma dedup_may_drop_first_row :
  let s0 := Samples.source "stacked.mbtiles" in
  let probe := load_tiles Samples.connect None None (Some 1) None s0 in
  let call := load_tiles Samples.connect None None None None probe.2 in
  probe.1 = Ok [tile_of (PStr "tms") (13, 0, 0, "a")]
  /\ _loaded_tiles probe.2 = [(PNone, PInt 0, PInt 0)]
  /\ db_returns Samples.connect probe.2 (sql_command None None None)
       (map row_of [(13, 0, 0, "a"); (14, 0, 0, "b"); (14, 3, 5, "c")])
  /\ call.1 = Ok [tile_of (PStr "tms") (14, 3, 5, "c")]
  /\ filter (at_cell 0 0) [tile_of (PStr "tms") (14, 3, 5, "c")] = [].
Proof. repeat split; vm_compute; reflexivity. Qed.

(** C7 (the code departs from it). On an archive without zoom metadata,
    whose tiles span zoom levels 13 to 14, [min_zoom()] and [max_zoom()]
    return [None]: the fallback query is glued from string literals with
    no blanks between them and the store rejects it, while the query with
    its blanks in place yields 13 and 14.  With the metadata present the
    metadata value is returned. *)
Theorem zoom_fallback_query_is_glued :
  MBTiles.zoom_sql "asc"
  = "select zoom_level as 'zoom_level'from tilesorder by zoom_level asclimit 1"
  /\ Sqlite.run Samples.stacked_db (MBTiles.zoom_sql "asc") = None
  /\ Sqlite.run Samples.stacked_db
       "select zoom_level as 'zoom_level' from tiles order by zoom_level asc limit 1"
     = Some [[("zoom_level", PInt 13)]]
  /\ (min_zoom Samples.connect (Samples.source "stacked.mbtiles")).1 = Ok PNone
  /\ (max_zoom Samples.connect (Samples.source "stacked.mbtiles")).1 = Ok PNone
  /\ (min_zoom Samples.connect (Samples.source "described.mbtiles")).1 = Ok (PInt 3)
  /\ (max_zoom Samples.connect (Samples.source "described.mbtiles")).1 = Ok (PInt 14).
Proof. repeat split; vm_compute; reflexivity. Qed.

(** C1 (the code departs from it). A probe with [zoom_level=None] and a
    later call with [zoom_level=13] on the same archive source both return
    the tile at zoom 13, column 0, row 0: the first call recorded it under
    the key [(None, 0, 0)], the second looks for [(13, 0, 0)]. *)
Theorem archive_delivers_tile_twice :
  let s0 := Samples.source "stacked.mbtiles" in
  let first := load_tiles Samples.connect None None (Some 1) None s0 in
  let second := load_tiles Samples.connect (Some 13) None None None first.2 in
  first.1 = Ok [tile_of (PStr "tms") (13, 0, 0, "a")]
  /\ second.1 = Ok [tile_of (PStr "tms") (13, 0, 0, "a")]
  /\ _loaded_tiles first.2 = [(PNone, PInt 0, PInt 0)]
  /\ _loaded_tiles second.2 = [(PNone, PInt 0, PInt 0); (PInt 13, PInt 0, PInt 0)].
Proof. repeat split; vm_compute; reflexivity. Qed.

End MBTilesRuns.

(** * Properties of the remote source *)

Module ServerFacts.
Import Server.

Section Facts.

Variable get_all_tiles : option MBTiles.Bounds -> list (Z * Z).
Variable fetch : string -> option string.
Variable finish_order : nat -> list Job -> list Job.
Variable late_arrivals : nat -> list Job -> nat -> nat.

Local Abbreviation landed := (landed finish_order late_arrivals).
Local Abbreviation _load_urls_async := (_load_urls_async fetch finish_order late_arrivals).
Local Abbreviation do_paged_loop := (do_paged_loop fetch finish_order late_arrivals).
Local Abbreviation load_tiles := (load_tiles get_all_tiles fetch finish_order late_arrivals).

(** The results of a page that are on the queue are an initial segment of
    the results of the whole page. *)
Lemma landed_prefix off jobs joined :
  landed off jobs joined `prefix_of` finish_order off jobs.
Proof.
  unfold Server.landed. destruct (_ =? _)%nat; [done|apply prefix_take].
Qed.

Lemma omap_prefix {A B} (f : A -> option B) (l1 l2 : list A) :
  l1 `prefix_of` l2 -> omap f l1 `prefix_of` omap f l2.
Proof. intros [k ->]. rewrite omap_app. by apply prefix_app_r. Qed.

(** Joining threads with a callback that never cancels joins them all. *)
Lemma join_threads_uncancelled off fe threads : forall index s ju su,
  _cancelling s = false ->
  join_threads off (uncancelled fe) index threads s = (Ok ju, su) ->
  ju = (index + length threads)%nat /\ _cancelling su = false /\ json su = json s.
Proof.
  induction threads as [|t rest IH]; intros index s ju su Hc.
  - intros [= <- <-]. cbn. split; [lia|done].
  - cbn [join_threads length].
    destruct fe as [f|]; cbn [uncancelled call_for_each];
      unfold bind, never_cancels, gets, modify, ret, call_progress_handler;
      simpl; rewrite Hc; simpl.
    + destruct (_progress_handler s); [|done].
      intros Hrun. apply (IH _ _ _ _) in Hrun; [|done]. cbn in Hrun.
      split; [lia|apply Hrun].
    + destruct (_progress_handler s); [|done].
      intros Hrun. apply (IH _ _ _ _) in Hrun; [|done]. cbn in Hrun.
      split; [lia|apply Hrun].
Qed.

(** A cancelling callback makes the join loop either behave as its
    uncancelled twin or stop with the flag set. *)
Lemma join_threads_cancelled off fe threads : forall index s ju su,
  join_threads off (uncancelled fe) index threads s = (Ok ju, su) ->
  exists jc sc,
    join_threads off fe index threads s = (Ok jc, sc)
    /\ json sc = json s
    /\ ((jc = ju /\ sc = su) \/ _cancelling sc = true).
Proof.
  induction threads as [|t rest IH]; intros index s ju su.
  - intros [= <- <-]. eexists _, _. split; [done|]. split; [done|by left].
  - cbn [join_threads].
    destruct fe as [f|]; cbn [uncancelled call_for_each];
      unfold bind, never_cancels, cancel, gets, modify, ret, call_progress_handler;
      simpl.
    + destruct (f (for_each_calls s)); simpl.
      * intros _. eexists _, _. split; [done|]. split; [done|by right].
      * destruct (_cancelling s); simpl.
        { intros [= <- <-]. eexists _, _. split; [done|]. split; [done|by left]. }
        destruct (_progress_handler s); [|done].
        intros Hrun. apply (IH _ _ _ _) in Hrun as (jc & sc & Hrun & Hj & Hcase).
        eexists _, _. split; [exact Hrun|]. split; [by rewrite Hj|done].
    + destruct (_cancelling s); simpl.
      { intros [= <- <-]. eexists _, _. split; [done|]. split; [done|by left]. }
      destruct (_progress_handler s); [|done].
      intros Hrun. apply (IH _ _ _ _) in Hrun as (jc & sc & Hrun & Hj & Hcase).
      eexists _, _. split; [exact Hrun|]. split; [by rewrite Hj|done].
Qed.

Lemma do_paged_loop_extends fe ps items fuel : forall nr q s q' s',
  do_paged_loop fuel ps nr items q fe s = (Ok q', s') -> q `prefix_of` q'.
Proof.
  induction fuel as [|fuel IH]; intros nr q s q' s'.
  - by intros [= <- <-].
  - cbn [Server.do_paged_loop]. unfold bind at 1, gets.
    destruct (_cancelling s || _)%bool; [by intros [= <- <-]|].
    unfold bind, Server._load_urls_async, bind, ret.
    destruct (join_threads _ _ _ _ s) as [[j|e] s1]; [|done].
    intros Hrun%IH. etrans; [|exact Hrun]. by apply prefix_app_r.
Qed.

(** Cancelling cuts the paged fetch short: the queue of a cancelled run
    is an initial segment of the queue of its uncancelled twin. *)
Lemma do_paged_loop_cancel_prefix fe ps items fuel : forall nr q s qu su,
  do_paged_loop fuel ps nr items q (uncancelled fe) s = (Ok qu, su) ->
  exists qc sc,
    do_paged_loop fuel ps nr items q fe s = (Ok qc, sc)
    /\ qc `prefix_of` qu /\ json sc = json s.
Proof.
  induction fuel as [|fuel IH]; intros nr q s qu su.
  - intros [= <- <-]. by eexists _, _.
  - cbn [Server.do_paged_loop]. unfold bind at 1 3, gets.
    destruct (_cancelling s) eqn:Hc; cbn [orb].
    { intros [= <- <-]. by eexists _, _. }
    destruct (_ =? _)%nat.
    { intros [= <- <-]. by eexists _, _. }
    unfold bind, Server._load_urls_async, bind, ret.
    destruct (join_threads _ (uncancelled fe) _ _ s) as [[ju|e] su1] eqn:Hju; [|done].
    destruct (join_threads_cancelled _ _ _ _ _ _ _ Hju)
      as (jc & sc1 & -> & Hj & [[-> ->]|Hstop]).
    + intros Hrun. apply IH in Hrun as (qc & sc & Hrun & Hp & Hjs).
      eexists _, _. split; [exact Hrun|]. split; [done|].
      apply join_threads_uncancelled in Hju as (_ & _ & Hjs'); [|done]. congruence.
    + intros Hrun%do_paged_loop_extends.
      apply join_threads_uncancelled in Hju as (-> & _ & _); [|done].
      exists (q ++ omap (deliver fetch)
                     (landed (nr * ps) (take ps (drop nr items)) jc)), sc1.
      split.
      * destruct fuel as [|fuel]; [done|].
        cbn [Server.do_paged_loop]. unfold bind, gets. by rewrite Hstop.
      * split; [|done]. etrans; [|exact Hrun].
        apply prefix_app, omap_prefix.
        unfold Server.landed at 2. cbn [Nat.add]. rewrite Nat.eqb_refl.
        apply landed_prefix.
Qed.

(** Emptying the queue never raises: it builds one tuple per result, in
    queue order. *)
Lemma drain_run zoom queue : forall acc s,
  exists s',
    drain zoom queue acc s
    = (Ok (acc ++ map (tuple_of (scheme_name (json s)) zoom) queue), s')
    /\ json s' = json s.
Proof.
  induction queue as [|[content [col row]] rest IH]; intros acc s.
  - cbn. unfold ret. rewrite app_nil_r. by eexists.
  - cbn [drain map]. unfold bind, scheme, gets, _add_loaded_tile, modify.
    destruct (IH (acc ++ [tuple_of (scheme_name (json s)) zoom (content, (col, row))])
                (with_loaded (_loaded_tiles s ++ [(PInt zoom, PInt col, PInt row)]) s))
      as (s' & Hrun & Hj).
    exists s'. cbn [tuple_of json with_loaded] in *.
    rewrite Hrun, <- app_assoc. done.
Qed.

(** [load_tiles] with its steps spelled out. *)
Lemma load_tiles_steps zoom bounds max_tiles fe s :
  load_tiles zoom bounds max_tiles fe s =
  let s1 := with_calls 0 (with_cancelling false s) in
  match tiles (json s) with
  | [] => (Raised IndexError, s1)
  | base_url :: _ =>
      let urls := collect_urls base_url zoom (_loaded_tiles s) max_tiles 0
                    (get_all_tiles bounds) in
      if _progress_handler s then
        match do_paged_loop (S (length urls)) 5 0 urls [] fe
                (with_reported
                   (reported s ++ [announce_msg (announcement (length urls)) (length urls)])
                   s1) with
        | (Ok queue, s2) => drain zoom queue [] s2
        | (Raised e, s2) => (Raised e, s2)
        end
      else (Raised TypeError, s1)
  end.
Proof.
  unfold Server.load_tiles, _do_paged, bind, modify, gets, call_progress_handler, raise.
  simpl. destruct (tiles (json s)); [done|]. simpl.
  by destruct (_progress_handler s).
Qed.

Lemma do_paged_loop_json fe ps items fuel nr q s q' s' :
  do_paged_loop fuel ps nr items q (uncancelled fe) s = (Ok q', s') ->
  json s' = json s.
Proof.
  intros Hrun.
  destruct (do_paged_loop_cancel_prefix (uncancelled fe) ps items fuel nr q s q' s')
    as (qc & sc & Hc & _ & Hj).
  - by destruct fe.
  - rewrite Hrun in Hc. by injection Hc as _ <-.
Qed.

Lemma remote_load_tiles_cancel_prefix zoom bounds max_tiles fe s lu su :
  load_tiles zoom bounds max_tiles (uncancelled fe) s = (Ok lu, su) ->
  exists lc sc,
    load_tiles zoom bounds max_tiles fe s = (Ok lc, sc) /\ lc `prefix_of` lu.
Proof.
  rewrite !load_tiles_steps. cbv zeta.
  destruct (tiles (json s)) as [|base_url templates]; [done|].
  destruct (_progress_handler s); [|done].
  set (urls := collect_urls _ _ _ _ _ _). set (s0 := with_reported _ _).
  destruct (Server.do_paged_loop _ _ _ _ _ _ _ _ (uncancelled fe) s0)
    as [[qu|e] su1] eqn:Hu; [|done].
  pose proof (do_paged_loop_json _ _ _ _ _ _ _ _ _ Hu) as Hju.
  destruct (do_paged_loop_cancel_prefix _ _ _ _ _ _ _ _ _ Hu)
    as (qc & sc1 & -> & [k ->] & Hj).
  destruct (drain_run zoom (qc ++ k) [] su1) as (su' & -> & _).
  destruct (drain_run zoom qc [] sc1) as (sc' & -> & _).
  intros [= <- <-]. eexists _, _. split; [done|].
  rewrite Hj, Hju. cbn [app]. rewrite map_app. by apply prefix_app_r.
Qed.

(** *** Fuel *)

(** The fuel [_do_paged] gives its loop is never used up: any amount
    above the number of items left gives the same run. *)
Lemma do_paged_loop_fuel fe ps items fuel : forall fuel' nr q s,
  (length items - nr < fuel)%nat -> (length items - nr < fuel')%nat ->
  do_paged_loop fuel ps nr items q fe s = do_paged_loop fuel' ps nr items q fe s.
Proof.
  induction fuel as [|fuel IH]; intros fuel' nr q s Hf Hf'; [lia|].
  destruct fuel' as [|fuel']; [lia|].
  cbn [Server.do_paged_loop]. unfold bind at 1 3, gets.
  destruct (_cancelling s); [done|]. cbn [orb].
  destruct (Nat.eqb_spec (length (take ps (drop nr items))) 0) as [|Hlen]; [done|].
  rewrite length_take, length_drop in Hlen.
  unfold bind.
  destruct (_load_urls_async _ _ _ _ s) as [[q1|e] s1]; [|done].
  apply IH; lia.
Qed.

(** Joining the threads of a page, whatever the callback does: the
    loop joins the threads before the first turn on which the callback
    cancels, all of them when it never does. *)
Lemma join_threads_stops off (f : ForEach) threads : forall index s,
  _progress_handler s = true -> _cancelling s = false ->
  exists j s',
    (j <= length threads)%nat
    /\ join_threads off (Some f) index threads s = (Ok (index + j)%nat, s')
    /\ (_progress_handler s' = true /\ json s' = json s)
    /\ (forall m, (m < j)%nat -> f (for_each_calls s + m)%nat = false)
    /\ ((j < length threads)%nat ->
        _cancelling s' = true /\ f (for_each_calls s + j)%nat = true)
    /\ (j = length threads ->
        _cancelling s' = false /\ for_each_calls s' = (for_each_calls s + j)%nat).
Proof.
  induction threads as [|t rest IH]; intros index s Hh Hc.
  - exists 0%nat, s. cbn. unfold ret. rewrite !Nat.add_0_r.
    split; [lia|]. split; [done|]. split; [done|].
    split; [intros; lia|]. split; [intros; lia|done].
  - cbn [join_threads call_for_each].
    unfold bind, gets, modify, cancel, ret, call_progress_handler. simpl.
    destruct (f (for_each_calls s)) eqn:Hf; simpl.
    + exists 0%nat. eexists. rewrite !Nat.add_0_r.
      split; [lia|]. split; [reflexivity|]. simpl.
      split; [done|]. split; [intros; lia|]. split; [done|intros; lia].
    + rewrite Hc. simpl. rewrite Hh.
      destruct (IH (S index)
                  (with_reported (reported s ++ [progress_at (off + index + 1)])
                     (with_calls (S (for_each_calls s)) s)))
        as (j & s' & Hj & Hrun & Hh' & Hquiet & Hstop & Hall); [done..|].
      simpl in *. exists (S j), s'.
      split; [lia|]. split; [by rewrite Hrun, Nat.add_succ_r|].
      split; [done|]. split; [|split].
      * intros [|m] Hm; [by rewrite Nat.add_0_r|].
        rewrite Nat.add_succ_r. apply Hquiet. lia.
      * intros Hlt. rewrite Nat.add_succ_r. apply Hstop. lia.
      * intros Heq. rewrite Nat.add_succ_r. apply Hall. lia.
Qed.

(** The loop over the pages with a callback that never cancels: every
    page is joined. *)
Lemma do_paged_loop_all (f : ForEach) ps items fuel : forall p q s,
  _progress_handler s = true -> _cancelling s = false ->
  (forall m, f m = false) ->
  exists s',
    do_paged_loop fuel ps (ps * p) items q (Some f) s
    = (Ok (q ++ omap (deliver fetch) (pages_queue finish_order fuel ps p items)), s')
    /\ json s' = json s.
Proof.
  induction fuel as [|fuel IH]; intros p q s Hh Hc Hf.
  - exists s. cbn. unfold ret. by rewrite app_nil_r.
  - cbn [Server.do_paged_loop pages_queue]. unfold bind at 1, gets. rewrite Hc.
    cbn [orb]. fold (page ps p items).
    destruct (length (page ps p items) =? 0)%nat.
    + exists s. cbn. unfold ret. by rewrite app_nil_r.
    + destruct (join_threads_stops (ps * p * ps) f (page ps p items) 0 s Hh Hc)
        as (j & s1 & Hj & Hjoin & [Hh1 Hj1] & _ & Hstop & Hall).
      assert (j = length (page ps p items)) as ->.
      { destruct (decide (j < length (page ps p items))%nat) as [Hlt|]; [|lia].
        destruct (Hstop Hlt) as [_ Htrue]. by rewrite Hf in Htrue. }
      destruct (Hall eq_refl) as [Hc1 _].
      unfold bind, Server._load_urls_async, bind. rewrite Hjoin. unfold ret.
      unfold Server.landed. cbn [Nat.add]. rewrite Nat.eqb_refl.
      destruct (IH (S p)
                  (q ++ omap (deliver fetch)
                          (finish_order (ps * p * ps) (page ps p items))) s1)
        as (s' & Hrun & Hjs); [done..|].
      replace (ps * p + ps)%nat with (ps * S p)%nat by lia.
      exists s'. split; [by rewrite Hrun, omap_app, app_assoc|congruence].
Qed.

(** Enough fuel is as good as more. *)
Lemma pages_queue_fuel ps items fuel : forall fuel' p,
  (0 < ps)%nat ->
  (length items - ps * p < fuel)%nat -> (length items - ps * p < fuel')%nat ->
  pages_queue finish_order fuel ps p items
  = pages_queue finish_order fuel' ps p items.
Proof.
  induction fuel as [|fuel IH]; intros fuel' p Hps Hf Hf'; [lia|].
  destruct fuel' as [|fuel']; [lia|].
  cbn [pages_queue].
  destruct (Nat.eqb_spec (length (page ps p items)) 0) as [|Hlen]; [done|].
  unfold page in Hlen. rewrite length_take, length_drop in Hlen.
  f_equal. apply IH; [done|nia..].
Qed.

(** The pages up to the [d]-th after [p], when none of them is empty. *)
Lemma pages_queue_split ps items d : forall p fuel fuel',
  (0 < ps)%nat ->
  (ps * (p + d) < length items)%nat ->
  (length items - ps * p < fuel)%nat ->
  (length items - ps * S (p + d) < fuel')%nat ->
  pages_queue finish_order fuel ps p items
  = pages_queue finish_order d ps p items
    ++ finish_order (ps * (p + d) * ps) (page ps (p + d) items)
    ++ pages_queue finish_order fuel' ps (S (p + d)) items.
Proof.
  induction d as [|d IH]; intros p fuel fuel' Hps Hlt Hfuel Hfuel';
    (destruct fuel as [|fuel]; [lia|]); cbn [pages_queue].
  - rewrite Nat.add_0_r in *.
    destruct (Nat.eqb_spec (length (page ps p items)) 0) as [Hlen|_].
    { unfold page in Hlen. rewrite length_take, length_drop in Hlen. lia. }
    cbn [app]. f_equal. apply pages_queue_fuel; [done|nia..].
  - destruct (Nat.eqb_spec (length (page ps p items)) 0) as [Hlen|_].
    { unfold page in Hlen. rewrite length_take, length_drop in Hlen. nia. }
    rewrite <- app_assoc. f_equal.
    replace (p + S d)%nat with (S p + d)%nat in * by lia.
    apply IH; [done|nia..].
Qed.

(** The loop over the pages with a callback that first cancels on turn
    [i] of page [q]: the pages before [q] are joined, page [q] is abandoned
    after [i] joins, and no later page is started. *)
Lemma do_paged_loop_cancel_at (f : ForEach) items q i :
  (i < 5)%nat ->
  first_cancel (Some f) (5 * q + i) ->
  (5 * q + i < length items)%nat ->
  forall d p fuel q0 s,
    q = (p + d)%nat -> (d < fuel)%nat ->
    _progress_handler s = true -> _cancelling s = false ->
    for_each_calls s = (5 * p)%nat ->
    exists s',
      do_paged_loop fuel 5 (5 * p) items q0 (Some f) s
      = (Ok (q0 ++ omap (deliver fetch)
                     (pages_queue finish_order d 5 p items
                      ++ landed (5 * q * 5) (page 5 q items) i)), s')
      /\ _cancelling s' = true /\ json s' = json s.
Proof.
  intros Hi (f' & [= <-] & Hk & Hbefore) Hlen.
  induction d as [|d IH]; intros p fuel q0 s Hq Hfuel Hh Hc Hcalls;
    (destruct fuel as [|fuel]; [lia|]);
    cbn [Server.do_paged_loop pages_queue]; unfold bind at 1, gets; rewrite Hc;
    cbn [orb]; fold (page 5 p items);
    destruct (join_threads_stops (5 * p * 5) f (page 5 p items) 0 s Hh Hc)
      as (j & s1 & Hj & Hjoin & [Hh1 Hj1] & Hquiet & Hstop & Hall);
    rewrite Hcalls in *;
    (assert (length (page 5 p items) = 5 `min` (length items - 5 * p))%nat as Hpage
       by (unfold page; by rewrite length_take, length_drop)).
  - assert (p = q) as -> by lia.
    destruct (Nat.eqb_spec (length (page 5 q items)) 0) as [Hz|_]; [lia|].
    assert (j = i) as ->.
    { destruct (decide (j < length (page 5 q items))%nat) as [Hlt|Hge].
      - destruct (Hstop Hlt) as [_ Htrue].
        destruct (decide (j < i)%nat) as [Hji|Hji].
        { rewrite Hbefore in Htrue by lia. done. }
        destruct (decide (i < j)%nat) as [Hij|Hij]; [|lia].
        rewrite Hquiet in Hk by lia. done.
      - assert (i < j)%nat as Hij by lia. rewrite Hquiet in Hk by lia. done. }
    destruct Hstop as [Hc1 _]; [lia|].
    unfold bind, Server._load_urls_async, bind. rewrite Hjoin. unfold ret.
    cbn [Nat.add app].
    exists s1. split; [|done].
    destruct fuel as [|fuel]; cbn [Server.do_paged_loop]; [done|].
    unfold bind, gets. by rewrite Hc1.
  - destruct (Nat.eqb_spec (length (page 5 p items)) 0) as [Hz|_]; [lia|].
    assert (j = length (page 5 p items)) as Hjl.
    { destruct (decide (j < length (page 5 p items))%nat) as [Hlt|]; [|lia].
      destruct (Hstop Hlt) as [_ Htrue]. rewrite Hbefore in Htrue by lia. done. }
    destruct (Hall Hjl) as [Hc1 Hcalls1]. subst j.
    unfold bind, Server._load_urls_async, bind. rewrite Hjoin. unfold ret.
    unfold Server.landed at 1. cbn [Nat.add]. rewrite Nat.eqb_refl.
    destruct (IH (S p) fuel
                (q0 ++ omap (deliver fetch)
                         (finish_order (5 * p * 5) (page 5 p items))) s1)
      as (s' & Hrun & Hcs & Hjs); [lia|lia|done|done|lia|].
    replace (5 * p + 5)%nat with (5 * S p)%nat by lia.
    exists s'. split; [|split; [done|congruence]].
    by rewrite Hrun, !omap_app, !app_assoc.
Qed.

(** Emptying the queue leaves the cancel flag alone. *)
Lemma drain_keeps_flag zoom queue : forall acc s,
  _cancelling (drain zoom queue acc s).2 = _cancelling s.
Proof.
  induction queue as [|[content [col row]] rest IH]; intros acc s; [done|].
  cbn [drain]. unfold bind, scheme, gets, _add_loaded_tile, modify.
  by rewrite IH.
Qed.

(** A remote call whose callback first cancels on turn [i] of page
    [q], before the URLs run out: it returns the results of the pages
    before [q] and what had landed of page [q]; the uncancelled call
    returns these and, after them, the results that were left out. *)
Lemma remote_load_tiles_cancel_at zoom bounds max_tiles fe q i s base_url templates
  lu su :
  tiles (json s) = base_url :: templates ->
  load_tiles zoom bounds max_tiles (uncancelled fe) s = (Ok lu, su) ->
  let urls := collect_urls base_url zoom (_loaded_tiles s) max_tiles 0
                (get_all_tiles bounds) in
  (i < 5)%nat -> first_cancel fe (5 * q + i) -> (5 * q + i < length urls)%nat ->
  exists lc sc,
    load_tiles zoom bounds max_tiles fe s = (Ok lc, sc)
    /\ _cancelling sc = true
    /\ lc = map (tuple_of (scheme_name (json s)) zoom)
              (omap (deliver fetch)
                 (pages_queue finish_order q 5 0 urls
                  ++ landed (5 * q * 5) (page 5 q urls) i))
    /\ lu = lc ++ map (tuple_of (scheme_name (json s)) zoom)
                   (omap (deliver fetch)
                      (unlanded finish_order late_arrivals 5 q i urls)).
Proof.
  intros Ht Hu urls Hi Hfc Hlen. pose proof Hfc as (f & -> & _).
  revert Hu. rewrite !load_tiles_steps. cbv zeta. rewrite Ht. fold urls.
  destruct (_progress_handler s) eqn:Hh; [|done].
  set (s0 := with_reported _ _). cbn [uncancelled].
  remember (S (length urls)) as fuel eqn:Hfuel.
  destruct (do_paged_loop_all never_cancels 5 urls fuel 0 [] s0)
    as (su1 & Hrunu & Hju); [done..|].
  change (5 * 0)%nat with 0%nat in Hrunu. rewrite Hrunu.
  destruct (drain_run zoom ([] ++ omap (deliver fetch)
                              (pages_queue finish_order fuel 5 0 urls))
              [] su1) as (su' & -> & _).
  intros [= <- <-].
  destruct (do_paged_loop_cancel_at f urls q i Hi Hfc Hlen q 0 fuel [] s0)
    as (sc1 & Hrunc & Hc1 & Hjc); [done|lia|done..|].
  change (5 * 0)%nat with 0%nat in Hrunc. rewrite Hrunc.
  pose proof (drain_keeps_flag zoom
                ([] ++ omap (deliver fetch)
                         (pages_queue finish_order q 5 0 urls
                          ++ landed (5 * q * 5) (page 5 q urls) i)) [] sc1) as Hflag.
  destruct (drain_run zoom ([] ++ omap (deliver fetch)
                              (pages_queue finish_order q 5 0 urls
                               ++ landed (5 * q * 5) (page 5 q urls) i))
              [] sc1) as (sc' & Hdrain & Hjs).
  rewrite Hdrain in Hflag |- *. cbn [snd] in Hflag.
  eexists _, sc'. split; [done|].
  split; [congruence|].
  rewrite Hjc, Hju. cbn [app json s0 with_reported with_calls with_cancelling].
  split; [done|].
  rewrite <- map_app, <- omap_app. do 2 f_equal.
  rewrite (pages_queue_split 5 urls q 0 fuel (S (length urls))) by (cbn [Nat.add]; lia).
  change (0 + q)%nat with q. rewrite <- app_assoc. f_equal. unfold unlanded.
  rewrite app_assoc. f_equal.
  destruct (landed_prefix (5 * q * 5) (page 5 q urls) i) as [rest Hrest].
  rewrite Hrest at 2. by rewrite drop_app_length.
Qed.

End Facts.

End ServerFacts.

Module ServerRuns.
Import Server.

(** C2 (the code departs from it). Two calls of the remote source with
    [max_tiles=1] on a box of four tiles: the first returns one tile; the
    second skips that tile as loaded, and with it the test of the cap, and
    returns the three others. *)
Theorem remote_cap_is_bypassed :
  let bounds := Some ((0, 0), (1, 1)) in
  let first := Samples.remote_load 14 bounds (Some 1) None Samples.remote in
  let second := Samples.remote_load 14 bounds (Some 1) None first.2 in
  Samples.cells_of first.1 = Some [(PInt 0, PInt 0)]
  /\ Samples.cells_of second.1
     = Some [(PInt 0, PInt 1); (PInt 1, PInt 0); (PInt 1, PInt 1)].
Proof. split; vm_compute; reflexivity. Qed.

(** C9 (the code departs from it). A remote call that fetches six tiles
    in pages of five reports the progress values 1 to 5 for the first page
    and 26 for the sixth fetch: the second page starts at offset
    [page_nr * page_size = 5 * 5]. *)
Theorem progress_jumps_on_second_page :
  let run := Samples.remote_load 14 (Some ((0, 0), (1, 2))) None None Samples.remote in
  Samples.cells_of run.1
  = Some [(PInt 0, PInt 0); (PInt 0, PInt 1); (PInt 0, PInt 2);
          (PInt 1, PInt 0); (PInt 1, PInt 1); (PInt 1, PInt 2)]
  /\ reported run.2
     = [announce_msg "Getting 6 tiles from source..." 6;
        progress_at 1; progress_at 2; progress_at 3; progress_at 4;
        progress_at 5; progress_at 26].
Proof. split; vm_compute; reflexivity. Qed.

End ServerRuns.

(** * Cancellation, for both sources *)

(** Whatever the callback does, a [load_tiles] call of either source
    returns an initial segment, possibly all, of what the same call
    returns when the callback never cancels. *)
Lemma callback_run_returns_prefix :
  (forall connect zoom bounds max_tiles for_each s lu su,
      MBTiles.load_tiles connect zoom bounds max_tiles (uncancelled for_each) s
      = (Ok lu, su) ->
      exists lc sc,
        MBTiles.load_tiles connect zoom bounds max_tiles for_each s = (Ok lc, sc)
        /\ lc `prefix_of` lu)
  /\ (forall get_all_tiles fetch finish_order late_arrivals
             zoom bounds max_tiles for_each s lu su,
         Server.load_tiles get_all_tiles fetch finish_order late_arrivals
           zoom bounds max_tiles (uncancelled for_each) s = (Ok lu, su) ->
         exists lc sc,
           Server.load_tiles get_all_tiles fetch finish_order late_arrivals
             zoom bounds max_tiles for_each s = (Ok lc, sc)
           /\ lc `prefix_of` lu).
Proof.
  split.
  - intros. by eapply MBTilesFacts.load_tiles_cancel_prefix.
  - intros. by eapply ServerFacts.remote_load_tiles_cancel_prefix.
Qed.

(** C3, as amended. A [load_tiles] call whose callback first sets the
    cancel flag on its turn [k] stops there and returns a prefix of what
    the same call returns without cancellation.  The archive source
    returns exactly the tiles the uncancelled call takes from the first [k]
    rows.  The remote source, cancelled on turn [i] of page [q], returns
    the results of the pages before [q] and those of page [q] that had
    reached the queue, and starts no later page.  The uncancelled result
    is the cancelled one followed by what was left out: the tiles of the
    remaining rows that are not loaded by then, or the results of the
    fetches that had not landed; so the prefix is strict exactly when
    something was left out. *)
Theorem cancelled_run_returns_prefix :
  (forall connect zoom bounds max_tiles for_each k s (rows : list MBTiles.TileRec)
          lu su,
      MBTiles.db_returns connect s (MBTiles.sql_command zoom bounds max_tiles)
        (map MBTiles.row_of rows) ->
      MBTiles.load_tiles connect zoom bounds max_tiles (uncancelled for_each) s
      = (Ok lu, su) ->
      first_cancel for_each k -> (k < length rows)%nat ->
      exists v lc sc,
        MBTiles.load_tiles connect zoom bounds max_tiles for_each s = (Ok lc, sc)
        /\ MBTiles._cancelling sc = true
        /\ lc = map (MBTiles.tile_of v)
                  (MBTiles.kept (MBTiles.py_opt zoom) (MBTiles._loaded_tiles s)
                     (take k rows))
        /\ lu = lc ++ map (MBTiles.tile_of v)
                       (MBTiles.kept_after (MBTiles.py_opt zoom)
                          (MBTiles._loaded_tiles s) k rows)
        /\ (strict_prefix lc lu
            <-> MBTiles.kept_after (MBTiles.py_opt zoom)
                  (MBTiles._loaded_tiles s) k rows <> []))
  /\ (forall get_all_tiles fetch finish_order late_arrivals
             zoom bounds max_tiles for_each q i s base_url templates lu su,
         Server.tiles (Server.json s) = base_url :: templates ->
         Server.load_tiles get_all_tiles fetch finish_order late_arrivals
           zoom bounds max_tiles (uncancelled for_each) s = (Ok lu, su) ->
         let urls := Server.collect_urls base_url zoom (Server._loaded_tiles s)
                       max_tiles 0 (get_all_tiles bounds) in
         (i < 5)%nat -> first_cancel for_each (5 * q + i) ->
         (5 * q + i < length urls)%nat ->
         exists lc sc,
           Server.load_tiles get_all_tiles fetch finish_order late_arrivals
             zoom bounds max_tiles for_each s = (Ok lc, sc)
           /\ Server._cancelling sc = true
           /\ lc = map (Server.tuple_of (Server.scheme_name (Server.json s)) zoom)
                     (omap (Server.deliver fetch)
                        (Server.pages_queue finish_order q 5 0 urls
                         ++ Server.landed finish_order late_arrivals (5 * q * 5)
                              (Server.page 5 q urls) i))
           /\ lu = lc ++ map (Server.tuple_of (Server.scheme_name (Server.json s)) zoom)
                          (omap (Server.deliver fetch)
                             (Server.unlanded finish_order late_arrivals 5 q i urls))
           /\ (strict_prefix lc lu
               <-> omap (Server.deliver fetch)
                     (Server.unlanded finish_order late_arrivals 5 q i urls) <> [])).
Proof.
  split.
  - intros connect zoom bounds max_tiles for_each k s rows lu su Hdb Hu Hfc Hk.
    destruct (MBTilesFacts.load_tiles_cancel_at connect s zoom bounds max_tiles
                for_each k rows lu su Hdb Hu Hfc Hk)
      as (v & lc & sc & Hrun & Hc & Hlc & Hlu).
    exists v, lc, sc. split; [done|]. split; [done|]. split; [done|].
    split; [done|]. rewrite Hlu, strict_prefix_app.
    split; intros Hne Hnil; apply Hne.
    + exact (f_equal (map _) Hnil).
    + by apply map_eq_nil in Hnil.
  - intros get_all_tiles fetch finish_order late_arrivals zoom bounds max_tiles
      for_each q i s base_url templates lu su Ht Hu urls Hi Hfc Hk.
    destruct (ServerFacts.remote_load_tiles_cancel_at get_all_tiles fetch finish_order
                late_arrivals zoom bounds max_tiles for_each q i s base_url templates
                lu su Ht Hu Hi Hfc Hk)
      as (lc & sc & Hrun & Hc & Hlc & Hlu).
    exists lc, sc. split; [done|]. split; [done|]. split; [done|].
    split; [done|]. rewrite Hlu, strict_prefix_app.
    split; intros Hne Hnil; apply Hne.
    + exact (f_equal (map _) Hnil).
    + by apply map_eq_nil in Hnil.
Qed.

Lemma cancelled_run_returns_prefix_witness :
  (exists v lc sc,
      MBTiles.load_tiles Samples.connect None None None
        (Some (Samples.cancel_at 1)) (Samples.source "stacked.mbtiles") = (Ok lc, sc)
      /\ MBTiles._cancelling sc = true
      /\ lc = map (MBTiles.tile_of v)
                (MBTiles.kept PNone [] (take 1 [(13, 0, 0, "a"); (14, 0, 0, "b");
                                               (14, 3, 5, "c")]))
      /\ [MBTiles.tile_of (PStr "tms") (13, 0, 0, "a");
          MBTiles.tile_of (PStr "tms") (14, 3, 5, "c")]
         = lc ++ map (MBTiles.tile_of v)
                   (MBTiles.kept_after PNone [] 1
                      [(13, 0, 0, "a"); (14, 0, 0, "b"); (14, 3, 5, "c")])
      /\ (strict_prefix lc [MBTiles.tile_of (PStr "tms") (13, 0, 0, "a");
                            MBTiles.tile_of (PStr "tms") (14, 3, 5, "c")]
          <-> MBTiles.kept_after PNone [] 1
                [(13, 0, 0, "a"); (14, 0, 0, "b"); (14, 3, 5, "c")] <> []))
  /\ (let urls := Server.collect_urls "http://tiles.example/{z}/{x}/{y}.pbf" 14 []
                    None 0 (Samples.all_tiles (Some ((0, 0), (1, 2)))) in
      let lu := map (Server.tuple_of (PStr "xyz") 14)
                  (omap (Server.deliver Samples.fetch_ok) urls) in
      exists lc sc,
        Server.load_tiles Samples.all_tiles Samples.fetch_ok Samples.in_launch_order
          Samples.no_late_arrivals 14 (Some ((0, 0), (1, 2))) None
          (Some (Samples.cancel_at 5)) Samples.remote = (Ok lc, sc)
        /\ Server._cancelling sc = true
        /\ lc = map (Server.tuple_of (PStr "xyz") 14)
                  (omap (Server.deliver Samples.fetch_ok)
                     (Server.pages_queue Samples.in_launch_order 1 5 0 urls
                      ++ Server.landed Samples.in_launch_order Samples.no_late_arrivals
                           (5 * 1 * 5) (Server.page 5 1 urls) 0))
        /\ lu = lc ++ map (Server.tuple_of (PStr "xyz") 14)
                       (omap (Server.deliver Samples.fetch_ok)
                          (Server.unlanded Samples.in_launch_order
                             Samples.no_late_arrivals 5 1 0 urls))
        /\ (strict_prefix lc lu
            <-> omap (Server.deliver Samples.fetch_ok)
                  (Server.unlanded Samples.in_launch_order
                     Samples.no_late_arrivals 5 1 0 urls) <> [])).
Proof.
  split.
  - apply (proj1 cancelled_run_returns_prefix Samples.connect None None None
             (Some (Samples.cancel_at 1)) 1%nat (Samples.source "stacked.mbtiles")
             [(13, 0, 0, "a"); (14, 0, 0, "b"); (14, 3, 5, "c")]
             [MBTiles.tile_of (PStr "tms") (13, 0, 0, "a");
              MBTiles.tile_of (PStr "tms") (14, 3, 5, "c")]
             (final (MBTiles.load_tiles Samples.connect None None None
                       (uncancelled (Some (Samples.cancel_at 1))))
                (Samples.source "stacked.mbtiles"))).
    + vm_compute. reflexivity.
    + apply run_returned. vm_compute. reflexivity.
    + exists (Samples.cancel_at 1). split; [reflexivity|]. split; [reflexivity|].
      intros j Hj. apply Nat.eqb_neq. lia.
    + simpl. lia.
  - apply (proj2 cancelled_run_returns_prefix Samples.all_tiles Samples.fetch_ok
             Samples.in_launch_order Samples.no_late_arrivals 14
             (Some ((0, 0), (1, 2))) None (Some (Samples.cancel_at 5)) 1%nat 0%nat
             Samples.remote "http://tiles.example/{z}/{x}/{y}.pbf" []
             (map (Server.tuple_of (PStr "xyz") 14)
                (omap (Server.deliver Samples.fetch_ok)
                   (Server.collect_urls "http://tiles.example/{z}/{x}/{y}.pbf" 14 []
                      None 0 (Samples.all_tiles (Some ((0, 0), (1, 2)))))))
             (final (Server.load_tiles Samples.all_tiles Samples.fetch_ok
                       Samples.in_launch_order Samples.no_late_arrivals 14
                       (Some ((0, 0), (1, 2))) None
                       (uncancelled (Some (Samples.cancel_at 5))))
                Samples.remote)).
    + reflexivity.
    + apply run_returned. vm_compute. reflexivity.
    + lia.
    + exists (Samples.cancel_at 5). split; [reflexivity|]. split; [reflexivity|].
      intros j Hj. apply Nat.eqb_neq. lia.
    + vm_compute. lia.
Defined.

(** C3, as stated, fails. On an archive source that already loaded the
    tile at column 3, row 5, a call whose callback cancels on its second
    turn, after the first row was processed, returns the tile of that
    first row; so does the same call without cancellation, which skips the
    second row as loaded.  The cancelled result is the whole uncancelled
    result, not a strict prefix of it. *)
Lemma cancelled_run_may_return_everything :
  let s := Samples.source_after_first_call in
  let for_each := Some (Samples.cancel_at 1) in
  let cancelled := MBTiles.load_tiles Samples.connect (Some 14) None None for_each s in
  let whole :=
    MBTiles.load_tiles Samples.connect (Some 14) None None (uncancelled for_each) s in
  MBTiles._cancelling cancelled.2 = true
  /\ MBTiles.reported cancelled.2
     = [announce_max 1; progress_at 1; announce_max 2; progress_at 1]
  /\ cancelled.1 = Ok [MBTiles.tile_of (PStr "tms") (14, 0, 0, "b")]
  /\ whole.1 = Ok [MBTiles.tile_of (PStr "tms") (14, 0, 0, "b")]
  /\ ~ strict_prefix [MBTiles.tile_of (PStr "tms") (14, 0, 0, "b")]
                     [MBTiles.tile_of (PStr "tms") (14, 0, 0, "b")].
Proof.
  repeat split; try (vm_compute; reflexivity).
  intros [_ Hne]. by apply Hne.
Qed.

(** * Properties of the reader *)

Module VtReaderFacts.
Import VtReader.

(** C5. For the tile of zoom 0, column 0, row 0, whose bounds are the
    world mercator extent, and the local extent 4096, the corners [(0,0)],
    [(E,0)], [(0,E)], [(E,E)] reproject, with truncation to integer meters,
    to the four corners of the world mercator extent: lower left, lower
    right, upper left, upper right. *)
Theorem corners_reproject_to_world_extent
  (TileBounds : Z -> Z -> Z -> float * float * float * float) (tile : Tile) :
  zoom_level tile = 0 -> column tile = 0 -> row tile = 0 ->
  TileBounds 0 0 0 = world_extent ->
  map (fun xy => (_calculate_geometry (S := unit) TileBounds xy tile tt).1)
      [(0, 0); (_extent, 0); (0, _extent); (_extent, _extent)]
  = corners_of world_extent
  /\ corners_of world_extent
     = [Ok (-20037508, -20037508); Ok (20037508, -20037508);
        Ok (-20037508, 20037508); Ok (20037508, 20037508)].
Proof.
  intros Hz Hc Hr Hworld. unfold _calculate_geometry. cbn [map].
  rewrite Hz, Hc, Hr, Hworld. split; vm_compute; reflexivity.
Qed.

Lemma corners_reproject_to_world_extent_witness :
  map (fun xy => (_calculate_geometry (S := unit) GlobalMercator.TileBounds xy
                    Samples.world_tile tt).1)
      [(0, 0); (_extent, 0); (0, _extent); (_extent, _extent)]
  = corners_of world_extent
  /\ corners_of world_extent
     = [Ok (-20037508, -20037508); Ok (20037508, -20037508);
        Ok (-20037508, 20037508); Ok (20037508, 20037508)].
Proof.
  apply (corners_reproject_to_world_extent GlobalMercator.TileBounds
           Samples.world_tile); vm_compute; reflexivity.
Defined.

(** A feature without a [class] property never trips the assertion: it is
    appended to the collection of its layer, whatever else it carries. *)
Lemma write_feature_without_class TileBounds layer_name feature tile s dg :
  raw_properties feature !! "class" = None ->
  create_geojson_feature TileBounds feature tile s = (Ok dg, s) ->
  write_feature TileBounds layer_name feature tile s
  = (Ok tt,
     {| all_features :=
          <[layer_name :=
              {| features :=
                   features (default get_empty_feature_collection
                               (all_features s !! layer_name)) ++ [dg.1];
                 crs := crs (default get_empty_feature_collection
                               (all_features s !! layer_name)) |}]>
            (all_features s);
        layers := layers s |}).
Proof.
  intros Hclass Hgeo. unfold write_feature, bind at 1. rewrite Hgeo.
  assert (properties dg.1 = raw_properties feature) as Hprops.
  { revert Hgeo. unfold create_geojson_feature, bind.
    destruct (geo_types _ s) as [[g|e] s1]; [|done].
    destruct (map_coordinates_recursive _ _ _ s1) as [[l|e] s2]; [|done].
    destruct g, l; cbn; intros [= <- _]; done. }
  rewrite Hprops, Hclass. reflexivity.
Qed.

(** C4 (the code departs from it). A tile whose [landcover] layer holds
    one feature with a [subclass] and no [class]: [write_features] raises
    nothing and appends the feature to the collection [landcover]. *)
Theorem orphan_subclass_is_aggregated :
  let tile := with_decoded (Some [("landcover", [Samples.orphan])]) Samples.tile_a in
  let run := write_features GlobalMercator.TileBounds tile new in
  raw_properties Samples.orphan !! "subclass" = Some (SStr "forest")
  /\ raw_properties Samples.orphan !! "class" = None
  /\ run.1 = Ok tt
  /\ (length ∘ features) <$> (all_features run.2 !! "landcover") = Some 1%nat
  /\ (map properties ∘ features) <$> (all_features run.2 !! "landcover")
     = Some [raw_properties Samples.orphan].
Proof. repeat split; vm_compute; reflexivity. Qed.

(** C6 (the code departs from it). In a run of two tiles whose first
    payload inflates but does not decode, [do_work] raises [TypeError] when
    it reaches the undecoded tile: the second tile is never aggregated and
    no layer is created.  When the undecoded tile comes second, the first
    tile is aggregated but still no layer is created.  Without the bad
    tile the run creates the layer. *)
Theorem undecodable_tile_aborts_run :
  let bad_first :=
    Samples.reader_work [(Samples.tile_a, "gz:garbage"); (Samples.tile_b, "gz:forest")] new in
  let bad_last :=
    Samples.reader_work [(Samples.tile_b, "gz:forest"); (Samples.tile_a, "gz:garbage")] new in
  let good_only := Samples.reader_work [(Samples.tile_b, "gz:forest")] new in
  Samples.unzip "gz:garbage" = Some "garbage"
  /\ Samples.decode "garbage" = None
  /\ bad_first.1 = Raised TypeError
  /\ all_features bad_first.2 = ∅
  /\ layers bad_first.2 = []
  /\ bad_last.1 = Raised TypeError
  /\ layers bad_last.2 = []
  /\ good_only.1 = Ok tt
  /\ map fst (layers good_only.2) = ["landcover.wood.forest"].
Proof. repeat split; vm_compute; reflexivity. Qed.

End VtReaderFacts.

(** * Further properties of the archive source *)

Module MBTilesMore.
Import MBTiles MBTilesFacts MBTilesProbe.

(** The metadata lookup on a cache miss: one query, the default applied to
    a missing or empty value, and the result stored. *)
Lemma get_metadata_value_miss connect f d s v0 s1 :
  _metadata_cache s !! f = None ->
  _get_single_value connect (metadata_sql f) f s = (Ok v0, s1) ->
  _metadata_cache s1 = _metadata_cache s ->
  let v := if truthy d && negb (truthy v0) then d else v0 in
  _get_metadata_value connect f d s
  = (Ok v, with_cache (<[f := v]> (_metadata_cache s1)) s1).
Proof.
  intros Hmiss Hrun Hcache v. unfold _get_metadata_value, bind at 1, gets.
  rewrite Hmiss. unfold bind at 1 2. rewrite Hrun.
  unfold modify, bind, gets. cbn [_metadata_cache with_cache].
  by rewrite lookup_insert_eq.
Qed.

(** What [_get_single_value] gives for a failing statement and for an
    empty result. *)
Lemma get_single_value_fails connect q f s :
  db_fails connect s q ->
  exists s1, _get_single_value connect q f s = (Ok PNone, s1)
    /\ same_run s s1 /\ _metadata_cache s1 = _metadata_cache s.
Proof.
  intros Hf. destruct (get_from_db_fails connect q s Hf) as (s1 & Hrun & Hs & Hm).
  exists s1. unfold _get_single_value, try_except, bind. by rewrite Hrun.
Qed.

Lemma get_single_value_rows connect q f s rows :
  db_returns connect s q rows ->
  exists s1,
    _get_single_value connect q f s
    = (Ok (match rows with
           | r0 :: _ => default PNone (row_lookup r0 f)
           | [] => PNone
           end), s1)
    /\ same_run s s1 /\ _metadata_cache s1 = _metadata_cache s.
Proof.
  intros Hr. destruct (get_from_db_returns connect q rows s Hr) as (s1 & Hrun & Hs & Hm).
  exists s1. unfold _get_single_value, try_except, bind. rewrite Hrun.
  destruct rows as [|r0 rows]; [done|].
  unfold row_get. by destruct (row_lookup r0 f).
Qed.

(** X1. [scheme()] falls back to ["tms"]: when the metadata query fails
    (the archive cannot be opened or the statement raises), finds no row,
    or finds an empty value, the scheme of the source is ["tms"]. *)
Theorem scheme_defaults_to_tms connect s :
  _metadata_cache s !! "scheme" = None ->
  db_fails connect s (metadata_sql "scheme")
  \/ db_returns connect s (metadata_sql "scheme") []
  \/ (exists r0 rest v,
        db_returns connect s (metadata_sql "scheme") (r0 :: rest)
        /\ row_lookup r0 "scheme" = Some v /\ truthy v = false) ->
  returned (scheme connect) s = Ok (PStr "tms").
Proof.
  intros Hmiss Hcases. unfold returned, scheme.
  destruct Hcases as [Hf|[He|(r0 & rest & v & Hr & Hv & Ht)]].
  - destruct (get_single_value_fails connect _ "scheme" s Hf) as (s1 & Hrun & _ & Hm).
    by rewrite (get_metadata_value_miss _ _ _ _ _ _ Hmiss Hrun Hm).
  - destruct (get_single_value_rows connect _ "scheme" s _ He) as (s1 & Hrun & _ & Hm).
    by rewrite (get_metadata_value_miss _ _ _ _ _ _ Hmiss Hrun Hm).
  - destruct (get_single_value_rows connect _ "scheme" s _ Hr) as (s1 & Hrun & _ & Hm).
    rewrite (get_metadata_value_miss _ _ _ _ _ _ Hmiss Hrun Hm).
    rewrite Hv. simpl. by rewrite Ht.
Qed.

Lemma scheme_defaults_to_tms_witness :
  returned (scheme Samples.connect) (Samples.source "stacked.mbtiles") = Ok (PStr "tms")
  /\ returned (scheme Samples.connect) (Samples.source "missing.mbtiles") = Ok (PStr "tms").
Proof.
  split.
  - apply (scheme_defaults_to_tms Samples.connect (Samples.source "stacked.mbtiles")).
    + reflexivity.
    + right. left. vm_compute. reflexivity.
  - apply (scheme_defaults_to_tms Samples.connect (Samples.source "missing.mbtiles")).
    + reflexivity.
    + left. vm_compute. exact I.
Defined.

(** X2. A metadata value is read from the store once: after a first
    [_get_metadata_value], a second one for the same key gives the same
    value and changes nothing, whatever default it is given and even when
    the store can no longer be opened. *)
Theorem metadata_value_is_read_once connect connect' f d d' s :
  exists v s1,
    _get_metadata_value connect f d s = (Ok v, s1)
    /\ _get_metadata_value connect' f d' s1 = (Ok v, s1).
Proof.
  destruct (get_metadata_value_total connect f d s) as (v & s1 & Hrun & _ & Hc & _).
  exists v, s1. split; [done|]. by apply get_metadata_value_cached.
Qed.

Lemma get_zoom_cached connect max_zoom s v :
  _metadata_cache s !! zoom_field max_zoom = Some v ->
  _get_zoom connect max_zoom s = (Ok v, s).
Proof.
  intros Hc. unfold _get_zoom. fold (zoom_field max_zoom).
  unfold bind at 1, gets at 1. rewrite Hc.
  unfold bind, gets, ret. by rewrite Hc.
Qed.

(** A value [_get_zoom] returned is the one its cache holds. *)
Lemma get_zoom_result connect max_zoom s v s1 :
  _get_zoom connect max_zoom s = (Ok v, s1) ->
  _metadata_cache s1 !! zoom_field max_zoom = Some v.
Proof.
  unfold _get_zoom. fold (zoom_field max_zoom).
  unfold bind at 1, gets at 1. unfold bind at 1.
  match goal with |- context [match ?m s with _ => _ end] =>
    destruct (m s) as [[[]|e] s'] end; [|done].
  unfold bind, gets.
  destruct (_metadata_cache s' !! zoom_field max_zoom) as [v'|] eqn:Hc; [|done].
  by intros [= <- <-].
Qed.

(** X3. [min_zoom()] and [max_zoom()] take the zoom from the metadata:
    when the metadata row of [minzoom] (or [maxzoom]) holds a decimal
    string, that integer is returned. *)
Theorem zoom_is_read_from_metadata connect max_zoom s r0 rest digits z :
  _metadata_cache s !! zoom_field max_zoom = None ->
  db_returns connect s (metadata_sql (zoom_field max_zoom)) (r0 :: rest) ->
  row_lookup r0 (zoom_field max_zoom) = Some (PStr digits) ->
  int_of_str digits = Some z ->
  returned (_get_zoom connect max_zoom) s = Ok (PInt z).
Proof.
  intros Hmiss Hdb Hrow Hint.
  destruct (get_single_value_rows connect _ (zoom_field max_zoom) s _ Hdb)
    as (s1 & Hrun & _ & Hm).
  rewrite Hrow in Hrun. cbn [default from_option id] in Hrun.
  pose proof (get_metadata_value_miss _ _ PNone _ _ _ Hmiss Hrun Hm) as Hmeta.
  cbn [truthy andb] in Hmeta.
  unfold returned, _get_zoom. fold (zoom_field max_zoom).
  unfold bind at 1, gets at 1. rewrite Hmiss.
  unfold bind at 1 2. rewrite Hmeta.
  unfold bind at 1, ret at 1, bind at 1, py_int. rewrite Hint.
  unfold ret at 1, bind at 1, modify, bind, gets.
  cbn [_metadata_cache with_cache]. by rewrite lookup_insert_eq.
Qed.

Lemma zoom_is_read_from_metadata_witness :
  returned (_get_zoom Samples.connect false) (Samples.source "described.mbtiles")
  = Ok (PInt 3).
Proof.
  apply (zoom_is_read_from_metadata Samples.connect false
           (Samples.source "described.mbtiles") [("minzoom", PStr "3")] [] "3" 3);
    vm_compute; reflexivity.
Defined.

(** X4. The zoom bounds are computed once: after a [min_zoom()] or
    [max_zoom()] that returned, the next call returns the same value and
    changes nothing, even when the store can no longer be opened. *)
Theorem zoom_is_computed_once connect connect' max_zoom s v s1 :
  _get_zoom connect max_zoom s = (Ok v, s1) ->
  _get_zoom connect' max_zoom s1 = (Ok v, s1).
Proof. intros Hrun%get_zoom_result. by apply get_zoom_cached. Qed.

Lemma zoom_is_computed_once_witness :
  let first := _get_zoom Samples.connect true in
  _get_zoom (fun _ => None) true (final first (Samples.source "described.mbtiles"))
  = (Ok (PInt 14), final first (Samples.source "described.mbtiles")).
Proof.
  intros first.
  apply (zoom_is_computed_once Samples.connect (fun _ => None) true
           (Samples.source "described.mbtiles")).
  apply run_returned. vm_compute. reflexivity.
Defined.

(** No digit, no number. *)
Lemma lstrip_Forall (P : ascii -> Prop) l : Forall P l -> Forall P (lstrip l).
Proof.
  induction 1 as [|a l Ha Hl IH]; cbn; [done|].
  destruct (is_space a); [done|by constructor].
Qed.

Lemma strip_Forall (P : ascii -> Prop) l : Forall P l -> Forall P (strip l).
Proof.
  intros H. unfold strip.
  by apply Forall_rev, lstrip_Forall, Forall_rev, lstrip_Forall.
Qed.

Lemma number_value_no_digit l :
  Forall (fun a => digit_of a = None) l -> number_value l = None.
Proof. destruct 1 as [|a l Ha _]; cbn; [done|]. by rewrite Ha. Qed.

Lemma int_of_str_no_digit text : has_no_digit text = true -> int_of_str text = None.
Proof.
  unfold has_no_digit, int_of_str. intros H.
  assert (Forall (fun a => digit_of a = None) (strip (list_ascii_of_string text)))
    as Hs.
  { apply strip_Forall. induction (list_ascii_of_string text) as [|a l IH]; [done|].
    cbn in H. apply andb_true_iff in H as [[_ Ha]%andb_true_iff Hl].
    constructor; [by destruct (digit_of a)|by apply IH]. }
  destruct Hs as [|a l Ha Hl]; [done|].
  pose proof (number_value_no_digit l Hl) as Hn.
  assert (number_value (a :: l) = None) as Hn'.
  { apply number_value_no_digit. by constructor. }
  destruct a as [[] [] [] [] [] [] [] []]; try exact Hn'; by rewrite Hn.
Qed.

(** X5. A zoom in the metadata that holds no digit at all (a word, an
    empty string) makes the first [min_zoom()] (or [max_zoom()]) raise
    [ValueError]; but the lookup has already cached the raw string under
    the same key, so the next call returns that string instead of
    raising. *)
Theorem malformed_zoom_raises_once connect connect' max_zoom s r0 rest text :
  _metadata_cache s !! zoom_field max_zoom = None ->
  db_returns connect s (metadata_sql (zoom_field max_zoom)) (r0 :: rest) ->
  row_lookup r0 (zoom_field max_zoom) = Some (PStr text) ->
  has_no_digit text = true ->
  exists s1,
    _get_zoom connect max_zoom s = (Raised ValueError, s1)
    /\ _get_zoom connect' max_zoom s1 = (Ok (PStr text), s1).
Proof.
  intros Hmiss Hdb Hrow Hint%int_of_str_no_digit.
  destruct (get_single_value_rows connect _ (zoom_field max_zoom) s _ Hdb)
    as (s1 & Hrun & _ & Hm).
  rewrite Hrow in Hrun. cbn [default from_option id] in Hrun.
  pose proof (get_metadata_value_miss _ _ PNone _ _ _ Hmiss Hrun Hm) as Hmeta.
  cbn [truthy andb] in Hmeta.
  eexists. split.
  - unfold _get_zoom. fold (zoom_field max_zoom).
    unfold bind at 1, gets at 1. rewrite Hmiss.
    unfold bind at 1 2. rewrite Hmeta.
    unfold bind at 1, ret at 1, bind at 1, py_int. rewrite Hint.
    unfold raise. reflexivity.
  - apply get_zoom_cached. cbn [_metadata_cache with_cache].
    by rewrite lookup_insert_eq.
Qed.

Lemma malformed_zoom_raises_once_witness :
  exists s1,
    _get_zoom MoreSamples.connect false (Samples.source "mislabelled.mbtiles")
    = (Raised ValueError, s1)
    /\ _get_zoom (fun _ => None) false s1 = (Ok (PStr "low"), s1).
Proof.
  apply (malformed_zoom_raises_once MoreSamples.connect (fun _ => None) false
           (Samples.source "mislabelled.mbtiles") [("minzoom", PStr "low")] [] "low");
    vm_compute; reflexivity.
Defined.

(** X6. The two corners of [bounds] may come in any order: the tile query
    is the same. *)
Theorem bounds_corners_commute zoom_level p q max_tiles :
  sql_command zoom_level (Some (p, q)) max_tiles
  = sql_command zoom_level (Some (q, p)) max_tiles.
Proof.
  destruct p as [c0 r0], q as [c1 r1]. unfold sql_command, where_clause.
  by rewrite (Z.min_comm c0 c1), (Z.max_comm c0 c1), (Z.min_comm r0 r1),
    (Z.max_comm r0 r1).
Qed.

(** [_create_tile] only touches the connection and the metadata cache. *)
Lemma create_tile_frame connect r s o s' :
  _create_tile connect r s = (o, s') -> same_run s s'.
Proof.
  unfold _create_tile, row_get, scheme.
  repeat (unfold bind at 1;
          match goal with
          | |- context [row_lookup r ?k] => destruct (row_lookup r k)
          end;
          [unfold ret at 1 | intros [= <- <-]; apply same_run_refl]).
  unfold bind.
  destruct (get_metadata_value_total connect "scheme" (PStr "tms") s)
    as (v & s1 & -> & Hs & _).
  by intros [= <- <-].
Qed.

(** What one turn of the loop leaves behind when it does not raise. *)
Lemma row_step_frame connect zoom index r acc s l s' :
  row_step connect zoom index r acc s = (Ok l, s') ->
  _cancelling s' = _cancelling s
  /\ reported s' = reported s ++ [progress_at (index + 1)].
Proof.
  unfold row_step, bind at 1.
  destruct (_create_tile connect r s) as [[td|e] s1] eqn:Htile; [|done].
  apply create_tile_frame in Htile as (_ & _ & Hh & Hc & Hr).
  unfold bind, is_tile_loaded, gets, _add_loaded_tile, modify, ret,
    call_progress_handler.
  destruct (key_in _ _); cbn [_progress_handler with_loaded];
    destruct (_progress_handler s1); intros [= <- <-]; cbn; by rewrite Hc, Hr.
Qed.

Lemma load_rows_reports connect zoom fe rows : forall index acc s l s',
  quiet fe -> _cancelling s = false ->
  load_rows connect zoom fe index rows acc s = (Ok l, s') ->
  reported s'
  = reported s ++ map (fun i => progress_at (i + 1)) (seq index (length rows)).
Proof.
  induction rows as [|r rest IH]; intros index acc s l s' Hq Hc.
  - intros [= <- <-]. cbn. by rewrite app_nil_r.
  - rewrite load_rows_cons.
    assert (call_for_each fe index s = (Ok tt, s)) as Hfe.
    { destruct fe as [f|]; [|done]. cbn. by rewrite (Hq index). }
    unfold bind at 1. rewrite Hfe. unfold bind at 1, gets. rewrite Hc.
    unfold bind at 1.
    destruct (row_step connect zoom index r acc s) as [[t|e] s1] eqn:Hstep; [|done].
    apply row_step_frame in Hstep as (Hc1 & Hr1).
    intros Hrun%IH; [|done|congruence].
    rewrite Hrun, Hr1, <- app_assoc. done.
Qed.

(** X7. An archive call that nothing cancels announces the number of
    fetched rows and then reports one step per row, 1 to n, whether the
    row's tile was returned or skipped as loaded; with no rows it reports
    nothing. *)
Theorem archive_reports_every_row connect s zoom bounds max_tiles fe rows l s' :
  quiet fe ->
  db_returns connect s (sql_command zoom bounds max_tiles) rows ->
  load_tiles connect zoom bounds max_tiles fe s = (Ok l, s') ->
  reported s'
  = reported s
    ++ match rows with
       | [] => []
       | _ => announce_max (length rows)
              :: map (fun i => progress_at (i + 1)) (seq 0 (length rows))
       end.
Proof.
  intros Hq Hdb.
  destruct (get_from_db_returns connect _ _ (with_cancelling false s) Hdb)
    as (s1 & Hrun & (_ & _ & Hh & Hc & Hr) & _).
  unfold load_tiles, bind at 1, modify, bind at 1. rewrite Hrun.
  destruct rows as [|r rest].
  - intros [= <- <-]. by rewrite app_nil_r.
  - unfold bind, call_progress_handler.
    destruct (_progress_handler s1); [|done].
    intros Hloop%load_rows_reports; [|done|done].
    rewrite Hloop. cbn [reported with_reported]. rewrite Hr, <- app_assoc. done.
Qed.

Lemma archive_reports_every_row_witness :
  reported (final (load_tiles Samples.connect (Some 14) None None None)
              Samples.source_after_first_call)
  = reported Samples.source_after_first_call
    ++ [announce_max 2; progress_at 1; progress_at 2].
Proof.
  apply (archive_reports_every_row Samples.connect Samples.source_after_first_call
           (Some 14) None None None
           [tile_row 14 0 0 "b"; tile_row 14 3 5 "c"]
           [tile_of (PStr "tms") (14, 0, 0, "b")]).
  - exact I.
  - vm_compute. reflexivity.
  - apply run_returned. vm_compute. reflexivity.
Defined.

(** X8. Without a progress handler an archive call that fetches at least
    one row raises [TypeError] before it looks at any row: no tile is
    marked as loaded. *)
Theorem archive_needs_progress_handler connect s zoom bounds max_tiles fe r rest :
  _progress_handler s = false ->
  db_returns connect s (sql_command zoom bounds max_tiles) (r :: rest) ->
  exists s',
    load_tiles connect zoom bounds max_tiles fe s = (Raised TypeError, s')
    /\ _loaded_tiles s' = _loaded_tiles s.
Proof.
  intros Hh Hdb.
  destruct (get_from_db_returns connect _ _ (with_cancelling false s) Hdb)
    as (s1 & Hrun & (_ & Hl & Hh1 & _ & _) & _).
  unfold load_tiles, bind at 1, modify, bind at 1. rewrite Hrun.
  unfold bind, call_progress_handler. cbn in Hh1. rewrite Hh1, Hh.
  by eexists.
Qed.

Lemma archive_needs_progress_handler_witness :
  exists s',
    load_tiles Samples.connect (Some 14) None None None (new "stacked.mbtiles")
    = (Raised TypeError, s')
    /\ _loaded_tiles s' = [].
Proof.
  apply (archive_needs_progress_handler Samples.connect (new "stacked.mbtiles")
           (Some 14) None None None (tile_row 14 0 0 "b") [tile_row 14 3 5 "c"]).
  - reflexivity.
  - vm_compute. reflexivity.
Defined.

(** X9. [is_mapbox_vector_tile()] swallows that [TypeError]: on a source
    without a progress handler it answers [False] for every archive that
    holds a tile, whatever the tile's data. *)
Theorem probe_without_handler_says_no connect is_gzipped s r :
  _progress_handler s = false ->
  db_returns connect s (sql_command None None (Some 1)) [r] ->
  returned (is_mapbox_vector_tile connect is_gzipped) s = Ok false.
Proof.
  intros Hh Hdb.
  destruct (archive_needs_progress_handler connect s None None (Some 1) None r []
              Hh Hdb) as (s' & Hrun & _).
  unfold returned, is_mapbox_vector_tile, try_except, bind. by rewrite Hrun.
Qed.

Lemma probe_without_handler_says_no_witness :
  returned (is_mapbox_vector_tile Samples.connect (fun _ => Some true))
    (new "stacked.mbtiles") = Ok false.
Proof.
  apply (probe_without_handler_says_no Samples.connect (fun _ => Some true)
           (new "stacked.mbtiles") (tile_row 13 0 0 "a")).
  - reflexivity.
  - vm_compute. reflexivity.
Defined.

(** X10. The probe of [is_mapbox_vector_tile()] is a [load_tiles] call
    like any other.  On a source with a progress handler whose probe query
    fetches one tile: if the tile is not yet marked as loaded under the key
    [(None, column, row)] and its data is not empty, the probe answers
    what [is_gzipped] says ([False] when that raises); in every other case
    it answers [False].  In every case the tile is marked under
    [(None, column, row)] afterwards, so a later call with
    [zoom_level=None] returns no tile of that column and row, and a
    repeated probe answers [False] whatever [is_gzipped] says. *)
Theorem probe_marks_tile_loaded connect is_gzipped s z c r d :
  _progress_handler s = true ->
  db_returns connect s (sql_command None None (Some 1)) [row_of (z, c, r, d)] ->
  exists s',
    is_mapbox_vector_tile connect is_gzipped s
    = (Ok (if key_in (PNone, PInt c, PInt r) (_loaded_tiles s) then false
           else if String.eqb d "" then false
           else default false (is_gzipped (PBlob d))), s')
    /\ _loaded_tiles s'
       = (if key_in (PNone, PInt c, PInt r) (_loaded_tiles s) then _loaded_tiles s
          else _loaded_tiles s ++ [(PNone, PInt c, PInt r)])
    /\ (forall bounds max_tiles rows res s'',
          db_returns connect s' (sql_command None bounds max_tiles) (map row_of rows) ->
          load_tiles connect None bounds max_tiles None s' = (Ok res, s'') ->
          filter (at_cell c r) res = [])
    /\ (forall z' d',
          db_returns connect s' (sql_command None None (Some 1))
            [row_of (z', c, r, d')] ->
          returned (is_mapbox_vector_tile connect is_gzipped) s' = Ok false).
Proof.
  intros Hh Hdb.
  destruct (load_tiles_run connect s None None (Some 1) None [(z, c, r, d)] Hh Hdb I)
    as (v & s' & Hrun & Hl & Hh').
  cbn [kept key_of py_opt map] in Hrun, Hl.
  assert ((PNone, PInt c, PInt r) ∈ _loaded_tiles s') as Hin.
  { rewrite Hl. destruct (key_in _ (_loaded_tiles s)) eqn:Hk.
    - apply bool_decide_eq_true in Hk. apply elem_of_app. by left.
    - apply elem_of_app. right. cbn. by apply list_elem_of_singleton. }
  exists s'. split; [|split; [|split]].
  - unfold is_mapbox_vector_tile, try_except, bind. rewrite Hrun.
    destruct (key_in _ (_loaded_tiles s)); [done|].
    cbn [map tile_of snd truthy]. destruct (String.eqb d ""); [done|].
    cbn [negb]. by destruct (is_gzipped (PBlob d)).
  - rewrite Hl. destruct (key_in _ (_loaded_tiles s)); [by rewrite app_nil_r|done].
  - intros bounds max_tiles rows res s'' Hdb' Hload.
    destruct (load_tiles_run connect s' None bounds max_tiles None rows Hh' Hdb' I)
      as (v' & s2 & Hrun' & _).
    rewrite Hrun' in Hload. injection Hload as <- <-.
    by rewrite filter_at_cell_tiles, kept_loaded_cell.
  - intros z' d' Hdb'.
    destruct (load_tiles_run connect s' None None (Some 1) None [(z', c, r, d')]
                Hh' Hdb' I) as (v' & s2 & Hrun' & _).
    cbn [kept key_of py_opt map] in Hrun'.
    assert (key_in (PNone, PInt c, PInt r) (_loaded_tiles s') = true) as Hk
      by by apply bool_decide_eq_true.
    rewrite Hk in Hrun'.
    unfold returned, is_mapbox_vector_tile, try_except, bind. by rewrite Hrun'.
Qed.

Lemma probe_marks_tile_loaded_witness :
  exists s',
    is_mapbox_vector_tile Samples.connect (fun _ => Some true)
      (Samples.source "stacked.mbtiles") = (Ok true, s')
    /\ _loaded_tiles s' = [(PNone, PInt 0, PInt 0)]
    /\ (forall bounds max_tiles rows res s'',
          db_returns Samples.connect s' (sql_command None bounds max_tiles)
            (map row_of rows) ->
          load_tiles Samples.connect None bounds max_tiles None s' = (Ok res, s'') ->
          filter (at_cell 0 0) res = [])
    /\ (forall z' d',
          db_returns Samples.connect s' (sql_command None None (Some 1))
            [row_of (z', 0, 0, d')] ->
          returned (is_mapbox_vector_tile Samples.connect (fun _ => Some true)) s'
          = Ok false).
Proof.
  apply (probe_marks_tile_loaded Samples.connect (fun _ => Some true)
           (Samples.source "stacked.mbtiles") 13 0 0 "a").
  - reflexivity.
  - vm_compute. reflexivity.
Defined.

(** A witness of the archive cap [MBTilesFacts.load_tiles_at_most_rows]. *)
Lemma load_tiles_at_most_rows_witness :
  let returned_tiles := [tile_of (PStr "tms") (14, 0, 0, "b")] in
  let fetched_rows := [tile_row 14 0 0 "b"; tile_row 14 3 5 "c"] in
  (length returned_tiles <= length fetched_rows)%nat.
Proof.
  apply (load_tiles_at_most_rows Samples.connect Samples.source_after_first_call
           (Some 14) None (Some 2) None
           [tile_row 14 0 0 "b"; tile_row 14 3 5 "c"]
           [tile_of (PStr "tms") (14, 0, 0, "b")]
           (final (load_tiles Samples.connect (Some 14) None (Some 2) None)
              Samples.source_after_first_call)).
  - vm_compute. reflexivity.
  - apply run_returned. vm_compute. reflexivity.
Defined.

(** A witness of [MBTilesFacts.same_zoom_argument_no_redelivery]. *)
Lemma same_zoom_argument_no_redelivery_witness :
  let first := load_tiles Samples.connect (Some 14) None (Some 1) None in
  let s := Samples.source "stacked.mbtiles" in
  exists res1 res2 s2,
    first s = (Ok res1, final first s)
    /\ load_tiles Samples.connect (Some 14) None None None (final first s) = (Ok res2, s2)
    /\ forall t1 t2, t1 ∈ res1 -> t2 ∈ res2 ->
         (column t1.1, row t1.1) <> (column t2.1, row t2.1).
Proof.
  apply (same_zoom_argument_no_redelivery Samples.connect
           (Samples.source "stacked.mbtiles") (Some 14) None None (Some 1) None
           [(14, 0, 0, "b")] [(14, 0, 0, "b"); (14, 3, 5, "c")]).
  - reflexivity.
  - vm_compute. reflexivity.
  - vm_compute. reflexivity.
Defined.

(** X13. One archive call that nothing cancels never returns two tiles of
    the same column and row. *)
Theorem archive_call_returns_distinct_cells connect s zoom bounds max_tiles fe
  (rows : list TileRec) :
  _progress_handler s = true ->
  db_returns connect s (sql_command zoom bounds max_tiles) (map row_of rows) ->
  quiet fe ->
  exists res s',
    load_tiles connect zoom bounds max_tiles fe s = (Ok res, s')
    /\ NoDup (map (fun td : VectorTile * PyValue => (column td.1, row td.1)) res).
Proof.
  intros Hh Hdb Hq.
  destruct (load_tiles_run connect s zoom bounds max_tiles fe rows Hh Hdb Hq)
    as (v & s' & Hrun & _).
  eexists _, s'. split; [exact Hrun|].
  pose proof (kept_keys_NoDup (py_opt zoom) rows (_loaded_tiles s)) as Hnd.
  apply (NoDup_fmap_1 (fun cr : PyValue * PyValue => (py_opt zoom, cr.1, cr.2))).
  rewrite <- !list_fmap_compose.
  erewrite list_fmap_ext; [exact Hnd|].
  by intros i [[[z c] r] d] _.
Qed.

Lemma archive_call_returns_distinct_cells_witness :
  exists res s',
    load_tiles Samples.connect None None None None (Samples.source "stacked.mbtiles")
    = (Ok res, s')
    /\ NoDup (map (fun td : VectorTile * PyValue => (column td.1, row td.1)) res).
Proof.
  apply (archive_call_returns_distinct_cells Samples.connect
           (Samples.source "stacked.mbtiles") None None None None
           [(13, 0, 0, "a"); (14, 0, 0, "b"); (14, 3, 5, "c")]).
  - reflexivity.
  - vm_compute. reflexivity.
  - exact I.
Defined.

End MBTilesMore.

(** * Further properties of the remote source *)

Module ServerMore.
Import Server ServerFacts.

Section Facts.

Variable get_all_tiles : option MBTiles.Bounds -> list (Z * Z).
Variable fetch : string -> option string.
Variable finish_order : nat -> list Job -> list Job.
Variable late_arrivals : nat -> list Job -> nat -> nat.

Local Abbreviation landed := (landed finish_order late_arrivals).
Local Abbreviation _load_urls_async := (_load_urls_async fetch finish_order late_arrivals).
Local Abbreviation do_paged_loop := (do_paged_loop fetch finish_order late_arrivals).
Local Abbreviation load_tiles := (load_tiles get_all_tiles fetch finish_order late_arrivals).

(** The join loop touches the flag, the progress log and the callback
    count, nothing else. *)
Lemma join_threads_frame off fe threads : forall index s o s',
  join_threads off fe index threads s = (o, s') ->
  _loaded_tiles s' = _loaded_tiles s /\ json s' = json s
  /\ _progress_handler s' = _progress_handler s.
Proof.
  induction threads as [|t rest IH]; intros index s o s'.
  - by intros [= <- <-].
  - cbn [join_threads].
    destruct fe as [f|]; cbn [call_for_each];
      unfold bind, cancel, gets, modify, ret, call_progress_handler; simpl.
    + destruct (f (for_each_calls s)); simpl; [by intros [= <- <-]|].
      destruct (_cancelling s); simpl; [by intros [= <- <-]|].
      destruct (_progress_handler s) eqn:Hh; [|by intros [= <- <-]].
      intros (? & ? & ?)%(IH _ _ _ _). simpl in *. split; [|split]; congruence.
    + destruct (_cancelling s); simpl; [by intros [= <- <-]|].
      destruct (_progress_handler s) eqn:Hh; [|by intros [= <- <-]].
      intros (? & ? & ?)%(IH _ _ _ _). simpl in *. split; [|split]; congruence.
Qed.

Lemma do_paged_loop_frame fe ps items fuel : forall nr q s o s',
  do_paged_loop fuel ps nr items q fe s = (o, s') ->
  _loaded_tiles s' = _loaded_tiles s /\ json s' = json s
  /\ _progress_handler s' = _progress_handler s.
Proof.
  induction fuel as [|fuel IH]; intros nr q s o s'.
  - by intros [= <- <-].
  - cbn [Server.do_paged_loop]. unfold bind at 1, gets.
    destruct (_cancelling s || _)%bool; [by intros [= <- <-]|].
    unfold bind, Server._load_urls_async, bind, ret.
    destruct (join_threads _ _ _ _ s) as [[j|e] s1] eqn:Hj;
      apply join_threads_frame in Hj as (Hl & Hjs & Hh).
    + intros (? & ? & ?)%IH. split; [|split]; congruence.
    + by intros [= <- <-].
Qed.

(** Emptying the queue marks one key per result, in queue order. *)
Lemma drain_marks zoom queue : forall acc s,
  exists s',
    drain zoom queue acc s
    = (Ok (acc ++ map (tuple_of (scheme_name (json s)) zoom) queue), s')
    /\ _loaded_tiles s'
       = _loaded_tiles s
         ++ map (fun r : Fetched => (PInt zoom, PInt r.2.1, PInt r.2.2)) queue
    /\ reported s' = reported s.
Proof.
  induction queue as [|[content [col row]] rest IH]; intros acc s.
  - cbn. unfold ret. rewrite !app_nil_r. by eexists.
  - cbn [drain map]. unfold bind, scheme, gets, _add_loaded_tile, modify.
    destruct (IH (acc ++ [tuple_of (scheme_name (json s)) zoom (content, (col, row))])
                (with_loaded (_loaded_tiles s ++ [(PInt zoom, PInt col, PInt row)]) s))
      as (s' & Hrun & Hl & Hr).
    exists s'. cbn [tuple_of json with_loaded _loaded_tiles reported snd fst] in *.
    rewrite Hrun, Hl, <- !app_assoc. done.
Qed.

(** A call that returns went through the paged fetch with some queue. *)
Lemma load_tiles_returned zoom bounds max_tiles fe s res s' :
  load_tiles zoom bounds max_tiles fe s = (Ok res, s') ->
  exists base_url templates queue,
    tiles (json s) = base_url :: templates
    /\ _progress_handler s = true
    /\ res = map (tuple_of (scheme_name (json s)) zoom) queue
    /\ _loaded_tiles s' = _loaded_tiles s ++ map key_of_tile res
    /\ exists s1 s2,
         do_paged_loop
           (S (length (collect_urls base_url zoom (_loaded_tiles s) max_tiles 0
                         (get_all_tiles bounds)))) 5 0
           (collect_urls base_url zoom (_loaded_tiles s) max_tiles 0
              (get_all_tiles bounds)) [] fe s1 = (Ok queue, s2)
         /\ _cancelling s1 = false /\ _progress_handler s1 = true.
Proof.
  rewrite load_tiles_steps. cbv zeta.
  destruct (tiles (json s)) as [|base_url templates]; [done|].
  destruct (_progress_handler s) eqn:Hh; [|done].
  set (urls := collect_urls _ _ _ _ _ _). set (s0 := with_reported _ _).
  destruct (Server.do_paged_loop _ _ _ _ _ _ _ _ fe s0) as [[queue|e] s2] eqn:Hp;
    [|done].
  pose proof (do_paged_loop_frame _ _ _ _ _ _ _ _ _ Hp) as (Hl & Hj & _).
  destruct (drain_marks zoom queue [] s2) as (s3 & -> & Hl3 & _).
  intros [= <- <-]. exists base_url, templates, queue.
  split; [done|]. split; [done|]. rewrite Hj. split; [done|]. split.
  - rewrite Hl3, Hl. cbn [_loaded_tiles with_reported with_calls with_cancelling s0].
    f_equal. rewrite map_map. apply map_ext. by intros [content [col row]].
  - exists s0, s2. split; [exact Hp|]. by split.
Qed.

(** X17. The remote source marks as loaded exactly the tiles it returns,
    in the order it returns them, whether or not the call was cancelled. *)
Theorem remote_marks_what_it_returns zoom bounds max_tiles fe s res s' :
  load_tiles zoom bounds max_tiles fe s = (Ok res, s') ->
  _loaded_tiles s' = _loaded_tiles s ++ map key_of_tile res.
Proof.
  intros (? & ? & ? & _ & _ & _ & Hl & _)%load_tiles_returned. exact Hl.
Qed.

(** X14. Without a progress handler every remote call raises [TypeError]
    when it announces its fetches, before any fetch starts: no tile is
    marked as loaded. *)
Theorem remote_needs_progress_handler zoom bounds max_tiles fe s base_url templates :
  _progress_handler s = false ->
  tiles (json s) = base_url :: templates ->
  exists s',
    load_tiles zoom bounds max_tiles fe s = (Raised TypeError, s')
    /\ _loaded_tiles s' = _loaded_tiles s /\ reported s' = reported s.
Proof.
  intros Hh Ht. rewrite load_tiles_steps. cbv zeta. rewrite Ht, Hh. by eexists.
Qed.

(** Every entry of [urls] is a candidate that was not loaded, with the
    URL of its own coordinates. *)
Lemma collect_urls_unloaded base_url zoom loaded max_tiles tiles : forall index j,
  j ∈ collect_urls base_url zoom loaded max_tiles index tiles ->
  is_loaded loaded zoom j.1.2 j.2 = false /\ (j.1.2, j.2) ∈ tiles
  /\ j.1.1 = tile_url base_url zoom j.1.2 j.2.
Proof.
  induction tiles as [|[col row] rest IH]; intros index j; cbn [collect_urls].
  - by intros ?%elem_of_nil.
  - destruct (is_loaded loaded zoom col row) eqn:Hl.
    + intros (? & ? & ?)%IH. split; [done|]. split; [by right|done].
    + intros [->|Hin]%elem_of_cons.
      * cbn. split; [done|]. split; [by left|done].
      * destruct (cap_reached max_tiles index); [by apply elem_of_nil in Hin|].
        apply IH in Hin as (? & ? & ?). split; [done|]. split; [by right|done].
Qed.

(** Whatever reaches the queue was delivered for one of the items, as
    long as the scheduler only finishes jobs that were launched. *)
Lemma do_paged_loop_sources fe ps items fuel :
  (forall off jobs j, j ∈ finish_order off jobs -> j ∈ jobs) ->
  forall nr q s q' s',
    do_paged_loop fuel ps nr items q fe s = (Ok q', s') ->
    forall x, x ∈ q' -> x ∈ q \/ exists j, j ∈ items /\ deliver fetch j = Some x.
Proof.
  intros Hsub. induction fuel as [|fuel IH]; intros nr q s q' s'.
  - intros [= <- <-] x Hx. by left.
  - cbn [Server.do_paged_loop]. unfold bind at 1, gets.
    destruct (_cancelling s || _)%bool; [intros [= <- <-] x Hx; by left|].
    unfold bind, Server._load_urls_async, bind, ret.
    destruct (join_threads _ _ _ _ s) as [[j|e] s1]; [|done].
    intros Hrun x Hx. destruct (IH _ _ _ _ _ Hrun x Hx) as [Hq|Hj]; [|by right].
    apply elem_of_app in Hq as [Hq|Hq]; [by left|]. right.
    apply list_elem_of_omap in Hq as (job & Hjob & Hd). exists job. split; [|done].
    eapply elem_of_prefix in Hjob; [|apply landed_prefix].
    apply Hsub in Hjob. by apply subseteq_take, subseteq_drop in Hjob.
Qed.

(** X18. The remote source never returns a tile twice: a tile (zoom level,
    column, row) that one call returned is returned by no later call on the
    same source, whatever the arguments and cancellations of the two
    calls, as long as the scheduler only finishes jobs that were launched. *)
Theorem remote_never_redelivers zoom1 bounds1 max1 fe1 zoom2 bounds2 max2 fe2
  s res1 s1 res2 s2 :
  (forall off jobs j, j ∈ finish_order off jobs -> j ∈ jobs) ->
  load_tiles zoom1 bounds1 max1 fe1 s = (Ok res1, s1) ->
  load_tiles zoom2 bounds2 max2 fe2 s1 = (Ok res2, s2) ->
  forall t1 t2, t1 ∈ res1 -> t2 ∈ res2 -> key_of_tile t1 <> key_of_tile t2.
Proof.
  intros Hsub Hrun1 Hrun2 t1 t2 Ht1 Ht2 Heq.
  pose proof (remote_marks_what_it_returns _ _ _ _ _ _ _ Hrun1) as Hl1.
  apply load_tiles_returned in Hrun2
    as (base & templates & queue & _ & _ & -> & _ & sa & sb & Hp & _).
  apply list_elem_of_fmap in Ht2 as ([content [col row]] & -> & Hx).
  destruct (do_paged_loop_sources _ _ _ _ Hsub _ _ _ _ _ Hp _ Hx)
    as [Hq|([[u c] r] & Hj & Hd)]; [by apply elem_of_nil in Hq|].
  apply collect_urls_unloaded in Hj as (Hnew & _ & _). cbn in Hnew.
  unfold deliver in Hd. destruct (fetch u); [|done]. injection Hd as <- <- <-.
  unfold is_loaded, key_in in Hnew. apply bool_decide_eq_false in Hnew.
  apply Hnew. rewrite Hl1. apply elem_of_app. right.
  apply list_elem_of_fmap. exists t1. split; [|done]. by rewrite Heq.
Qed.

Lemma length_omap_le {A B} (f : A -> option B) (l : list A) :
  (length (omap f l) <= length l)%nat.
Proof.
  induction l as [|x l IH]; cbn; [lia|]. destruct (f x); cbn; lia.
Qed.

(** The queue grows by at most one entry per item, as long as the
    scheduler finishes no more jobs than were launched. *)
Lemma do_paged_loop_length fe ps items fuel :
  (forall off jobs, (length (finish_order off jobs) <= length jobs)%nat) ->
  forall nr q s q' s',
    do_paged_loop fuel ps nr items q fe s = (Ok q', s') ->
    (length q' <= length q + length (drop nr items))%nat.
Proof.
  intros Hlen. induction fuel as [|fuel IH]; intros nr q s q' s'.
  - intros [= <- <-]. lia.
  - cbn [Server.do_paged_loop]. unfold bind at 1, gets.
    destruct (_cancelling s || _)%bool; [intros [= <- <-]; lia|].
    unfold bind, Server._load_urls_async, bind, ret.
    destruct (join_threads _ _ _ _ s) as [[j|e] s1]; [|done].
    intros Hrun%IH. rewrite length_app in Hrun.
    pose proof (length_omap_le (deliver fetch)
                  (landed (nr * ps) (take ps (drop nr items)) j)) as H1.
    pose proof (prefix_length _ _ (landed_prefix finish_order late_arrivals
                  (nr * ps) (take ps (drop nr items)) j)) as H2.
    pose proof (Hlen (nr * ps)%nat (take ps (drop nr items))) as H3.
    rewrite length_take, !length_drop in *. lia.
Qed.

(** The first loop without a skipped tile: it stops at the cap. *)
Lemma collect_urls_capped base_url zoom loaded n tiles : forall index,
  (index < n)%nat ->
  Forall (fun cr : Z * Z => is_loaded loaded zoom cr.1 cr.2 = false)
         (take (n - index) tiles) ->
  collect_urls base_url zoom loaded (Some (Z.of_nat n)) index tiles
  = map (fun cr : Z * Z => (tile_url base_url zoom cr.1 cr.2, cr.1, cr.2))
        (take (n - index) tiles).
Proof.
  induction tiles as [|[col row] rest IH]; intros index Hi Hnew.
  - by rewrite take_nil.
  - destruct (n - index)%nat as [|k] eqn:Hk; [lia|].
    cbn [take collect_urls map fst snd] in *.
    apply Forall_cons in Hnew as [Hhead Hrest]. cbn in Hhead. rewrite Hhead.
    f_equal. unfold cap_reached.
    destruct (Z.eqb_spec (Z.of_nat n) 0) as [|_]; [lia|]. cbn [negb andb].
    destruct (Z.eqb_spec (Z.of_nat index + 1) (Z.of_nat n)) as [Hcap|Hcap].
    + assert (k = 0%nat) as -> by lia. by rewrite take_0.
    + replace k with (n - S index)%nat in * by lia. apply IH; [lia|done].
Qed.

(** X15. The cap of the remote source holds as long as none of the first
    [max_tiles] candidates is already loaded: then the call returns at most
    [max_tiles] tiles (the scheduler finishing no more jobs than were
    launched). *)
Theorem remote_cap_holds_without_skips zoom bounds (n : nat) fe s res s' :
  (0 < n)%nat ->
  Forall (fun cr : Z * Z => is_loaded (_loaded_tiles s) zoom cr.1 cr.2 = false)
         (take n (get_all_tiles bounds)) ->
  (forall off jobs, (length (finish_order off jobs) <= length jobs)%nat) ->
  load_tiles zoom bounds (Some (Z.of_nat n)) fe s = (Ok res, s') ->
  (length res <= n)%nat.
Proof.
  intros Hn Hnew Hlen Hrun.
  apply load_tiles_returned in Hrun
    as (base & templates & queue & _ & _ & -> & _ & sa & sb & Hp & _).
  apply do_paged_loop_length in Hp; [|done].
  rewrite collect_urls_capped in Hp by (rewrite ?Nat.sub_0_r; done).
  rewrite length_map. rewrite drop_0, length_map, Nat.sub_0_r, length_take in Hp.
  cbn [length] in Hp. lia.
Qed.

(** Joining the threads of a page when nothing cancels: every thread is
    joined and reported. *)
Lemma join_threads_quiet off fe threads : forall index s,
  _progress_handler s = true -> _cancelling s = false -> MBTiles.quiet fe ->
  exists s',
    join_threads off fe index threads s = (Ok (index + length threads)%nat, s')
    /\ _progress_handler s' = true /\ _cancelling s' = false
    /\ reported s'
       = reported s
         ++ map (fun i => progress_at (off + i + 1)) (seq index (length threads)).
Proof.
  induction threads as [|t rest IH]; intros index s Hh Hc Hq.
  - cbn. unfold ret. rewrite Nat.add_0_r, app_nil_r. by eexists.
  - cbn [join_threads length seq map].
    assert (exists s0, call_for_each fe s = (Ok tt, s0)
              /\ _progress_handler s0 = true /\ _cancelling s0 = false
              /\ reported s0 = reported s) as (s0 & Hfe & Hh0 & Hc0 & Hr0).
    { destruct fe as [f|]; [|by exists s].
      cbn. unfold bind, gets, modify, ret. rewrite (Hq (for_each_calls s)).
      by eexists. }
    unfold bind at 1. rewrite Hfe. unfold bind at 1, gets. rewrite Hc0.
    unfold bind, call_progress_handler. rewrite Hh0.
    destruct (IH (S index)
                (with_reported (reported s0 ++ [progress_at (off + index + 1)]) s0))
      as (s' & Hrun & Hh' & Hc' & Hr'); [done..|].
    exists s'. rewrite Hrun. split; [f_equal; f_equal; lia|].
    split; [done|]. split; [done|].
    rewrite Hr'. cbn [reported with_reported]. rewrite Hr0, <- app_assoc. done.
Qed.

Lemma progress_value_in_page ps p i :
  (i < ps)%nat -> progress_value ps (ps * p + i) = (ps * p * ps + i + 1)%nat.
Proof.
  intros Hi. unfold progress_value.
  rewrite (Nat.mul_comm ps p), Nat.div_add_l by lia.
  rewrite (Nat.add_comm (p * ps) i), Nat.Div0.mod_add.
  rewrite Nat.div_small, Nat.mod_small by lia. lia.
Qed.

Lemma page_progress ps p n :
  (n <= ps)%nat ->
  map (fun i => progress_at (ps * p * ps + i + 1)) (seq 0 n)
  = map (fun g => progress_at (progress_value ps g)) (seq (ps * p) n).
Proof.
  intros Hn. replace (seq (ps * p) n) with (Nat.add (ps * p) <$> seq 0 n)
    by (rewrite fmap_add_seq; f_equal; lia).
  rewrite <- list_fmap_compose. apply list_fmap_ext.
  intros i g [-> Hi]%lookup_seq. cbn.
  by rewrite progress_value_in_page by lia.
Qed.

(** The paged fetch when nothing cancels: every item is fetched, every
    fetch is reported with its [progress_value], and the queue holds what
    the items delivered. *)
Lemma do_paged_loop_quiet fe ps items fuel : forall p q s,
  (0 < ps)%nat -> (length items - ps * p < fuel)%nat ->
  _progress_handler s = true -> _cancelling s = false -> MBTiles.quiet fe ->
  exists q' s',
    do_paged_loop fuel ps (ps * p) items q fe s = (Ok q', s')
    /\ reported s'
       = reported s
         ++ map (fun g => progress_at (progress_value ps g))
              (seq (ps * p) (length items - ps * p))
    /\ ((forall off jobs, finish_order off jobs ≡ₚ jobs) ->
        q' ≡ₚ q ++ omap (deliver fetch) (drop (ps * p) items)).
Proof.
  induction fuel as [|fuel IH]; intros p q s Hps Hfuel Hh Hc Hq; [lia|].
  cbn [Server.do_paged_loop]. unfold bind at 1, gets. rewrite Hc. cbn [orb].
  destruct (Nat.eqb_spec (length (take ps (drop (ps * p) items))) 0) as [Hlen|Hlen].
  - rewrite length_take, length_drop in Hlen.
    assert (length items - ps * p = 0)%nat as Hz by lia.
    unfold ret. exists q, s. rewrite Hz. cbn [seq map]. rewrite app_nil_r.
    split; [done|]. split; [done|]. intros _.
    rewrite drop_ge by lia. by rewrite app_nil_r.
  - set (page := take ps (drop (ps * p) items)) in *.
    assert (length page = ps `min` (length items - ps * p))%nat as Hpage.
    { subst page. by rewrite length_take, length_drop. }
    destruct (join_threads_quiet (ps * p * ps) fe page 0 s Hh Hc Hq)
      as (s1 & Hjoin & Hh1 & Hc1 & Hr1).
    unfold bind, Server._load_urls_async, bind. rewrite Hjoin. unfold ret.
    unfold Server.landed. cbn [Nat.add]. rewrite Nat.eqb_refl.
    destruct (IH (S p) (q ++ omap (deliver fetch) (finish_order (ps * p * ps) page)) s1)
      as (q' & s' & Hrun & Hr' & Hperm'); [lia|lia|done..|].
    replace (ps * p + ps)%nat with (ps * S p)%nat by lia.
    exists q', s'. split; [exact Hrun|]. split.
    + rewrite Hr', Hr1, <- app_assoc. f_equal.
      replace (length items - ps * p)%nat
        with (length page + (length items - ps * S p))%nat by lia.
      rewrite seq_app, map_app. f_equal.
      * apply page_progress. lia.
      * destruct (decide (length page = ps)) as [->|Hne].
        { by replace (ps * p + ps)%nat with (ps * S p)%nat by lia. }
        replace (length items - ps * S p)%nat with 0%nat by lia. done.
    + intros Hperm. rewrite (Hperm' Hperm), <- app_assoc. f_equal.
      rewrite (Hperm _ page). rewrite <- omap_app. subst page.
      replace (ps * S p)%nat with (ps * p + ps)%nat by lia.
      rewrite <- drop_drop, take_drop. done.
Qed.

(** A whole remote call that nothing cancels. *)
Lemma load_tiles_quiet zoom bounds max_tiles fe s base_url templates :
  _progress_handler s = true ->
  tiles (json s) = base_url :: templates ->
  MBTiles.quiet fe ->
  let urls := collect_urls base_url zoom (_loaded_tiles s) max_tiles 0
                (get_all_tiles bounds) in
  exists res s',
    load_tiles zoom bounds max_tiles fe s = (Ok res, s')
    /\ reported s'
       = reported s
         ++ announce_msg (announcement (length urls)) (length urls)
            :: map (fun g => progress_at (progress_value 5 g)) (seq 0 (length urls))
    /\ ((forall off jobs, finish_order off jobs ≡ₚ jobs) ->
        res ≡ₚ map (tuple_of (scheme_name (json s)) zoom)
                   (omap (deliver fetch) urls)).
Proof.
  intros Hh Ht Hq urls. rewrite load_tiles_steps. cbv zeta. rewrite Ht, Hh.
  fold urls. set (s0 := with_reported _ _).
  destruct (do_paged_loop_quiet fe 5 urls (S (length urls)) 0 [] s0)
    as (queue & s1 & Hrun & Hr & Hperm); [lia|lia|done..|].
  change (5 * 0)%nat with 0%nat in Hrun, Hr, Hperm. rewrite Nat.sub_0_r in Hr.
  rewrite Hrun.
  pose proof (do_paged_loop_frame _ _ _ _ _ _ _ _ _ Hrun) as (_ & Hj & _).
  destruct (drain_marks zoom queue [] s1) as (s2 & Hdrain & _ & Hr2).
  rewrite Hdrain. exists (map (tuple_of (scheme_name (json s1)) zoom) queue), s2.
  split; [done|]. split.
  - rewrite Hr2, Hr. cbn [reported with_reported s0 with_calls with_cancelling].
    by rewrite <- app_assoc.
  - intros Hp. rewrite (Hperm Hp), Hj. cbn [app drop json s0 with_reported].
    done.
Qed.

(** X16. A remote call that nothing cancels announces the number of
    URLs and reports one value per fetch; the fetch with overall index [g]
    (from 0) is reported as [25 * (g / 5) + g mod 5 + 1]: 1 to 5 on the
    first page, 26 to 30 on the second, and so on. *)
Theorem remote_progress_values zoom bounds max_tiles fe s base_url templates :
  _progress_handler s = true ->
  tiles (json s) = base_url :: templates ->
  MBTiles.quiet fe ->
  let urls := collect_urls base_url zoom (_loaded_tiles s) max_tiles 0
                (get_all_tiles bounds) in
  exists res s',
    load_tiles zoom bounds max_tiles fe s = (Ok res, s')
    /\ reported s'
       = reported s
         ++ announce_msg (announcement (length urls)) (length urls)
            :: map (fun g => progress_at (25 * (g / 5) + g mod 5 + 1))
                 (seq 0 (length urls)).
Proof.
  intros Hh Ht Hq urls.
  destruct (load_tiles_quiet zoom bounds max_tiles fe s base_url templates Hh Ht Hq)
    as (res & s' & Hrun & Hr & _).
  by exists res, s'.
Qed.

(** X19. A remote call that nothing cancels returns, in some order, one
    tuple for each collected URL whose fetch succeeded, and nothing else
    (the scheduler finishing exactly the jobs that were launched). *)
Theorem remote_returns_every_fetched_url zoom bounds max_tiles fe s base_url templates :
  _progress_handler s = true ->
  tiles (json s) = base_url :: templates ->
  MBTiles.quiet fe ->
  (forall off jobs, finish_order off jobs ≡ₚ jobs) ->
  exists res s',
    load_tiles zoom bounds max_tiles fe s = (Ok res, s')
    /\ res ≡ₚ map (tuple_of (scheme_name (json s)) zoom)
                  (omap (deliver fetch)
                     (collect_urls base_url zoom (_loaded_tiles s) max_tiles 0
                        (get_all_tiles bounds))).
Proof.
  intros Hh Ht Hq Hperm.
  destruct (load_tiles_quiet zoom bounds max_tiles fe s base_url templates Hh Ht Hq)
    as (res & s' & Hrun & _ & Hres).
  exists res, s'. split; [done|]. by apply Hres.
Qed.

End Facts.


Lemma remote_marks_what_it_returns_witness :
  _loaded_tiles
    (final (load_tiles Samples.all_tiles Samples.fetch_ok Samples.in_launch_order
              Samples.no_late_arrivals 14 (Some ((0, 0), (1, 1))) None
              (Some (Samples.cancel_at 2))) Samples.remote)
  = _loaded_tiles Samples.remote
    ++ map key_of_tile
         [tuple_of (PStr "xyz") 14 ("pbf of http://tiles.example/14/0/0.pbf", (0, 0));
          tuple_of (PStr "xyz") 14 ("pbf of http://tiles.example/14/0/1.pbf", (0, 1))].
Proof.
  apply (remote_marks_what_it_returns Samples.all_tiles Samples.fetch_ok
           Samples.in_launch_order Samples.no_late_arrivals 14
           (Some ((0, 0), (1, 1))) None (Some (Samples.cancel_at 2)) Samples.remote
           [tuple_of (PStr "xyz") 14 ("pbf of http://tiles.example/14/0/0.pbf", (0, 0));
            tuple_of (PStr "xyz") 14 ("pbf of http://tiles.example/14/0/1.pbf", (0, 1))]).
  apply run_returned. vm_compute. reflexivity.
Defined.

Lemma remote_needs_progress_handler_witness :
  exists s',
    load_tiles Samples.all_tiles Samples.fetch_ok Samples.in_launch_order
      Samples.no_late_arrivals 14 (Some ((0, 0), (1, 1))) None None
      (new "http://tiles.example/tiles.json" Samples.descriptor)
    = (Raised TypeError, s')
    /\ _loaded_tiles s'
       = _loaded_tiles (new "http://tiles.example/tiles.json" Samples.descriptor)
    /\ reported s'
       = reported (new "http://tiles.example/tiles.json" Samples.descriptor).
Proof.
  apply (remote_needs_progress_handler Samples.all_tiles Samples.fetch_ok
           Samples.in_launch_order Samples.no_late_arrivals 14
           (Some ((0, 0), (1, 1))) None None
           (new "http://tiles.example/tiles.json" Samples.descriptor)
           "http://tiles.example/{z}/{x}/{y}.pbf" []); reflexivity.
Defined.

Lemma remote_never_redelivers_witness :
  let call := load_tiles Samples.all_tiles Samples.fetch_ok Samples.in_launch_order
                Samples.no_late_arrivals 14 (Some ((0, 0), (1, 1))) (Some 1) None in
  let res1 :=
    [tuple_of (PStr "xyz") 14 ("pbf of http://tiles.example/14/0/0.pbf", (0, 0))] in
  let res2 :=
    [tuple_of (PStr "xyz") 14 ("pbf of http://tiles.example/14/0/1.pbf", (0, 1));
     tuple_of (PStr "xyz") 14 ("pbf of http://tiles.example/14/1/0.pbf", (1, 0));
     tuple_of (PStr "xyz") 14 ("pbf of http://tiles.example/14/1/1.pbf", (1, 1))] in
  returned call Samples.remote = Ok res1
  /\ returned call (final call Samples.remote) = Ok res2
  /\ forall t1 t2, t1 ∈ res1 -> t2 ∈ res2 -> key_of_tile t1 <> key_of_tile t2.
Proof.
  intros call res1 res2.
  assert (returned call Samples.remote = Ok res1) as H1 by (vm_compute; reflexivity).
  assert (returned call (final call Samples.remote) = Ok res2) as H2
    by (vm_compute; reflexivity).
  split; [exact H1|]. split; [exact H2|].
  apply (remote_never_redelivers Samples.all_tiles Samples.fetch_ok
           Samples.in_launch_order Samples.no_late_arrivals
           14 (Some ((0, 0), (1, 1))) (Some 1) None
           14 (Some ((0, 0), (1, 1))) (Some 1) None
           Samples.remote res1 (final call Samples.remote) res2
           (final call (final call Samples.remote))).
  - intros off jobs j Hj. exact Hj.
  - exact (run_returned call Samples.remote res1 H1).
  - exact (run_returned call (final call Samples.remote) res2 H2).
Defined.

Lemma remote_cap_holds_without_skips_witness :
  let returned_tiles :=
    [tuple_of (PStr "xyz") 14 ("pbf of http://tiles.example/14/0/0.pbf", (0, 0));
     tuple_of (PStr "xyz") 14 ("pbf of http://tiles.example/14/0/1.pbf", (0, 1))] in
  (length returned_tiles <= 2)%nat.
Proof.
  apply (remote_cap_holds_without_skips Samples.all_tiles Samples.fetch_ok
           Samples.in_launch_order Samples.no_late_arrivals 14
           (Some ((0, 0), (1, 1))) 2 None Samples.remote
           [tuple_of (PStr "xyz") 14 ("pbf of http://tiles.example/14/0/0.pbf", (0, 0));
            tuple_of (PStr "xyz") 14 ("pbf of http://tiles.example/14/0/1.pbf", (0, 1))]
           (final (load_tiles Samples.all_tiles Samples.fetch_ok Samples.in_launch_order
                     Samples.no_late_arrivals 14 (Some ((0, 0), (1, 1)))
                     (Some (Z.of_nat 2)) None)
              Samples.remote)).
  - lia.
  - vm_compute. repeat constructor.
  - intros off jobs. reflexivity.
  - apply run_returned. vm_compute. reflexivity.
Defined.

Lemma remote_progress_values_witness :
  let urls := collect_urls "http://tiles.example/{z}/{x}/{y}.pbf" 14
                (_loaded_tiles Samples.remote) None 0
                (Samples.all_tiles (Some ((0, 0), (1, 2)))) in
  exists res s',
    load_tiles Samples.all_tiles Samples.fetch_ok Samples.in_launch_order
      Samples.no_late_arrivals 14 (Some ((0, 0), (1, 2))) None None Samples.remote
    = (Ok res, s')
    /\ reported s'
       = reported Samples.remote
         ++ announce_msg (announcement (length urls)) (length urls)
            :: map (fun g => progress_at (25 * (g / 5) + g mod 5 + 1))
                 (seq 0 (length urls)).
Proof.
  apply (remote_progress_values Samples.all_tiles Samples.fetch_ok
           Samples.in_launch_order Samples.no_late_arrivals 14
           (Some ((0, 0), (1, 2))) None None Samples.remote
           "http://tiles.example/{z}/{x}/{y}.pbf" []).
  - reflexivity.
  - reflexivity.
  - exact I.
Defined.

Lemma remote_returns_every_fetched_url_witness :
  exists res s',
    load_tiles Samples.all_tiles MoreSamples.fetch_but_one Samples.reversed_order
      Samples.one_late_arrival 14 (Some ((0, 0), (1, 2))) None None Samples.remote
    = (Ok res, s')
    /\ res ≡ₚ map (tuple_of (scheme_name (json Samples.remote)) 14)
                  (omap (deliver MoreSamples.fetch_but_one)
                     (collect_urls "http://tiles.example/{z}/{x}/{y}.pbf" 14
                        (_loaded_tiles Samples.remote) None 0
                        (Samples.all_tiles (Some ((0, 0), (1, 2)))))).
Proof.
  apply (remote_returns_every_fetched_url Samples.all_tiles MoreSamples.fetch_but_one
           Samples.reversed_order Samples.one_late_arrival 14
           (Some ((0, 0), (1, 2))) None None Samples.remote
           "http://tiles.example/{z}/{x}/{y}.pbf" []).
  - reflexivity.
  - reflexivity.
  - exact I.
  - intros off jobs. apply reverse_Permutation.
Defined.

End ServerMore.

(** * Further properties of the reader *)

Module VtReaderMore.
Import VtReader Geometries.

(** Induction on geometries, with the elements of a list covered. *)
Lemma Coord_nested_ind (P : Coord -> Prop) :
  (forall z, P (CInt z)) ->
  (forall l, Forall P l -> P (CList l)) ->
  forall c, P c.
Proof.
  intros HI HL. fix IH 1. intros [z|l]; [apply HI|]. apply HL.
  induction l as [|c l IHl]; constructor; [apply IH|apply IHl].
Qed.

Section Facts.

Variable TileBounds : Z -> Z -> Z -> float * float * float * float.

Local Abbreviation _calculate_geometry := (_calculate_geometry TileBounds).
Local Abbreviation map_coordinate := (map_coordinate TileBounds).
Local Abbreviation map_coordinates_recursive := (map_coordinates_recursive TileBounds).
Local Abbreviation create_geojson_feature := (create_geojson_feature TileBounds).
Local Abbreviation write_feature := (write_feature TileBounds).
Local Abbreviation write_layer := (write_layer TileBounds).
Local Abbreviation write_layers := (write_layers TileBounds).
Local Abbreviation write_features := (write_features TileBounds).
Local Abbreviation write_all := (write_all TileBounds).
Local Abbreviation process_tiles := (process_tiles TileBounds).
Local Abbreviation reprojected := (reprojected TileBounds).

(** [int(f)] leaves the object alone and raises nothing but
    [OverflowError] and [ValueError]. *)
Lemma int_of_float_run {S} f (s : S) :
  exists o, int_of_float f s = (o, s)
    /\ (int_of_float (S := unit) f tt).1 = o
    /\ match o with Raised e => int_error e | Ok _ => True end.
Proof.
  unfold int_of_float, int_error.
  destruct (Prim2SF f); eexists; (split; [reflexivity|]); cbn; auto.
Qed.

(** The conversion of an integer operand leaves the object alone and
    raises nothing but [OverflowError]. *)
Lemma py_float_run {S} z (s : S) :
  exists o, py_float z s = (o, s)
    /\ (py_float (S := unit) z tt).1 = o
    /\ match o with Raised e => int_error e | Ok _ => True end.
Proof.
  unfold py_float, int_error.
  destruct (PrimFloat.is_infinity _); eexists; (split; [reflexivity|]); cbn; auto.
Qed.

(** The reprojection of one tuple: the same outcome on every object. *)
Lemma calculate_geometry_run {S} xy tile (s : S) :
  _calculate_geometry xy tile s
  = ((VtReader._calculate_geometry (S := unit) TileBounds xy tile tt).1, s)
  /\ match (VtReader._calculate_geometry (S := unit) TileBounds xy tile tt).1 with
     | Raised e => int_error e
     | Ok _ => True
     end.
Proof.
  unfold VtReader._calculate_geometry.
  destruct (TileBounds _ _ _) as [[[tmp0 tmp1] tmp2] tmp3]. unfold bind.
  destruct (py_float_run (S := S) xy.1 s) as (cx & -> & Hcx & Hecx).
  destruct (py_float (S := unit) xy.1 tt) as [cx' []]. cbn in Hcx. subst cx'.
  destruct cx as [x|e]; [|done].
  set (fx := (tmp0 + _)%float).
  destruct (int_of_float_run (S := S) fx s) as (ox & -> & Hx & Hex).
  destruct (int_of_float (S := unit) fx tt) as [ox' []]. cbn in Hx. subst ox'.
  destruct ox as [mx|e]; [|done].
  destruct (py_float_run (S := S) xy.2 s) as (cy & -> & Hcy & Hecy).
  destruct (py_float (S := unit) xy.2 tt) as [cy' []]. cbn in Hcy. subst cy'.
  destruct cy as [y|e]; [|done].
  set (fy := (tmp1 + _)%float).
  destruct (int_of_float_run (S := S) fy s) as (oy & -> & Hy & Hey).
  destruct (int_of_float (S := unit) fy tt) as [oy' []]. cbn in Hy. subst oy'.
  destruct oy as [my|e]; done.
Qed.

(** The loop over the elements of a nested list is the traversal
    itself. *)
Lemma each_is_recursive {S} tile (l : list Coord) :
  (fix each (l : list Coord) : M S (list Coord) :=
     match l with
     | [] => ret []
     | c :: rest =>
         v <- map_coordinate tile c ;;
         vs <- each rest ;;
         ret (v :: vs)
     end) l
  = map_coordinates_recursive tile l.
Proof. induction l as [|c l IH]; cbn; [reflexivity|]. by rewrite IH. Qed.

Lemma map_coordinate_tuple {S} tile c xy :
  as_coordinate_tuple c = Some xy ->
  (map_coordinate tile c : M S Coord)
  = (newval <- VtReader._calculate_geometry TileBounds xy tile ;;
     ret (CList [CInt newval.1; CInt newval.2])).
Proof.
  intros H. destruct c as [z|l]; [done|].
  cbn [VtReader.map_coordinate]. by rewrite H.
Qed.

Lemma map_coordinate_list {S} tile l :
  as_coordinate_tuple (CList l) = None ->
  (map_coordinate tile (CList l) : M S Coord)
  = (tmp <- map_coordinates_recursive tile l ;; ret (CList tmp)).
Proof.
  intros H. cbn [VtReader.map_coordinate]. rewrite H.
  by rewrite each_is_recursive.
Qed.

(** What the traversal of one element comes to: the object is left
    alone; a result is the structural image of a well-formed element; a
    [TypeError] tells an element that is not well-formed, and the only other
    exceptions are those of the number conversions. *)
Lemma map_coordinates_from_elements {S} tile (l : list Coord) :
  Forall (fun c => forall s : S, exists o, map_coordinate tile c s = (o, s)
            /\ match o with
               | Ok out => well_formed c = true
                          /\ out = map_pairs (reprojected tile) c
               | Raised e => (e = TypeError /\ well_formed c = false) \/ int_error e
               end) l ->
  forall s : S, exists o, map_coordinates_recursive tile l s = (o, s)
    /\ match o with
       | Ok out => forallb well_formed l = true
                  /\ out = map (map_pairs (reprojected tile)) l
       | Raised e => (e = TypeError /\ forallb well_formed l = false) \/ int_error e
       end.
Proof.
  induction 1 as [|c l Hc _ IH]; intros s.
  - exists (Ok []). by cbn.
  - cbn [VtReader.map_coordinates_recursive forallb map]. unfold bind.
    destruct (Hc s) as (o & -> & Ho). destruct o as [v|e].
    + destruct Ho as [-> ->]. destruct (IH s) as (o' & -> & Ho').
      destruct o' as [vs|e].
      * destruct Ho' as [-> ->]. by eexists.
      * eexists. split; [done|]. cbn. destruct Ho' as [[-> ->]|He]; auto.
    + eexists. split; [done|]. cbn. destruct Ho as [[-> ->]|He]; auto.
Qed.

Lemma map_coordinate_run {S} tile c : forall s : S,
  exists o, map_coordinate tile c s = (o, s)
    /\ match o with
       | Ok out => well_formed c = true /\ out = map_pairs (reprojected tile) c
       | Raised e => (e = TypeError /\ well_formed c = false) \/ int_error e
       end.
Proof.
  induction c as [z|l IH] using Coord_nested_ind; intros s.
  - exists (Raised TypeError). split; [done|]. by left.
  - destruct (as_coordinate_tuple (CList l)) as [xy|] eqn:E.
    + rewrite (map_coordinate_tuple tile _ xy E). unfold bind.
      destruct (calculate_geometry_run xy tile s) as [-> He].
      cbn [well_formed map_pairs]. rewrite E. unfold Geometries.reprojected.
      destruct (VtReader._calculate_geometry TileBounds xy tile tt).1 as [v|e];
        eexists; (split; [done|]); cbn; auto.
    + rewrite (map_coordinate_list tile l E). unfold bind.
      destruct (map_coordinates_from_elements tile l IH s) as (o & -> & Ho).
      cbn [well_formed map_pairs]. rewrite E.
      destruct o as [out|e]; eexists; (split; [done|]); cbn.
      * destruct Ho as [-> ->]. done.
      * done.
Qed.

Lemma map_coordinates_run {S} tile l (s : S) :
  exists o, map_coordinates_recursive tile l s = (o, s)
    /\ match o with
       | Ok out => forallb well_formed l = true
                  /\ out = map (map_pairs (reprojected tile)) l
       | Raised e => (e = TypeError /\ forallb well_formed l = false) \/ int_error e
       end.
Proof.
  apply map_coordinates_from_elements. apply Forall_forall.
  intros c _. apply map_coordinate_run.
Qed.

(** X20. A geometry that [map_coordinates_recursive] maps is made of
    coordinate tuples and nested lists of them only, and the result is the
    same nesting with every tuple replaced by its mercator image; the
    reader itself is not touched. *)
Theorem reprojection_keeps_nesting {S} tile coordinates (s : S) out s' :
  map_coordinates_recursive tile coordinates s = (Ok out, s') ->
  s' = s
  /\ forallb well_formed coordinates = true
  /\ out = map (map_pairs (reprojected tile)) coordinates.
Proof.
  intros Hrun. destruct (map_coordinates_run tile coordinates s) as (o & Ho & Hspec).
  rewrite Hrun in Ho. injection Ho as <- <-. by destruct Hspec.
Qed.


(** What [create_geojson_feature] comes to. *)
Lemma create_geojson_feature_run {S} feature tile (s : S) :
  exists o, create_geojson_feature feature tile s = (o, s)
    /\ match o with
       | Ok (data, g) =>
           type feature = geo_code g
           /\ properties data = raw_properties feature
           /\ forallb well_formed (raw_geometry feature) = true
           /\ match g with
              | POINT =>
                  exists first rest,
                    map (map_pairs (reprojected tile)) (raw_geometry feature)
                    = first :: rest
                    /\ geometry data = Point first
              | LINE_STRING =>
                  geometry data
                  = LineString (map (map_pairs (reprojected tile)) (raw_geometry feature))
              | POLYGON =>
                  geometry data
                  = Polygon (map (map_pairs (reprojected tile)) (raw_geometry feature))
              end
       | Raised e =>
           (e = KeyError
            /\ type feature <> 1 /\ type feature <> 2 /\ type feature <> 3)
           \/ (e = TypeError /\ forallb well_formed (raw_geometry feature) = false)
           \/ int_error e
           \/ (e = IndexError /\ type feature = 1 /\ raw_geometry feature = [])
       end.
Proof.
  unfold VtReader.create_geojson_feature, bind at 1, geo_types.
  destruct (Z.eqb_spec (type feature) 1) as [H1|H1];
    [|destruct (Z.eqb_spec (type feature) 2) as [H2|H2];
      [|destruct (Z.eqb_spec (type feature) 3) as [H3|H3]]];
    cbn [ret raise]; try (eexists; split; [reflexivity|]; cbn; by auto);
    unfold bind at 1;
    destruct (map_coordinates_run tile (raw_geometry feature) s) as (o & -> & Ho);
    (destruct o as [out|e];
      [destruct Ho as [Hwf ->]|eexists; split; [reflexivity|]; cbn; tauto]).
  - destruct (raw_geometry feature) as [|c rest] eqn:Eg; cbn.
    + eexists. split; [reflexivity|]. cbn. auto 10.
    + eexists. split; [reflexivity|]. cbn. repeat split; try done.
      by eexists _, _.
  - eexists. split; [reflexivity|]. cbn. done.
  - eexists. split; [reflexivity|]. cbn. done.
Qed.

(** X22. A feature that [create_geojson_feature] converts has one of
    the three known type codes; its properties are passed on unchanged,
    and its geometry is the reprojected nesting: all of it for a line
    string or a polygon, its first element only for a point. *)
Theorem geojson_feature_of_raw {S} feature tile (s : S) data g s' :
  create_geojson_feature feature tile s = (Ok (data, g), s') ->
  s' = s
  /\ type feature = geo_code g
  /\ properties data = raw_properties feature
  /\ match g with
     | POINT =>
         exists first rest,
           map (map_pairs (reprojected tile)) (raw_geometry feature) = first :: rest
           /\ geometry data = Point first
     | LINE_STRING =>
         geometry data
         = LineString (map (map_pairs (reprojected tile)) (raw_geometry feature))
     | POLYGON =>
         geometry data
         = Polygon (map (map_pairs (reprojected tile)) (raw_geometry feature))
     end.
Proof.
  intros Hrun. destruct (create_geojson_feature_run feature tile s) as (o & Ho & Hspec).
  rewrite Hrun in Ho. injection Ho as <- <-. tauto.
Qed.


(** What [write_feature] comes to: a raise leaves the reader as it was;
    otherwise the converted feature is filed under its path. *)
Lemma write_feature_run layer_name feature tile s :
  exists o s', write_feature layer_name feature tile s = (o, s')
    /\ match o with
       | Raised e => s' = s
       | Ok _ =>
           exists data g,
             create_geojson_feature feature tile s = (Ok (data, g), s)
             /\ all_features s'
                = file_under (feature_path layer_name (raw_properties feature)) data
                    (all_features s)
             /\ layers s' = layers s
       end.
Proof.
  unfold VtReader.write_feature, bind at 1.
  destruct (create_geojson_feature_run feature tile s) as (o & Hc & Ho). rewrite Hc.
  destruct o as [[data g]|e]; [|by eexists _, _].
  destruct Ho as (_ & Hprops & _). cbn [fst]. rewrite Hprops.
  unfold feature_path.
  destruct (raw_properties feature !! "class") as [[c|z|b]|] eqn:Ec;
    destruct (raw_properties feature !! "subclass") as [[sc|z'|b']|] eqn:Esc;
    cbn [from_option truthy default id andb negb];
    repeat match goal with
      | |- context [String.eqb ?x ?y] => destruct (String.eqb x y) eqn:?
      | |- context [Z.eqb ?x ?y] => destruct (Z.eqb x y) eqn:?
      | b : bool |- _ => destruct b
      end;
    cbn [from_option truthy default id andb negb];
    unfold bind, ret, raise, modify, dotted; cbn [fst snd];
    eexists _, _; (split; [reflexivity|]); cbn beta iota; try done;
    exists data, g; done.
Qed.

(** X24. [write_features] trips its assertion exactly on a feature that
    converts and carries a [class] that is present but falsy (an empty
    string, a zero, [False]) together with a truthy [subclass]; a feature
    with a [subclass] and no [class] at all never trips it. *)
Theorem assertion_needs_falsy_class layer_name feature tile s :
  returned (write_feature layer_name feature tile) s = Raised AssertionError
  <-> (exists dg, returned (create_geojson_feature feature tile) s = Ok dg)
      /\ (exists c sc,
            raw_properties feature !! "class" = Some c /\ truthy c = false
            /\ raw_properties feature !! "subclass" = Some sc /\ truthy sc = true).
Proof.
  unfold returned, VtReader.write_feature, bind at 1.
  destruct (create_geojson_feature_run feature tile s) as (o & Hc & Ho). rewrite Hc.
  destruct o as [[data g]|e].
  2:{ cbn. split; [|by intros [[? [=]] _]]. intros [= ->]. unfold int_error in Ho.
      destruct Ho as [[? _]|[[? _]|[[?|?]|[? _]]]]; done. }
  destruct Ho as (_ & Hprops & _). cbn [fst]. rewrite Hprops.
  destruct (raw_properties feature !! "class") as [c|] eqn:Ec;
    destruct (raw_properties feature !! "subclass") as [sc|] eqn:Esc;
    cbn [from_option default id];
    try destruct (truthy c) eqn:Htc; try destruct (truthy sc) eqn:Hts;
    cbn [andb negb]; try destruct c; try destruct sc;
    unfold bind, ret, raise, modify, dotted; cbn [fst snd];
    (split;
     [ intros H; first [discriminate H | split; [by eexists|by eexists _, _]]
     | intros (_ & c0 & sc0 & Hc0 & Hf & Hsc0 & Ht); simplify_eq; congruence ]).
Qed.

(** X25. A truthy [class] that is no string (a number, [True]), or a
    truthy [subclass] that is no string under a truthy [class], makes
    [write_features] raise [TypeError] where it builds the path; the
    feature is filed nowhere. *)
Theorem non_string_class_is_type_error layer_name feature tile s dg c :
  create_geojson_feature feature tile s = (Ok dg, s) ->
  raw_properties feature !! "class" = Some c ->
  truthy c = true ->
  (forall t, c <> SStr t)
  \/ (exists sc, raw_properties feature !! "subclass" = Some sc
                 /\ truthy sc = true /\ forall t, sc <> SStr t) ->
  write_feature layer_name feature tile s = (Raised TypeError, s).
Proof.
  intros Hc Ec Htc Hno.
  destruct (create_geojson_feature_run feature tile s) as (o & Hc' & Ho).
  rewrite Hc in Hc'. injection Hc' as <-. destruct dg as [data g].
  destruct Ho as (_ & Hprops & _).
  unfold VtReader.write_feature, bind at 1. rewrite Hc. cbn [fst].
  rewrite Hprops, Ec. cbn [from_option default id]. rewrite Htc.
  destruct Hno as [Hno|(sc & Esc & Hts & Hno)].
  - rewrite andb_false_r. unfold bind at 1. cbn [ret].
    destruct c as [t|z|b]; [by destruct (Hno t)|done|done].
  - rewrite Esc. cbn [from_option default id]. rewrite Hts. cbn [andb negb].
    unfold bind at 1. cbn [ret].
    destruct c as [t|z|b]; [|done|done].
    destruct sc as [t'|z'|b']; [by destruct (Hno t')|done|done].
Qed.

(** X26. A feature that [write_features] files ends up in exactly one
    collection: that of its layer when it has no class (or an empty one),
    of [layer.class] when it has a class and no subclass, and of
    [layer.class.subclass] when it has both.  The collection is created
    empty when it is missing; no other collection and no layer changes. *)
Theorem feature_is_filed_under_its_path layer_name feature tile s s' :
  write_feature layer_name feature tile s = (Ok tt, s') ->
  exists data g,
    create_geojson_feature feature tile s = (Ok (data, g), s)
    /\ all_features s'
       = file_under (feature_path layer_name (raw_properties feature)) data
           (all_features s)
    /\ layers s' = layers s.
Proof.
  intros Hrun.
  destruct (write_feature_run layer_name feature tile s) as (o & s1 & Ho & Hspec).
  rewrite Hrun in Ho. injection Ho as <- <-. exact Hspec.
Qed.

Lemma grown_from_refl m : grown_from m m.
Proof. intros p fc H. by exists fc. Qed.

Lemma grown_from_trans m1 m2 m3 :
  grown_from m1 m2 -> grown_from m2 m3 -> grown_from m1 m3.
Proof.
  intros H12 H23 p fc H. destruct (H12 p fc H) as (fc2 & H2 & Hp2 & Hc2).
  destruct (H23 p fc2 H2) as (fc3 & H3 & Hp3 & Hc3).
  exists fc3. split; [done|]. split; [by etrans|congruence].
Qed.

Lemma file_under_grown p data m : grown_from m (file_under p data m).
Proof.
  intros q fc Hq. unfold file_under. destruct (decide (q = p)) as [->|Hne].
  - rewrite lookup_insert_eq, Hq. eexists. split; [done|]. cbn.
    split; [by apply prefix_app_r|done].
  - rewrite lookup_insert_ne by done. by exists fc.
Qed.

Lemma feature_count_file_under p data m :
  feature_count (file_under p data m) = S (feature_count m).
Proof.
  unfold feature_count, file_under.
  destruct (m !! p) as [fc|] eqn:E; cbn [default from_option id].
  - rewrite <- insert_delete_eq.
    rewrite map_fold_insert_L; [|intros; lia|by rewrite lookup_delete_eq].
    rewrite (map_fold_delete_L _ _ p fc m); [|intros; lia|done].
    cbn. rewrite length_app. cbn. lia.
  - rewrite map_fold_insert_L; [|intros; lia|done]. cbn. lia.
Qed.

(** The features of one layer: the store only grows, no layer is
    created, and a run that returns has filed every feature. *)
Lemma write_layer_run layer_name tile tile_features : forall s,
  exists o s', write_layer layer_name tile_features tile s = (o, s')
    /\ grown_from (all_features s) (all_features s')
    /\ layers s' = layers s
    /\ match o with
       | Ok _ =>
           feature_count (all_features s')
           = (feature_count (all_features s) + length tile_features)%nat
       | Raised _ => True
       end.
Proof.
  induction tile_features as [|feature rest IH]; intros s.
  - exists (Ok tt), s. cbn. split; [done|]. split; [apply grown_from_refl|].
    split; [done|lia].
  - cbn [VtReader.write_layer]. unfold bind.
    destruct (write_feature_run layer_name feature tile s) as (o & s1 & -> & Ho).
    destruct o as [[]|e].
    + destruct Ho as (data & g & _ & Hall & Hl).
      destruct (IH s1) as (o' & s2 & -> & Hg & Hl2 & Hn).
      exists o', s2. split; [done|]. split.
      { eapply grown_from_trans; [|exact Hg]. rewrite Hall. apply file_under_grown. }
      split; [congruence|]. destruct o'; [|done].
      rewrite Hn, Hall, feature_count_file_under. cbn [length]. lia.
    + subst s1. exists (Raised e), s. split; [done|].
      split; [apply grown_from_refl|done].
Qed.

Lemma write_layers_run tile decoded : forall s,
  exists o s', write_layers decoded tile s = (o, s')
    /\ grown_from (all_features s) (all_features s')
    /\ layers s' = layers s
    /\ match o with
       | Ok _ =>
           feature_count (all_features s')
           = (feature_count (all_features s) + decoded_count decoded)%nat
       | Raised _ => True
       end.
Proof.
  induction decoded as [|[layer_name tile_features] rest IH]; intros s.
  - exists (Ok tt), s. cbn. split; [done|]. split; [apply grown_from_refl|].
    split; [done|]. unfold decoded_count. cbn. lia.
  - cbn [VtReader.write_layers]. unfold bind.
    destruct (write_layer_run layer_name tile tile_features s)
      as (o & s1 & -> & Hg1 & Hl1 & Hn1).
    destruct o as [[]|e].
    + destruct (IH s1) as (o' & s2 & -> & Hg & Hl2 & Hn).
      exists o', s2. split; [done|]. split; [by eapply grown_from_trans|].
      split; [congruence|]. destruct o'; [|done].
      rewrite Hn, Hn1. unfold decoded_count. cbn. lia.
    + by exists (Raised e), s1.
Qed.

Lemma write_features_run tile s :
  exists o s', write_features tile s = (o, s')
    /\ grown_from (all_features s) (all_features s')
    /\ layers s' = layers s
    /\ match o with
       | Ok _ =>
           exists decoded, decoded_data tile = Some decoded
             /\ feature_count (all_features s')
                = (feature_count (all_features s) + decoded_count decoded)%nat
       | Raised _ => True
       end.
Proof.
  unfold VtReader.write_features. destruct (decoded_data tile) as [decoded|].
  - destruct (write_layers_run tile decoded s) as (o & s' & -> & Hg & Hl & Hn).
    exists o, s'. split; [done|]. split; [done|]. split; [done|].
    destruct o; [|done]. by exists decoded.
  - exists (Raised TypeError), s. split; [done|]. split; [apply grown_from_refl|done].
Qed.

Lemma write_all_run tiles : forall s,
  exists o s', write_all tiles s = (o, s')
    /\ grown_from (all_features s) (all_features s')
    /\ layers s' = layers s.
Proof.
  induction tiles as [|tile rest IH]; intros s.
  - exists (Ok tt), s. split; [done|]. split; [apply grown_from_refl|done].
  - cbn [VtReader.write_all]. unfold bind.
    destruct (write_features_run tile s) as (o & s1 & -> & Hg1 & Hl1 & _).
    destruct o as [[]|e]; [|by exists (Raised e), s1].
    destruct (IH s1) as (o' & s2 & -> & Hg & Hl2).
    exists o', s2. split; [done|]. split; [by eapply grown_from_trans|congruence].
Qed.

(** X27. Aggregation only ever appends: whatever the tiles hold, and
    whether the run returns or raises half-way, every collection the reader
    held is still there with its features at the front and its reference
    system unchanged, and no layer is created. *)
Theorem aggregation_only_appends tiles s :
  grown_from (all_features s) (all_features (final (write_all tiles) s))
  /\ layers (final (write_all tiles) s) = layers s.
Proof.
  unfold final. destruct (write_all_run tiles s) as (o & s' & -> & Hg & Hl). done.
Qed.

(** X28. No feature is lost or filed twice: [write_features] returns
    only for a decoded tile, and the collections then hold, together, as
    many features more as the layers of the tile hold. *)
Theorem every_feature_is_filed_once tile s s' :
  write_features tile s = (Ok tt, s') ->
  exists decoded,
    decoded_data tile = Some decoded
    /\ feature_count (all_features s')
       = (feature_count (all_features s) + decoded_count decoded)%nat.
Proof.
  intros Hrun. destruct (write_features_run tile s) as (o & s1 & Ho & _ & _ & Hn).
  rewrite Hrun in Ho. by injection Ho as <- <-.
Qed.

Lemma process_tiles_run tiles s :
  exists o s', process_tiles tiles s = (o, s')
    /\ grown_from (all_features s) (all_features s')
    /\ match o with
       | Raised _ => layers s' = layers s
       | Ok _ => layers s' = layers s ++ map_to_list (all_features s')
       end.
Proof.
  unfold VtReader.process_tiles, bind.
  destruct (write_all_run tiles s) as (o & s' & -> & Hg & Hl).
  destruct o as [[]|e]; [|by exists (Raised e), s'].
  eexists _, _. split; [reflexivity|]. cbn. by rewrite Hl.
Qed.

(** X29. Layers are created all or nothing: when one tile of the run
    raises, [process_tiles] creates no layer at all, not even for the tiles
    aggregated before it; when the run returns, it creates one layer for
    every collection the reader holds, old ones included, with distinct
    names. *)
Theorem layers_are_all_or_nothing tiles s :
  match returned (process_tiles tiles) s with
  | Raised _ => layers (final (process_tiles tiles) s) = layers s
  | Ok _ =>
      layers (final (process_tiles tiles) s)
      = layers s ++ map_to_list (all_features (final (process_tiles tiles) s))
      /\ NoDup (map fst (map_to_list (all_features (final (process_tiles tiles) s))))
      /\ grown_from (all_features s) (all_features (final (process_tiles tiles) s))
  end.
Proof.
  unfold returned, final.
  destruct (process_tiles_run tiles s) as (o & s' & -> & Hg & Hl).
  destruct o as [[]|e]; cbn; [|done].
  split; [done|]. split; [apply NoDup_fst_map_to_list|done].
Qed.

(** X30. The collections are never emptied, so a second [do_work] on
    the same reader hands out the features of the first run again: every
    layer the first run created comes back, under the same name, from the
    second run, with the features of the first run at its front. *)
Theorem second_run_repeats_first zlib_decompress mvt_decode tuples1 tuples2 s s1 s2 :
  do_work TileBounds zlib_decompress mvt_decode tuples1 s = (Ok tt, s1) ->
  do_work TileBounds zlib_decompress mvt_decode tuples2 s1 = (Ok tt, s2) ->
  layers s2
  = layers s ++ map_to_list (all_features s1) ++ map_to_list (all_features s2)
  /\ forall name fc,
       (name, fc) ∈ map_to_list (all_features s1) ->
       exists fc', (name, fc') ∈ map_to_list (all_features s2)
                   /\ features fc `prefix_of` features fc'.
Proof.
  unfold VtReader.do_work. intros H1 H2.
  destruct (process_tiles_run (decode_all_tiles zlib_decompress mvt_decode tuples1) s)
    as (o1 & s1' & Ho1 & _ & Hl1).
  rewrite H1 in Ho1. injection Ho1 as <- <-.
  destruct (process_tiles_run (decode_all_tiles zlib_decompress mvt_decode tuples2) s1)
    as (o2 & s2' & Ho2 & Hg2 & Hl2).
  rewrite H2 in Ho2. injection Ho2 as <- <-.
  split; [by rewrite Hl2, Hl1, <- app_assoc|].
  intros name fc Hin%elem_of_map_to_list.
  destruct (Hg2 name fc Hin) as (fc' & Hin' & Hp & _).
  exists fc'. by rewrite elem_of_map_to_list.
Qed.

End Facts.

Lemma reprojection_keeps_nesting_witness :
  tt = tt
  /\ forallb well_formed Samples.ring = true
  /\ [CList [CList [CInt 949042; CInt 6000000]; CList [CInt 951488; CInt 6000000];
             CList [CInt 951488; CInt 6002446]; CList [CInt 949042; CInt 6002446];
             CList [CInt 949042; CInt 6000000]]]
     = map (map_pairs (reprojected GlobalMercator.TileBounds Samples.tile_a))
         Samples.ring.
Proof.
  apply (reprojection_keeps_nesting GlobalMercator.TileBounds Samples.tile_a
           Samples.ring tt).
  vm_compute. reflexivity.
Defined.


Lemma geojson_feature_of_raw_witness :
  tt = tt
  /\ type MoreSamples.marker = geo_code POINT
  /\ raw_properties MoreSamples.marker = raw_properties MoreSamples.marker
  /\ exists first rest,
       map (map_pairs (reprojected GlobalMercator.TileBounds Samples.tile_a))
         (raw_geometry MoreSamples.marker) = first :: rest
       /\ Point (CList [CInt 949042; CInt 6000000]) = Point first.
Proof.
  apply (geojson_feature_of_raw GlobalMercator.TileBounds MoreSamples.marker
           Samples.tile_a tt
           {| geometry := Point (CList [CInt 949042; CInt 6000000]);
              properties := raw_properties MoreSamples.marker |} POINT tt).
  vm_compute. reflexivity.
Defined.


Lemma assertion_needs_falsy_class_witness :
  returned (write_feature GlobalMercator.TileBounds "landcover" MoreSamples.unclassed
              Samples.tile_a) new
  = Raised AssertionError.
Proof.
  apply (proj2 (assertion_needs_falsy_class GlobalMercator.TileBounds "landcover"
                  MoreSamples.unclassed Samples.tile_a new)).
  split.
  - eexists. vm_compute. reflexivity.
  - exists (SStr ""), (SStr "forest"). repeat split; vm_compute; reflexivity.
Defined.

Lemma non_string_class_is_type_error_witness :
  write_feature GlobalMercator.TileBounds "landcover" MoreSamples.numbered
    Samples.tile_a new
  = (Raised TypeError, new).
Proof.
  apply (non_string_class_is_type_error GlobalMercator.TileBounds "landcover"
           MoreSamples.numbered Samples.tile_a new
           ({| geometry :=
                 Polygon (map (map_pairs (reprojected GlobalMercator.TileBounds
                                            Samples.tile_a)) Samples.ring);
               properties := raw_properties MoreSamples.numbered |}, POLYGON)
           (SInt 5)).
  - vm_compute. reflexivity.
  - vm_compute. reflexivity.
  - reflexivity.
  - left. discriminate.
Defined.

Lemma feature_is_filed_under_its_path_witness :
  exists data g,
    create_geojson_feature GlobalMercator.TileBounds Samples.forest Samples.tile_a new
    = (Ok (data, g), new)
    /\ all_features
         (final (write_feature GlobalMercator.TileBounds "landcover" Samples.forest
                   Samples.tile_a) new)
       = file_under (feature_path "landcover" (raw_properties Samples.forest)) data
           (all_features new)
    /\ layers
         (final (write_feature GlobalMercator.TileBounds "landcover" Samples.forest
                   Samples.tile_a) new)
       = layers new.
Proof.
  apply (feature_is_filed_under_its_path GlobalMercator.TileBounds "landcover"
           Samples.forest Samples.tile_a new).
  apply run_returned. vm_compute. reflexivity.
Defined.

Lemma every_feature_is_filed_once_witness :
  exists decoded,
    decoded_data MoreSamples.mixed_tile = Some decoded
    /\ feature_count
         (all_features
            (final (write_features GlobalMercator.TileBounds MoreSamples.mixed_tile) new))
       = (feature_count (all_features new) + decoded_count decoded)%nat.
Proof.
  apply (every_feature_is_filed_once GlobalMercator.TileBounds MoreSamples.mixed_tile new).
  apply run_returned. vm_compute. reflexivity.
Defined.

Lemma second_run_repeats_first_witness :
  let run :=
    do_work GlobalMercator.TileBounds Samples.unzip Samples.decode
      [(Samples.tile_b, "gz:forest")] in
  layers (final run (final run new))
  = layers new ++ map_to_list (all_features (final run new))
    ++ map_to_list (all_features (final run (final run new)))
  /\ forall name fc,
       (name, fc) ∈ map_to_list (all_features (final run new)) ->
       exists fc', (name, fc') ∈ map_to_list (all_features (final run (final run new)))
                   /\ features fc `prefix_of` features fc'.
Proof.
  intros run.
  apply (second_run_repeats_first GlobalMercator.TileBounds Samples.unzip
           Samples.decode [(Samples.tile_b, "gz:forest")]
           [(Samples.tile_b, "gz:forest")] new).
  - apply (run_returned run). vm_compute. reflexivity.
  - apply (run_returned run). vm_compute. reflexivity.
Defined.

End VtReaderMore.
